(** * EduAssist end-to-end tests: the element-location and explicit-wait engine

    A shallow embedding of [utils/driver_manager.py] (class [DriverManager])
    and [pages/base_page.py] (class [BasePage]), together with the part of
    [config/test_config.py] they read.

    The Python code drives a browser through Selenium.  The browser is the
    environment of the program: it is modelled by a record of oracles
    ([Browser]) that say what the automation endpoint answers to a command
    issued at a given instant.  The program itself is a state-and-exception
    monad over the class attributes of [DriverManager], a clock, the values
    held by the form controls of the page and the trace of observable
    events (printed diagnostics, sleeps, started waits, sampled URLs and
    titles).

    Conventions.
    - Time is counted in milliseconds ([Z]); a timeout argument is a number
      of seconds, as in the source ([timeout: int = None]).
    - A Python [str] restricted to code points below 256 is a [string];
      on these, [str.lower] works character by character.
    - An f-string handed to [print] is kept as a structured [message].
    - Loops ([while] in the source, the loop of [WebDriverWait.until]) are
      unrolled over a fuel that is computed from the timeout; a run that
      exhausts it yields [None], and the theorems show that no run does. *)

From Stdlib Require Import ZArith NArith List String Ascii Bool Lia.
Import ListNotations.
Local Open Scope Z_scope.

(** ** Python strings: [in] and [lower] *)

Fixpoint startswith (p s : string) : bool :=
  match p, s with
  | EmptyString, _ => true
  | String a p', String b s' => Ascii.eqb a b && startswith p' s'
  | String _ _, EmptyString => false
  end.

(** [contains needle hay] is the Python expression [needle in hay]. *)
Fixpoint contains (needle hay : string) : bool :=
  startswith needle hay
  || match hay with
     | EmptyString => false
     | String _ hay' => contains needle hay'
     end.

(** [str.lower] on one character below 256: A-Z and the Latin-1 capitals
    (192-222 without the multiplication sign 215) move up by 32. *)
Definition lower_char (c : ascii) : ascii :=
  let n := nat_of_ascii c in
  if ((65 <=? n)%nat && (n <=? 90)%nat)
     || ((192 <=? n)%nat && (n <=? 222)%nat && negb (n =? 215)%nat)
  then ascii_of_nat (n + 32) else c.

Fixpoint lower (s : string) : string :=
  match s with
  | EmptyString => EmptyString
  | String c s' => String (lower_char c) (lower s')
  end.

(** ** Selenium values *)

(** [selenium.webdriver.common.by.By] *)
Inductive By :=
| CSS_SELECTOR | XPATH | ID | CLASS_NAME | TAG_NAME | LINK_TEXT | PARTIAL_LINK_TEXT.

(** A locator is the tuple [(By.X, value)]. *)
Definition locator : Type := By * string.

(** An element handle; every [WebElement] object is truthy. *)
Definition WebElement : Type := nat.

(** The exception classes that can reach the code; all derive from
    [Exception]. *)
Inductive exn :=
| TimeoutException
| NoSuchElementException
| StaleElementReferenceException
| ElementNotInteractableException
| ElementClickInterceptedException
| InvalidSelectorException
| WebDriverException
| AttributeError
| RuntimeError (msg : string).

Definition is_TimeoutException (e : exn) : bool :=
  match e with TimeoutException => true | _ => false end.

Definition is_NoSuchElementException (e : exn) : bool :=
  match e with NoSuchElementException => true | _ => false end.

Inductive result (A : Type) :=
| Ret (a : A)
| Raise (e : exn).
Arguments Ret {A} a.
Arguments Raise {A} e.

(** The automation endpoint ([webdriver.Chrome] and the elements it hands
    out).  Every oracle takes the instant at which the command is issued.
    - [find_element] raises [NoSuchElementException] when nothing matches;
    - [clickable] is one evaluation of
      [EC.element_to_be_clickable(locator)(driver)]: [Ret None] stands for
      its [False];
    - [ready_state] is [execute_script("return document.readyState")];
    - [text] is the rendered text of the element (Get Element Text); the
      current value of a form control is not part of it, it is the
      [value] property, kept in the state below;
    - [get_attribute] answers for every attribute but [value];
    - [latency] is how long the command issued at that instant blocks. *)
Record Browser := {
  latency : Z -> N;
  find_element : Z -> locator -> result WebElement;
  clickable : Z -> locator -> result (option WebElement);
  ready_state : Z -> result string;
  current_url : Z -> result string;
  title : Z -> result string;
  is_displayed : Z -> WebElement -> result bool;
  click : Z -> WebElement -> result unit;
  clear : Z -> WebElement -> result unit;
  send_keys : Z -> WebElement -> string -> result unit;
  text : Z -> WebElement -> result string;
  get_attribute : Z -> WebElement -> string -> result (option string);
  quit : Z -> result unit
}.

(** [selenium.webdriver.support.ui.WebDriverWait]: the object keeps its
    timeout (seconds); the poll interval is the default 0.5 s. *)
Record WebDriverWait := { _timeout : Z }.

Definition POLL_FREQUENCY : Z := 500.

(** ** Observable events *)

(** The lines the code prints. *)
Inductive message :=
| PageLoadTimeout
| ElementNotFound (l : locator)
| ElementNotClickable (l : locator)
| ClickFailed (e : exn)
| TextInputFailed (e : exn)
| GetTextFailed (e : exn)
| GetAttributeFailed (e : exn)
| CleaningUp
| CleanupCompleted
| CleanupError (e : exn)
| FoundWithSelector (selector : string)
| ClickedWithSelector (selector : string)
| NoWorkingSelector (selectors : list string).

Inductive event :=
| Printed (m : message)
| Sleep (at_ : Z) (ms : Z)
| Wait (at_ : Z) (timeout : Z)
| Url (at_ : Z) (url : string)
| Title (at_ : Z) (title : string).

(** ** Program state *)

Record State := {
  clock : Z;
  _driver : option Browser;
  _wait : option WebDriverWait;
  values : WebElement -> string;
  trace : list event
}.

Definition with_clock (t : Z) (s : State) : State :=
  {| clock := t; _driver := _driver s; _wait := _wait s;
     values := values s; trace := trace s |}.

Definition with_driver (d : option Browser) (s : State) : State :=
  {| clock := clock s; _driver := d; _wait := _wait s;
     values := values s; trace := trace s |}.

Definition with_wait (w : option WebDriverWait) (s : State) : State :=
  {| clock := clock s; _driver := _driver s; _wait := w;
     values := values s; trace := trace s |}.

Definition with_value (e : WebElement) (v : string) (s : State) : State :=
  {| clock := clock s; _driver := _driver s; _wait := _wait s;
     values := fun e' => if Nat.eqb e' e then v else values s e';
     trace := trace s |}.

Definition with_event (ev : event) (s : State) : State :=
  {| clock := clock s; _driver := _driver s; _wait := _wait s;
     values := values s; trace := ev :: trace s |}.

(** ** The monad: state, exceptions, fuel *)

Definition M (A : Type) : Type := State -> option (result A * State).

Definition ret {A} (a : A) : M A := fun s => Some (Ret a, s).

Definition raise {A} (e : exn) : M A := fun s => Some (Raise e, s).

Definition out_of_fuel {A} : M A := fun _ => None.

Definition bind {A B} (m : M A) (f : A -> M B) : M B :=
  fun s =>
    match m s with
    | Some (Ret a, s') => f a s'
    | Some (Raise e, s') => Some (Raise e, s')
    | None => None
    end.

Declare Scope py_scope.
Delimit Scope py_scope with py.
Notation "x <- m ;; k" := (bind m (fun x => k))
  (at level 100, m at next level, right associativity) : py_scope.
Notation "m ;; k" := (bind m (fun _ => k))
  (at level 100, k at level 200, right associativity) : py_scope.
Local Open Scope py_scope.

(** [try: m  except <classes>: h]: the handler answers [None] for the
    exceptions the clause does not name. *)
Definition try_except {A} (m : M A) (h : exn -> option (M A)) : M A :=
  fun s =>
    match m s with
    | Some (Raise e, s') =>
        match h e with
        | Some k => k s'
        | None => Some (Raise e, s')
        end
    | other => other
    end.

(** [except Exception as e: k e] *)
Definition except_Exception {A} (k : exn -> M A) : exn -> option (M A) :=
  fun e => Some (k e).

(** [except TimeoutException: k] *)
Definition except_TimeoutException {A} (k : M A) : exn -> option (M A) :=
  fun e => if is_TimeoutException e then Some k else None.

(** [except NoSuchElementException: k] *)
Definition except_NoSuchElementException {A} (k : M A) : exn -> option (M A) :=
  fun e => if is_NoSuchElementException e then Some k else None.

Definition emit (ev : event) : M unit := fun s => Some (Ret tt, with_event ev s).

Definition print (m : message) : M unit := emit (Printed m).

(** [time.time()] *)
Definition time_time : M Z := fun s => Some (Ret (clock s), s).

(** [time.sleep(ms / 1000)] called by the page objects. *)
Definition time_sleep (ms : Z) : M unit :=
  fun s => Some (Ret tt, with_clock (clock s + ms) (with_event (Sleep (clock s) ms) s)).

(** The sleep inside [WebDriverWait.until]. *)
Definition poll_sleep : M unit :=
  fun s => Some (Ret tt, with_clock (clock s + POLL_FREQUENCY) s).

(** A command sent through [cls._driver]: on [None] the attribute access
    raises [AttributeError]; otherwise the endpoint answers and the clock
    moves by the latency of the command. *)
Definition command {A} (ask : Browser -> Z -> result A) : M A :=
  fun s =>
    match _driver s with
    | None => Some (Raise AttributeError, s)
    | Some b =>
        Some (ask b (clock s),
              with_clock (clock s + Z.of_N (latency b (clock s))) s)
    end.

(** Assignments to the class attributes, and the value of a form control. *)
Definition set_driver (d : option Browser) : M unit :=
  fun s => Some (Ret tt, with_driver d s).

Definition set_wait (w : option WebDriverWait) : M unit :=
  fun s => Some (Ret tt, with_wait w s).

Definition get_value (e : WebElement) : M string :=
  fun s => Some (Ret (values s e), s).

Definition set_value (e : WebElement) (v : string) : M unit :=
  fun s => Some (Ret tt, with_value e v s).

(** *** Element methods *)

Definition element_is_displayed (e : WebElement) : M bool :=
  command (fun b t => is_displayed b t e).

Definition element_click (e : WebElement) : M unit :=
  command (fun b t => click b t e).

(** [element.clear()]: an accepted clear empties the control. *)
Definition element_clear (e : WebElement) : M unit :=
  command (fun b t => clear b t e) ;;
  set_value e EmptyString.

(** [element.send_keys(text)]: accepted keys are appended to the value. *)
Definition element_send_keys (e : WebElement) (keys : string) : M unit :=
  command (fun b t => send_keys b t e keys) ;;
  old <- get_value e ;;
  set_value e (old ++ keys)%string.

(** [element.text] *)
Definition element_text (e : WebElement) : M string :=
  command (fun b t => text b t e).

(** [element.get_attribute(name)]: [value] is the current value of the
    control, everything else is the endpoint's answer. *)
Definition element_get_attribute (e : WebElement) (name : string) : M (option string) :=
  answer <- command (fun b t => get_attribute b t e name) ;;
  if String.eqb name "value"
  then v <- get_value e ;; ret (Some v)
  else ret answer.

(** A property read on the driver ([driver.current_url], [driver.title]);
    a read that succeeds is recorded with the instant it was issued at. *)
Definition observe (mk : Z -> string -> event) (read : Browser -> Z -> result string)
  : M string :=
  now <- time_time ;;
  v <- command read ;;
  emit (mk now v) ;;
  ret v.

(** *** [WebDriverWait(driver, timeout).until(method)]

    [end_time] is fixed on entry; each round evaluates [method], treating
    [NoSuchElementException] as "not yet"; a truthy value is returned;
    otherwise the deadline is tested and, when it has not passed, the loop
    sleeps for the poll interval. *)
Fixpoint until_loop {A} (fuel : nat) (method : M (option A)) (end_time : Z) : M A :=
  match fuel with
  | O => out_of_fuel
  | S fuel' =>
      value <- try_except method (except_NoSuchElementException (ret None)) ;;
      match value with
      | Some v => ret v
      | None =>
          now <- time_time ;;
          if end_time <? now then raise TimeoutException
          else poll_sleep ;; until_loop fuel' method end_time
      end
  end.

Definition fuel_of (timeout : Z) : nat := S (S (Z.to_nat (2 * timeout))).

Definition until {A} (timeout : Z) (method : M (option A)) : M A :=
  now <- time_time ;;
  emit (Wait now timeout) ;;
  until_loop (fuel_of timeout) method (now + 1000 * timeout).

(** [EC.presence_of_element_located(locator)] *)
Definition presence_of_element_located (l : locator) : M (option WebElement) :=
  e <- command (fun b t => find_element b t l) ;; ret (Some e).

(** [EC.element_to_be_clickable(locator)] *)
Definition element_to_be_clickable (l : locator) : M (option WebElement) :=
  command (fun b t => clickable b t l).

(** [lambda driver: driver.execute_script("return document.readyState") == "complete"] *)
Definition document_ready : M (option bool) :=
  state <- command ready_state ;;
  ret (if String.eqb state "complete" then Some true else None).

(** ** [config/test_config.py] *)

Module config.

Definition IMPLICIT_WAIT : Z := 5.

Inductive tier := short | medium | long | ai_response.

Definition TIMEOUTS (k : tier) : Z :=
  match k with
  | short => 5
  | medium => 15
  | long => 30
  | ai_response => 45
  end.

End config.

(** [timeout or default] for [timeout: int = None]: [None] and [0] are the
    falsy values. *)
Definition or_default (timeout : option Z) (default : Z) : Z :=
  match timeout with
  | None => default
  | Some t => if t =? 0 then default else t
  end.

(** ** [utils/driver_manager.py] *)

Module DriverManager.

Definition get_driver : M Browser :=
  fun s =>
    match _driver s with
    | None => raise (RuntimeError "WebDriver not initialized. Call initialize_driver() first.") s
    | Some d => ret d s
    end.

Definition get_wait : M WebDriverWait :=
  fun s =>
    match _wait s with
    | None => raise (RuntimeError "WebDriverWait not initialized. Call initialize_driver() first.") s
    | Some w => ret w s
    end.

Definition wait_for_page_load (timeout : option Z) : M unit :=
  let timeout := or_default timeout (config.TIMEOUTS config.medium) in
  try_except
    (until timeout document_ready ;; ret tt)
    (except_TimeoutException (print PageLoadTimeout)).

Definition find_element_safe (l : locator) (timeout : option Z) : M (option WebElement) :=
  let timeout := or_default timeout (config.TIMEOUTS config.medium) in
  try_except
    (element <- until timeout (presence_of_element_located l) ;;
     ret (Some element))
    (except_TimeoutException (print (ElementNotFound l) ;; ret None)).

Definition wait_for_element_clickable (l : locator) (timeout : option Z)
  : M (option WebElement) :=
  let timeout := or_default timeout (config.TIMEOUTS config.medium) in
  try_except
    (element <- until timeout (element_to_be_clickable l) ;;
     ret (Some element))
    (except_TimeoutException (print (ElementNotClickable l) ;; ret None)).

Definition click_element_safe (l : locator) (timeout : option Z) : M bool :=
  element <- wait_for_element_clickable l timeout ;;
  match element with
  | Some e =>
      try_except
        (element_click e ;; ret true)
        (except_Exception (fun ex => print (ClickFailed ex) ;; ret false))
  | None => ret false
  end.

Definition type_text_safe (l : locator) (keys : string) (clear_first : bool) : M bool :=
  element <- find_element_safe l None ;;
  match element with
  | Some e =>
      try_except
        ((if clear_first then element_clear e else ret tt) ;;
         element_send_keys e keys ;;
         ret true)
        (except_Exception (fun ex => print (TextInputFailed ex) ;; ret false))
  | None => ret false
  end.

Definition get_text_safe (l : locator) : M string :=
  element <- find_element_safe l None ;;
  match element with
  | Some e =>
      try_except
        (element_text e)
        (except_Exception (fun ex => print (GetTextFailed ex) ;; ret EmptyString))
  | None => ret EmptyString
  end.

Definition get_current_url : M string := observe Url current_url.

Definition get_title : M string := observe Title title.

Definition quit_driver : M unit :=
  fun s =>
    match _driver s with
    | Some _ =>
        (print CleaningUp ;;
         try_except
           (command quit ;;
            set_driver None ;;
            set_wait None ;;
            print CleanupCompleted)
           (except_Exception (fun ex => print (CleanupError ex)))) s
    | None => ret tt s
    end.

(** [by_css(selector)] *)
Definition by_css (selector : string) : locator := (CSS_SELECTOR, selector).

(** [by_xpath(xpath)] *)
Definition by_xpath (xpath : string) : locator := (XPATH, xpath).

(** [is_element_displayed]: a lookup with the fixed timeout of 2 s; the
    bare [except:] around [element.is_displayed()] turns every exception
    into [False]. *)
Definition is_element_displayed (l : locator) : M bool :=
  element <- find_element_safe l (Some 2) ;;
  match element with
  | Some e =>
      try_except
        (element_is_displayed e)
        (except_Exception (fun _ => ret false))
  | None => ret false
  end.

End DriverManager.

(** ** [pages/base_page.py] *)

Module BasePage.

Import DriverManager.

(** The attributes [__init__] stores. *)
Record self_ := { driver : Browser; wait : WebDriverWait }.

Definition __init__ : M self_ :=
  d <- DriverManager.get_driver ;;
  w <- DriverManager.get_wait ;;
  ret {| driver := d; wait := w |}.

Definition find_element_safe (l : locator) (timeout : option Z) : M (option WebElement) :=
  DriverManager.find_element_safe l timeout.

Definition click_element (l : locator) (timeout : option Z) : M bool :=
  DriverManager.click_element_safe l timeout.

Definition type_text (l : locator) (keys : string) (clear_first : bool) : M bool :=
  DriverManager.type_text_safe l keys clear_first.

Definition get_text (l : locator) : M string :=
  DriverManager.get_text_safe l.

Definition get_current_url : M string := DriverManager.get_current_url.

Definition get_page_title : M string := DriverManager.get_title.

Definition wait_for_page_load (timeout : option Z) : M unit :=
  DriverManager.wait_for_page_load timeout.

(** What [try_multiple_selectors] returns besides [None]: the element in
    "find" mode, [True] in "click" mode. *)
Inductive found :=
| Element (e : WebElement)
| True_.

(** One round of the [for] loop: [Some v] is [return v], [None] falls
    through to the next selector. *)
Definition try_selector (selector action : string) : M (option found) :=
  let l := by_css selector in
  if String.eqb action "find" then
    element <- find_element_safe l (Some 2) ;;
    match element with
    | Some e =>
        shown <- element_is_displayed e ;;
        if shown then print (FoundWithSelector selector) ;; ret (Some (Element e))
        else ret None
    | None => ret None
    end
  else if String.eqb action "click" then
    clicked <- click_element l (Some 2) ;;
    if clicked then print (ClickedWithSelector selector) ;; ret (Some True_)
    else ret None
  else ret None.

Fixpoint try_each (all rest : list string) (action : string) : M (option found) :=
  match rest with
  | [] => print (NoWorkingSelector all) ;; ret None
  | selector :: rest' =>
      r <- try_except (try_selector selector action)
                      (except_Exception (fun _ => ret None)) ;;
      match r with
      | Some v => ret (Some v)
      | None => try_each all rest' action
      end
  end.

Definition try_multiple_selectors (selectors : list string) (action : string)
  : M (option found) :=
  try_each selectors selectors action.

(** [while time.time() - start_time < timeout: <body>; time.sleep(0.5)]
    where [body] may [return]; falling out of the loop gives [None]. *)
Fixpoint while_before {A} (fuel : nat) (start_time timeout : Z) (body : M (option A))
  : M (option A) :=
  match fuel with
  | O => out_of_fuel
  | S fuel' =>
      now <- time_time ;;
      if now - start_time <? 1000 * timeout then
        r <- body ;;
        match r with
        | Some v => ret (Some v)
        | None => time_sleep 500 ;; while_before fuel' start_time timeout body
        end
      else ret None
  end.

Definition rounds_of (timeout : Z) : nat := S (Z.to_nat (2 * timeout)).

(** The [for selector in selectors] of [wait_for_any_element]. *)
Fixpoint scan (selectors : list string) : M (option WebElement) :=
  match selectors with
  | [] => ret None
  | selector :: rest =>
      element <- find_element_safe (by_css selector) (Some 1) ;;
      match element with
      | Some e =>
          shown <- element_is_displayed e ;;
          if shown then ret (Some e) else scan rest
      | None => scan rest
      end
  end.

Definition wait_for_any_element (selectors : list string) (timeout : option Z)
  : M (option WebElement) :=
  let timeout := or_default timeout (config.TIMEOUTS config.medium) in
  start_time <- time_time ;;
  while_before (rounds_of timeout) start_time timeout (scan selectors).

Definition get_element_attribute (l : locator) (attribute : string) : M string :=
  element <- find_element_safe l None ;;
  match element with
  | Some e =>
      try_except
        (v <- element_get_attribute e attribute ;;
         ret (match v with
              | Some v' => v'
              | None => EmptyString
              end))
        (except_Exception (fun ex => print (GetAttributeFailed ex) ;; ret EmptyString))
  | None => ret EmptyString
  end.

(** The value of a polling function whose loop [return]s [True] and
    whose last line is [return False]. *)
Definition or_False (r : option bool) : bool :=
  match r with
  | Some v => v
  | None => false
  end.

Definition wait_for_url_contains (needle : string) (timeout : option Z) : M bool :=
  let timeout := or_default timeout (config.TIMEOUTS config.medium) in
  start_time <- time_time ;;
  r <- while_before (rounds_of timeout) start_time timeout
         (url <- get_current_url ;;
          ret (if contains needle url then Some true else None)) ;;
  ret (or_False r).

Definition wait_for_title_contains (needle : string) (timeout : option Z) : M bool :=
  let timeout := or_default timeout (config.TIMEOUTS config.medium) in
  start_time <- time_time ;;
  r <- while_before (rounds_of timeout) start_time timeout
         (page_title <- get_page_title ;;
          ret (if contains (lower needle) (lower page_title) then Some true else None)) ;;
  ret (or_False r).

Definition is_element_displayed (l : locator) : M bool :=
  DriverManager.is_element_displayed l.

End BasePage.

(** ** Idioms of the page objects *)

(** The double quote of the selectors, and a quoted word. *)
Definition dq : string := String (Ascii.ascii_of_nat 34) EmptyString.

Definition quoted (word : string) : string := (dq ++ word ++ dq)%string.

(** [any(self.is_element_displayed(by_css(selector)) for selector in selectors)]:
    the generator is consumed lazily, [any] stops at the first [True]. *)
Fixpoint any_displayed (selectors : list string) : M bool :=
  match selectors with
  | [] => ret false
  | selector :: rest =>
      shown <- BasePage.is_element_displayed (DriverManager.by_css selector) ;;
      if shown then ret true else any_displayed rest
  end.

(** [for selector in selectors: text = self.get_text(by_css(selector))]
    with [if text: return text] in the body and [return ""] after the loop;
    the empty string is the falsy one. *)
Fixpoint first_text (selectors : list string) : M string :=
  match selectors with
  | [] => ret EmptyString
  | selector :: rest =>
      text <- BasePage.get_text (DriverManager.by_css selector) ;;
      match text with
      | EmptyString => first_text rest
      | String _ _ => ret text
      end
  end.

(** [for selector in selectors: if self.click_element(by_css(selector)): return True]
    followed by [return False]. *)
Fixpoint click_any (selectors : list string) : M bool :=
  match selectors with
  | [] => ret false
  | selector :: rest =>
      clicked <- BasePage.click_element (DriverManager.by_css selector) None ;;
      if clicked then ret true else click_any rest
  end.

(** [str.strip()] for characters below 256: the white space of Python is
    tab to carriage return (9-13), the separators 28-31, the space, NEL
    (133) and the no-break space (160). *)
Definition isspace (c : ascii) : bool :=
  let n := nat_of_ascii c in
  ((9 <=? n)%nat && (n <=? 13)%nat) || ((28 <=? n)%nat && (n <=? 32)%nat)
  || (n =? 133)%nat || (n =? 160)%nat.

Fixpoint lstrip (s : string) : string :=
  match s with
  | EmptyString => EmptyString
  | String c s' => if isspace c then lstrip s' else s
  end.

Fixpoint rstrip (s : string) : string :=
  match s with
  | EmptyString => EmptyString
  | String c s' =>
      match rstrip s' with
      | EmptyString => if isspace c then EmptyString else String c EmptyString
      | String _ _ as kept => String c kept
      end
  end.

Definition strip (s : string) : string := rstrip (lstrip s).

(** ** The progress lines of the page objects *)

(** The lines [pages/login_page.py] prints, and the diagnostic of
    [BasePage.send_keys_to_element]. *)
Inductive line :=
| AttemptingLogin (email : string)
| EmailEntered
| FailedToEnterEmail
| EmailInputNotFound
| PasswordEntered
| FailedToEnterPassword
| PasswordInputNotFound
| LoginButtonClickedCss (selector : string)
| LoginButtonClickedXPath
| LoginButtonNotClickable
| LoginFormSubmitted
| WaitingForLoginSuccess
| LoginSuccessful (url : string)
| LoginAppearsSuccessful (url : string)
| LoginSuccessTimeout
| TitleEmptyUrlConfirms (url : string)
| TitleVerified (title keyword : string)
| TitleUnexpectedUrlConfirms (title : string)
| TitleUnexpected (title : string)
| AttemptingLoginWithEnter (email : string)
| LoginSubmittedWithEnter
| SendKeysFailed (e : exn)
| ClearingLoginForm
| LoginFormCleared.

(** A page object runs over the session and the lines it has printed,
    newest first.  The diagnostics of [DriverManager] and [BasePage] stay
    in the trace of the session; how the two lists interleave is not
    recorded. *)
Record Console := { session : State; stdout : list line }.

Definition Page (A : Type) : Type := Console -> option (result A * Console).

Definition pret {A} (a : A) : Page A := fun c => Some (Ret a, c).

Definition pbind {A B} (m : Page A) (f : A -> Page B) : Page B :=
  fun c =>
    match m c with
    | Some (Ret a, c') => f a c'
    | Some (Raise e, c') => Some (Raise e, c')
    | None => None
    end.

(** A call into [BasePage] or [DriverManager]. *)
Definition lift {A} (m : M A) : Page A :=
  fun c =>
    match m (session c) with
    | Some (r, s') => Some (r, {| session := s'; stdout := stdout c |})
    | None => None
    end.

Definition say (l : line) : Page unit :=
  fun c => Some (Ret tt, {| session := session c; stdout := l :: stdout c |}).

Declare Scope page_scope.
Delimit Scope page_scope with page.
Notation "x <- m ;; k" := (pbind m (fun x => k))
  (at level 100, m at next level, right associativity) : page_scope.
Notation "m ;; k" := (pbind m (fun _ => k))
  (at level 100, k at level 200, right associativity) : page_scope.

(** [try: m  except Exception as e: h e] in a page object. *)
Definition pcatch {A} (m : Page A) (h : exn -> Page A) : Page A :=
  fun c =>
    match m c with
    | Some (Raise e, c') => h e c'
    | other => other
    end.

(** [Keys.RETURN], the code point U+E006, as its UTF-8 bytes. *)
Definition RETURN : string :=
  String (Ascii.ascii_of_nat 238) (String (Ascii.ascii_of_nat 128)
    (String (Ascii.ascii_of_nat 134) EmptyString)).

(** [element.send_keys(key)] for a key of [Keys]: a key press is not text,
    the value of the control stays as it is. *)
Definition element_press (e : WebElement) (key : string) : M unit :=
  command (fun b t => send_keys b t e key).

(** [BasePage.send_keys_to_element(locator, keys)]; its callers pass a key
    of [Keys]. *)
Definition send_keys_to_element (l : locator) (key : string) : Page bool :=
  (element <- lift (BasePage.find_element_safe l None) ;;
   match element with
   | Some e =>
       pcatch (lift (element_press e key) ;; pret true)
              (fun ex => say (SendKeysFailed ex) ;; pret false)
   | None => pret false
   end)%page.

(** [selectors[0]] on one of the selector lists of [__init__], none of
    which is empty. *)
Definition item0 (selectors : list string) : string := hd EmptyString selectors.

(** The [while time.time() - start_time < timeout] loop of a page object
    that prints. *)
Fixpoint polling {A} (fuel : nat) (start_time timeout : Z) (body : Page (option A))
  : Page (option A) :=
  match fuel with
  | O => fun _ => None
  | S fuel' =>
      (now <- lift time_time ;;
       if now - start_time <? 1000 * timeout then
         r <- body ;;
         match r with
         | Some v => pret (Some v)
         | None => lift (time_sleep 500) ;; polling fuel' start_time timeout body
         end
       else pret None)%page
  end.

(** ** [pages/login_page.py] *)

Module LoginPage.

(** The selector lists of [__init__]; every attribute the methods below
    read is assigned there. *)
Definition email_input_selectors : list string :=
  [ "#email";
    "input[type=" ++ quoted "email" ++ "]";
    "input[placeholder*=" ++ quoted "email" ++ "]";
    "[name=" ++ quoted "email" ++ "]" ]%string.

Definition password_input_selectors : list string :=
  [ "#password";
    "input[type=" ++ quoted "password" ++ "]";
    "input[placeholder*=" ++ quoted "password" ++ "]";
    "[name=" ++ quoted "password" ++ "]" ]%string.

Definition login_button_selectors : list string :=
  [ "button[type=" ++ quoted "submit" ++ "]";
    ".game-button";
    "form button";
    "button" ]%string.

Definition error_message_selectors : list string :=
  [ ".text-red-400";
    ".text-red-500";
    "[role=" ++ quoted "alert" ++ "]";
    ".error-message";
    "p.text-red-400" ]%string.

Definition success_message_selectors : list string :=
  [ ".text-green-400";
    ".text-green-500";
    ".success-message";
    "[data-testid=" ++ quoted "success-message" ++ "]" ]%string.

Definition is_login_form_displayed : M bool :=
  email_visible <- any_displayed email_input_selectors ;;
  password_visible <- any_displayed password_input_selectors ;;
  button_visible <- any_displayed login_button_selectors ;;
  ret (email_visible && password_visible && button_visible).

Definition get_error_message : M string := first_text error_message_selectors.

Definition is_error_message_displayed : M bool := any_displayed error_message_selectors.

Definition get_success_message : M string := first_text success_message_selectors.

Definition is_success_message_displayed : M bool :=
  any_displayed success_message_selectors.

(** The locals of [click_forgot_password_link]. *)
Definition forgot_selectors : list string :=
  [ "a[href*=" ++ quoted "forgot" ++ "]";
    "a[href*=" ++ quoted "reset" ++ "]";
    "[data-testid=" ++ quoted "forgot-password" ++ "]";
    ".forgot-password" ]%string.

Definition forgot_xpath : string :=
  ("//a[contains(text(), " ++ quoted "Forgot" ++ ") or contains(text(), "
   ++ quoted "Reset" ++ ")]")%string.

Definition click_forgot_password_link : M bool :=
  clicked <- BasePage.click_element (DriverManager.by_xpath forgot_xpath) None ;;
  if clicked then ret true else click_any forgot_selectors.

Definition login_button_xpath : string :=
  ("//button[contains(text(), " ++ quoted "Login" ++ ") or @type=" ++ quoted "submit"
   ++ "]")%string.

(** The [for selector in self.login_button_selectors] of [login]; the
    value is [login_clicked] after the loop. *)
Fixpoint click_login_button (selectors : list string) : Page bool :=
  match selectors with
  | [] => pret false
  | selector :: rest =>
      (clicked <- lift (BasePage.click_element (DriverManager.by_css selector) None) ;;
       if clicked then say (LoginButtonClickedCss selector) ;; pret true
       else click_login_button rest)%page
  end.

Definition login (email password : string) : Page bool :=
  (say (AttemptingLogin email) ;;
   email_success <- lift (BasePage.try_multiple_selectors email_input_selectors "find") ;;
   match email_success with
   | None => say EmailInputNotFound ;; pret false
   | Some _ =>
       typed <- lift (BasePage.type_text
                        (DriverManager.by_css (item0 email_input_selectors)) email true) ;;
       if negb typed then say FailedToEnterEmail ;; pret false
       else
         say EmailEntered ;;
         password_success <-
           lift (BasePage.try_multiple_selectors password_input_selectors "find") ;;
         match password_success with
         | None => say PasswordInputNotFound ;; pret false
         | Some _ =>
             typed <- lift (BasePage.type_text
                              (DriverManager.by_css (item0 password_input_selectors))
                              password true) ;;
             if negb typed then say FailedToEnterPassword ;; pret false
             else
               say PasswordEntered ;;
               by_css_ <- click_login_button login_button_selectors ;;
               login_clicked <-
                 (if by_css_ then pret true
                  else
                    clicked <- lift (BasePage.click_element
                                       (DriverManager.by_xpath login_button_xpath) None) ;;
                    if clicked then say LoginButtonClickedXPath ;; pret true
                    else pret false) ;;
               if negb login_clicked then say LoginButtonNotClickable ;; pret false
               else
                 lift (time_sleep 2000) ;;
                 say LoginFormSubmitted ;;
                 pret true
         end
   end)%page.

Definition success_indicators : list string :=
  [ "/dashboard"; "/home"; "/welcome" ]%string.

(** The line printed when the URL has left [/login]. *)
Definition success_line (current_url : string) : line :=
  if existsb (fun indicator => contains indicator current_url) success_indicators
  then LoginSuccessful current_url
  else LoginAppearsSuccessful current_url.

Definition wait_for_login_success (timeout : option Z) : Page bool :=
  let timeout := or_default timeout (config.TIMEOUTS config.medium) in
  (say WaitingForLoginSuccess ;;
   start_time <- lift time_time ;;
   r <- polling (BasePage.rounds_of timeout) start_time timeout
          (current_url <- lift BasePage.get_current_url ;;
           if negb (contains "/login" current_url) then
             say (success_line current_url) ;; pret (Some true)
           else pret None) ;;
   match r with
   | Some v => pret v
   | None => say LoginSuccessTimeout ;; pret false
   end)%page.

Definition expected_keywords : list string :=
  [ "login"; "sign in"; "eduassist"; "authentication" ]%string.

Definition verify_page_title : Page bool :=
  (title <- lift BasePage.get_page_title ;;
   early <-
     (if String.eqb title EmptyString || String.eqb (strip title) EmptyString then
        current_url <- lift BasePage.get_current_url ;;
        if contains "/login" current_url then
          say (TitleEmptyUrlConfirms current_url) ;; pret (Some true)
        else pret None
      else pret None) ;;
   match early with
   | Some v => pret v
   | None =>
       let title_lower := lower title in
       match find (fun keyword => contains keyword title_lower) expected_keywords with
       | Some keyword => say (TitleVerified title keyword) ;; pret true
       | None =>
           current_url <- lift BasePage.get_current_url ;;
           if contains "/login" current_url then
             say (TitleUnexpectedUrlConfirms title) ;; pret true
           else say (TitleUnexpected title) ;; pret false
       end
   end)%page.

Definition login_with_enter_key (email password : string) : Page bool :=
  (say (AttemptingLoginWithEnter email) ;;
   email_element <- lift (BasePage.try_multiple_selectors email_input_selectors "find") ;;
   match email_element with
   | None => pret false
   | Some _ =>
       lift (BasePage.type_text
               (DriverManager.by_css (item0 email_input_selectors)) email true) ;;
       password_element <-
         lift (BasePage.try_multiple_selectors password_input_selectors "find") ;;
       match password_element with
       | Some _ =>
           lift (BasePage.type_text
                   (DriverManager.by_css (item0 password_input_selectors)) password true) ;;
           send_keys_to_element
             (DriverManager.by_css (item0 password_input_selectors)) RETURN ;;
           say LoginSubmittedWithEnter ;;
           lift (time_sleep 2000) ;;
           pret true
       | None => pret false
       end
   end)%page.

(** [element.clear()] on what [try_multiple_selectors] returned: an
    element in "find" mode; the [True] of "click" mode has no such method. *)
Definition clear_found (r : option BasePage.found) : M unit :=
  match r with
  | Some (BasePage.Element e) => element_clear e
  | Some BasePage.True_ => raise AttributeError
  | None => ret tt
  end.

Definition clear_login_form : Page bool :=
  (say ClearingLoginForm ;;
   email_element <- lift (BasePage.try_multiple_selectors email_input_selectors "find") ;;
   lift (clear_found email_element) ;;
   password_element <-
     lift (BasePage.try_multiple_selectors password_input_selectors "find") ;;
   lift (clear_found password_element) ;;
   say LoginFormCleared ;;
   pret true)%page.

End LoginPage.

(** ** [pages/dashboard_page.py] *)

Module DashboardPage.

(** A dashboard page object: the handles of [BasePage] and the selector
    lists stored on the instance, by attribute name. *)
Record self_ := {
  base : BasePage.self_;
  attributes : list (string * list string)
}.

(** The fire emoji of the streak selector, as its UTF-8 bytes. *)
Definition fire : string :=
  String (Ascii.ascii_of_nat 240) (String (Ascii.ascii_of_nat 159)
    (String (Ascii.ascii_of_nat 148) (String (Ascii.ascii_of_nat 165) EmptyString))).

(** The selector lists [__init__] assigns, under their attribute names. *)
Definition selector_lists : list (string * list string) :=
  [ ("welcome_message_selectors",
     [ "h1.text-responsive-3xl"; "h1.font-primary"; ".game-card h1";
       "h1:contains(" ++ quoted "Welcome back" ++ ")"; "h1" ]);
    ("xp_bar_selectors",
     [ "[data-testid=" ++ quoted "xp-bar" ++ "]"; ".xp-bar"; ".progress-bar";
       "div:contains(" ++ quoted "XP" ++ ")" ]);
    ("streak_counter_selectors",
     [ "[data-testid=" ++ quoted "streak-counter" ++ "]"; ".streak-counter";
       "div:contains(" ++ quoted "streak" ++ ")";
       "div:contains(" ++ quoted fire ++ ")" ]);
    ("navigation_menu_selectors",
     [ "nav"; ".nav-menu"; "[role=" ++ quoted "navigation" ++ "]"; ".sidebar" ]);
    ("game_card_selectors",
     [ ".game-card"; "[data-testid=" ++ quoted "game-card" ++ "]"; ".card";
       "div.p-6" ]);
    ("quick_action_selectors",
     [ ".game-button"; "button[data-testid*=" ++ quoted "quiz" ++ "]";
       "button[data-testid*=" ++ quoted "challenge" ++ "]";
       "button[data-testid*=" ++ quoted "study" ++ "]" ]);
    ("active_quests_selectors",
     [ ".quest-card"; "[data-testid=" ++ quoted "quest-card" ++ "]";
       "h2.text-responsive-2xl"; ".game-card" ]);
    ("badges_selectors",
     [ ".badge-card"; "[data-testid=" ++ quoted "badge-card" ++ "]"; ".trophy";
       ".game-card" ]);
    ("learning_assistant_selectors",
     [ "[data-testid=" ++ quoted "learning-assistant-widget" ++ "]";
       ".learning-assistant-widget";
       "button[data-testid*=" ++ quoted "ai" ++ "]"; ".ai-widget" ]);
    ("chart_canvas_selectors",
     [ "canvas"; "svg"; ".recharts-wrapper"; ".chart-svg";
       ".highcharts-container" ]);
    ("chart_tooltip_selectors",
     [ ".chart-tooltip"; ".recharts-tooltip-wrapper"; ".tooltip";
       ".chart-popup" ]) ]%string.

Definition __init__ : M self_ :=
  super <- BasePage.__init__ ;;
  ret {| base := super; attributes := selector_lists |}.

(** [self.<name>] for a selector list: an attribute the instance does not
    have raises [AttributeError]. *)
Fixpoint lookup (name : string) (attrs : list (string * list string))
  : option (list string) :=
  match attrs with
  | [] => None
  | (k, v) :: rest => if String.eqb k name then Some v else lookup name rest
  end.

Definition getattr (self : self_) (name : string) : M (list string) :=
  match lookup name (attributes self) with
  | Some v => ret v
  | None => raise AttributeError
  end.

(** The iterable of a generator expression is evaluated when the
    expression is, before [any] asks for the first item. *)
Definition is_performance_chart_displayed (self : self_) : M bool :=
  selectors <- getattr self "performance_chart_selectors" ;;
  any_displayed selectors.

Definition is_progress_chart_displayed (self : self_) : M bool :=
  selectors <- getattr self "progress_chart_selectors" ;;
  any_displayed selectors.

Definition is_chart_tooltip_displayed (self : self_) : M bool :=
  selectors <- getattr self "chart_tooltip_selectors" ;;
  any_displayed selectors.

Definition dashboard_indicators : list string :=
  [ "/dashboard"; "/home"; "/welcome" ]%string.

Definition is_user_logged_in (self : self_) : M bool :=
  current_url <- BasePage.get_current_url ;;
  let url_indicates_login :=
    existsb (fun indicator => contains indicator current_url) dashboard_indicators in
  selectors <- getattr self "welcome_message_selectors" ;;
  welcome_present <- any_displayed selectors ;;
  ret (url_indicates_login && welcome_present).

(** [a or b] evaluates [b] only when [a] is falsy. *)
Definition wait_for_logout_success (timeout : option Z) : M bool :=
  let timeout := or_default timeout (config.TIMEOUTS config.medium) in
  at_login <- BasePage.wait_for_url_contains "/login" (Some timeout) ;;
  if at_login then ret true
  else BasePage.wait_for_url_contains "/" (Some timeout).

End DashboardPage.

(** ** Reasoning principles *)

(** [moved s t evs] is [s] with the clock at [t] and the events [evs]
    (newest first) added to the trace. *)
Definition moved (s : State) (t : Z) (evs : list event) : State :=
  {| clock := t; _driver := _driver s; _wait := _wait s;
     values := values s; trace := evs ++ trace s |}.

(** Lifting a function over an answer of the endpoint. *)
Definition answer_map {A B} (f : A -> B) (r : result A) : result B :=
  match r with
  | Ret a => Ret (f a)
  | Raise x => Raise x
  end.


(** How a wait over a live driver ends; [t] is the instant of its last
    poll, [ask] the condition that is polled. *)
Definition until_outcome {A} (ask : Browser -> Z -> result (option A)) (b : Browser)
  (end_time : Z) (r : result A) (t : Z) : Prop :=
  match r with
  | Ret v => ask b t = Ret (Some v)
  | Raise x =>
      (x = TimeoutException /\ end_time < t + Z.of_N (latency b t)
       /\ (ask b t = Ret None \/ ask b t = Raise NoSuchElementException))
      \/ (ask b t = Raise x /\ x <> NoSuchElementException)
  end.

(** How a "safe" wait ([find_element_safe], [wait_for_element_clickable])
    over a live driver ends: [msg] is its diagnostic, [evs] what it adds to
    the trace after the [Wait] event. *)
Definition safe_wait_outcome {A} (ask : Browser -> Z -> result (option A)) (b : Browser)
  (end_time : Z) (msg : message) (r : result (option A)) (t : Z) (evs : list event) : Prop :=
  match r with
  | Ret (Some v) => ask b t = Ret (Some v) /\ evs = []
  | Ret None =>
      evs = [Printed msg]
      /\ ((end_time < t + Z.of_N (latency b t)
           /\ (ask b t = Ret None \/ ask b t = Raise NoSuchElementException))
          \/ ask b t = Raise TimeoutException)
  | Raise x =>
      ask b t = Raise x /\ x <> NoSuchElementException /\ x <> TimeoutException
      /\ evs = []
  end.

(** The timeouts of the waits started in a trace. *)
Fixpoint waits_of (evs : list event) : list Z :=
  match evs with
  | [] => []
  | Wait _ timeout :: evs' => timeout :: waits_of evs'
  | _ :: evs' => waits_of evs'
  end.

(** The sleeps of the page objects in a trace. *)
Fixpoint sleeps_of (evs : list event) : nat :=
  match evs with
  | [] => O
  | Sleep _ _ :: evs' => S (sleeps_of evs')
  | _ :: evs' => sleeps_of evs'
  end.

(** The page does not change: lookups and visibility do not depend on the
    instant. *)
Definition static_page (b : Browser) : Prop :=
  (forall t t' l, find_element b t l = find_element b t' l)
  /\ (forall t t' e, is_displayed b t e = is_displayed b t' e).

(** At instant [t] the CSS selector resolves to the element [e], which is
    present and visible. *)
Definition resolves_at (b : Browser) (t : Z) (selector : string) (e : WebElement) : Prop :=
  find_element b t (DriverManager.by_css selector) = Ret e
  /\ is_displayed b t e = Ret true.

(** The CSS selector never resolves to a present and visible element. *)
Definition never_matches (b : Browser) (selector : string) : Prop :=
  forall t e, find_element b t (DriverManager.by_css selector) = Ret e ->
              forall t', is_displayed b t' e <> Ret true.

(** [L] bounds the time any command takes. *)
Definition latency_within (b : Browser) (L : Z) : Prop :=
  forall t, Z.of_N (latency b t) <= L.

(** The shape shared by [find_element_safe] and
    [wait_for_element_clickable]: a wait whose timeout is turned into a
    diagnostic and [None]. *)
Definition safe_wait {A} (method : M (option A)) (msg : message) (timeout : Z)
  : M (option A) :=
  try_except
    (element <- until timeout method ;; ret (Some element))
    (except_TimeoutException (print msg ;; ret None)).

(** ** Sessions and pages used to instantiate the statements *)

(** The class attributes after a successful [initialize_driver] on the
    browser [b]: [_driver] is set and [_wait] is
    [WebDriverWait(_driver, config.TIMEOUTS['medium'])]. *)
Definition initialized (b : Browser) : State :=
  {| clock := 0;
     _driver := Some b;
     _wait := Some {| _timeout := config.TIMEOUTS config.medium |};
     values := fun _ => EmptyString;
     trace := [] |}.

(** A login page: [#real-id] and [input[type=email]] resolve to the
    e-mail input (element 1), which is visible, enabled and accepts keys;
    an input has no rendered text.  Commands answer in 20 ms. *)
Definition login_page : Browser :=
  {| latency := fun _ => 20%N;
     find_element := fun _ l =>
       match l with
       | (CSS_SELECTOR, sel) =>
           if String.eqb sel "#real-id" || String.eqb sel "input[type=email]"
           then Ret 1%nat else Raise NoSuchElementException
       | _ => Raise NoSuchElementException
       end;
     clickable := fun _ l =>
       match l with
       | (CSS_SELECTOR, sel) =>
           if String.eqb sel "#real-id" || String.eqb sel "input[type=email]"
           then Ret (Some 1%nat) else Raise NoSuchElementException
       | _ => Raise NoSuchElementException
       end;
     ready_state := fun _ => Ret "complete"%string;
     current_url := fun _ => Ret "http://localhost:3000/login"%string;
     title := fun _ => Ret "EduAssist - Login"%string;
     is_displayed := fun _ _ => Ret true;
     click := fun _ _ => Ret tt;
     clear := fun _ _ => Ret tt;
     send_keys := fun _ _ _ => Ret tt;
     text := fun _ _ => Ret EmptyString;
     get_attribute := fun _ _ _ => Ret None;
     quit := fun _ => Ret tt |}.

(** A page on which no lookup succeeds.  [initialize_driver] sets the
    implicit wait to [config.IMPLICIT_WAIT] seconds, so a lookup blocks
    that long before it raises [NoSuchElementException]. *)
Definition empty_page : Browser :=
  {| latency := fun _ => Z.to_N (1000 * config.IMPLICIT_WAIT);
     find_element := fun _ _ => Raise NoSuchElementException;
     clickable := fun _ _ => Raise NoSuchElementException;
     ready_state := fun _ => Ret "complete"%string;
     current_url := fun _ => Ret "about:blank"%string;
     title := fun _ => Ret EmptyString;
     is_displayed := fun _ _ => Ret false;
     click := fun _ _ => Raise ElementNotInteractableException;
     clear := fun _ _ => Raise ElementNotInteractableException;
     send_keys := fun _ _ _ => Raise ElementNotInteractableException;
     text := fun _ _ => Raise StaleElementReferenceException;
     get_attribute := fun _ _ _ => Raise StaleElementReferenceException;
     quit := fun _ => Ret tt |}.

(** One sample of a polling loop over a property of the driver: read it,
    [return True] when [test] holds, otherwise fall through to the sleep. *)
Definition sample (mk : Z -> string -> event) (read : Browser -> Z -> result string)
  (test : string -> bool) : M (option bool) :=
  v <- observe mk read ;;
  ret (if test v then Some true else None).

(** A timeout argument that is absent or not negative. *)
Definition not_negative (timeout : option Z) : Prop :=
  forall t, timeout = Some t -> 0 <= t.

(** At instant [t] the CSS selector fails quietly: nothing matches it, or
    what matches is not visible. *)
Definition quiet_at (b : Browser) (t : Z) (selector : string) : Prop :=
  find_element b t (DriverManager.by_css selector) = Raise NoSuchElementException
  \/ exists e, find_element b t (DriverManager.by_css selector) = Ret e
               /\ is_displayed b t e = Ret false.

(** The lookups of the browser fail only softly: a poll that does not
    find its element raises [NoSuchElementException] and nothing else. *)
Definition soft_lookups (b : Browser) : Prop :=
  (forall t l x, find_element b t l = Raise x -> x = NoSuchElementException)
  /\ (forall t l x, clickable b t l = Raise x -> x = NoSuchElementException).

(** The instant at which the command issued at [t] returns. *)
Definition after (b : Browser) (t : Z) : Z := t + Z.of_N (latency b t).

(** ** Further predicates on the browser *)

(** No click on an element the CSS selector resolves to is ever accepted. *)
Definition never_clicks (b : Browser) (selector : string) : Prop :=
  forall t e, clickable b t (DriverManager.by_css selector) = Ret (Some e) ->
              forall t', click b t' e <> Ret tt.

(** The CSS selector always resolves to the clickable element [e], and
    every click on [e] is accepted. *)
Definition always_clicks (b : Browser) (selector : string) (e : WebElement) : Prop :=
  (forall t, clickable b t (DriverManager.by_css selector) = Ret (Some e))
  /\ (forall t, click b t e = Ret tt).

(** Visibility can always be read: [is_displayed] answers, it does not
    raise. *)
Definition visibility_answers (b : Browser) : Prop :=
  forall t e, exists v, is_displayed b t e = Ret v.

(** The state after [time.sleep(0.5)] in a polling loop. *)
Definition slept (s : State) : State :=
  with_clock (clock s + 500) (with_event (Sleep (clock s) 500) s).

(** The CSS selector matches nothing, at any instant. *)
Definition absent (b : Browser) (selector : string) : Prop :=
  forall t, find_element b t (DriverManager.by_css selector) = Raise NoSuchElementException.

(** The locator's lookups fail only by not finding the element. *)
Definition soft_lookup (b : Browser) (l : locator) : Prop :=
  forall t x, find_element b t l = Raise x -> x = NoSuchElementException.

(** The login page after a rejected login: the form is still there
    ([#email] is element 1, [#password] element 2, the submit button
    element 3) and [.text-red-500] resolves to the error paragraph
    (element 4); everything is visible and accepts clicks and keys.
    Commands answer in 20 ms. *)
Definition rejected_login : Browser :=
  {| latency := fun _ => 20%N;
     find_element := fun _ l =>
       match l with
       | (CSS_SELECTOR, sel) =>
           if String.eqb sel "#email" then Ret 1%nat
           else if String.eqb sel "#password" then Ret 2%nat
           else if String.eqb sel ("button[type=" ++ quoted "submit" ++ "]")%string
                then Ret 3%nat
           else if String.eqb sel ".text-red-500" then Ret 4%nat
           else Raise NoSuchElementException
       | _ => Raise NoSuchElementException
       end;
     clickable := fun _ l =>
       match l with
       | (CSS_SELECTOR, sel) =>
           if String.eqb sel "#email" then Ret (Some 1%nat)
           else if String.eqb sel "#password" then Ret (Some 2%nat)
           else if String.eqb sel ("button[type=" ++ quoted "submit" ++ "]")%string
                then Ret (Some 3%nat)
           else if String.eqb sel ".text-red-500" then Ret (Some 4%nat)
           else Raise NoSuchElementException
       | _ => Raise NoSuchElementException
       end;
     ready_state := fun _ => Ret "complete"%string;
     current_url := fun _ => Ret "http://localhost:3000/login"%string;
     title := fun _ => Ret "EduAssist - Login"%string;
     is_displayed := fun _ _ => Ret true;
     click := fun _ _ => Ret tt;
     clear := fun _ _ => Ret tt;
     send_keys := fun _ _ _ => Ret tt;
     text := fun _ e =>
       Ret (if Nat.eqb e 4 then "Invalid email or password"%string else EmptyString);
     get_attribute := fun _ _ _ => Ret None;
     quit := fun _ => Ret tt |}.

(** During the call that starts in [s], the CSS selector was found and the
    element was visible when asked right after the lookup. *)
Definition seen_during (b : Browser) (s : State) (selectors : list string) : Prop :=
  exists selector t e,
    In selector selectors /\ clock s <= t
    /\ find_element b t (DriverManager.by_css selector) = Ret e
    /\ is_displayed b (after b t) e = Ret true.

(** During the call that starts in [s], the text [txt] was read from an
    element that one of the CSS selectors was found to match. *)
Definition read_during (b : Browser) (s : State) (selectors : list string) (txt : string)
  : Prop :=
  exists selector t e,
    In selector selectors /\ clock s <= t
    /\ find_element b t (DriverManager.by_css selector) = Ret e
    /\ text b (after b t) e = Ret txt.

(** A login page whose fields have no [id]: the selectors
    [input[type=email]] and [input[type=password]], with their values
    quoted, resolve to the fields (elements 1 and 2) while [#email] and
    [#password] match nothing; the title is "Welcome back".  Commands
    answer in 20 ms. *)
Definition unlabelled_login : Browser :=
  {| latency := fun _ => 20%N;
     find_element := fun _ l =>
       match l with
       | (CSS_SELECTOR, sel) =>
           if String.eqb sel ("input[type=" ++ quoted "email" ++ "]")%string
           then Ret 1%nat
           else if String.eqb sel ("input[type=" ++ quoted "password" ++ "]")%string
           then Ret 2%nat
           else Raise NoSuchElementException
       | _ => Raise NoSuchElementException
       end;
     clickable := fun _ _ => Raise NoSuchElementException;
     ready_state := fun _ => Ret "complete"%string;
     current_url := fun _ => Ret "http://localhost:3000/login"%string;
     title := fun _ => Ret "Welcome back"%string;
     is_displayed := fun _ _ => Ret true;
     click := fun _ _ => Ret tt;
     clear := fun _ _ => Ret tt;
     send_keys := fun _ _ _ => Ret tt;
     text := fun _ _ => Ret EmptyString;
     get_attribute := fun _ _ _ => Ret None;
     quit := fun _ => Ret tt |}.

(** The element accepts [clear()] and [send_keys(...)] at every instant. *)
Definition accepts_keys (b : Browser) (e : WebElement) : Prop :=
  forall t, clear b t e = Ret tt /\ forall keys, send_keys b t e keys = Ret tt.

(** * Properties *)

(** ** Strings *)

Lemma startswith_spec (p s : string) :
  startswith p s = true <-> exists r, s = (p ++ r)%string.
Proof.
  revert s. induction p as [|a p IH]; intros s; simpl.
  - split; [intros _; now exists s | reflexivity].
  - destruct s as [|c s].
    + split; [discriminate | intros [r Hr]; discriminate].
    + rewrite andb_true_iff, Ascii.eqb_eq, IH. split.
      * intros [-> [r ->]]. now exists r.
      * intros [r Hr]. injection Hr as -> ->. split; [reflexivity | now exists r].
Qed.

Lemma contains_spec (needle hay : string) :
  contains needle hay = true <-> exists a b, hay = (a ++ needle ++ b)%string.
Proof.
  split.
  - induction hay as [|c hay IH]; simpl; rewrite orb_true_iff.
    + intros [H | H]; [|discriminate].
      apply startswith_spec in H. destruct H as [r Hr]. now exists EmptyString, r.
    + intros [H | H].
      * apply startswith_spec in H. destruct H as [r Hr]. now exists EmptyString, r.
      * destruct (IH H) as (a & b & ->). now exists (String c a), b.
  - intros (a & b & ->). induction a as [|c a IH].
    + simpl. destruct (needle ++ b)%string eqn:E; simpl; apply orb_true_iff; left;
        apply startswith_spec; exists b; now rewrite E.
    + simpl. rewrite IH. apply orb_true_r.
Qed.




(** ** The monad and the primitives *)

Lemma moved_moved (s : State) (t1 t2 : Z) (e1 e2 : list event) :
  moved (moved s t1 e1) t2 e2 = moved s t2 (e2 ++ e1).
Proof. unfold moved; simpl. now rewrite app_assoc. Qed.

Lemma command_live {A} (ask : Browser -> Z -> result A) (s : State) (b : Browser) :
  _driver s = Some b ->
  command ask s = Some (ask b (clock s), moved s (clock s + Z.of_N (latency b (clock s))) []).
Proof. intros H. unfold command. now rewrite H. Qed.

Lemma command_dead {A} (ask : Browser -> Z -> result A) (s : State) :
  _driver s = None -> command ask s = Some (Raise AttributeError, s).
Proof. intros H. unfold command. now rewrite H. Qed.

Lemma until_loop_ext {A} (m1 m2 : M (option A)) (end_time : Z) :
  (forall s, m1 s = m2 s) ->
  forall fuel s, until_loop fuel m1 end_time s = until_loop fuel m2 end_time s.
Proof.
  intros E. induction fuel as [|fuel IH]; intros s; [reflexivity|].
  simpl. unfold bind, try_except. rewrite E.
  destruct (m2 s) as [[[[v|]|x] s1]|]; try reflexivity.
  - simpl. destruct (end_time <? clock s1); [reflexivity | apply IH].
  - destruct (except_NoSuchElementException (ret None) x) as [k|]; [|reflexivity].
    destruct (k s1) as [[[[v|]|y] s2]|]; try reflexivity.
    simpl. destruct (end_time <? clock s2); [reflexivity | apply IH].
Qed.

Lemma presence_is_command (l : locator) (s : State) :
  presence_of_element_located l s
  = command (fun b t => answer_map Some (find_element b t l)) s.
Proof.
  unfold presence_of_element_located, bind, command.
  destruct (_driver s) as [b|]; [|reflexivity].
  now destruct (find_element b (clock s) l).
Qed.

Lemma document_ready_is_command (s : State) :
  document_ready s
  = command (fun b t =>
               answer_map (fun st => if String.eqb st "complete" then Some true else None)
                          (ready_state b t)) s.
Proof.
  unfold document_ready, bind, command.
  destruct (_driver s) as [b|]; [|reflexivity].
  now destruct (ready_state b (clock s)).
Qed.

(** ** [WebDriverWait.until] *)

Section Until.

Context {A : Type}.
Variable ask : Browser -> Z -> result (option A).
Variable b : Browser.

Lemma until_loop_live (end_time : Z) :
  forall fuel s,
    _driver s = Some b ->
    (1 <= fuel)%nat ->
    end_time - clock s < 500 * Z.of_nat fuel - 500 ->
    exists r t,
      until_loop fuel (command ask) end_time s
      = Some (r, moved s (t + Z.of_N (latency b t)) [])
      /\ clock s <= t <= Z.max (clock s) (end_time + 500)
      /\ until_outcome ask b end_time r t.
Proof.
  induction fuel as [|fuel IH]; intros s Hb Hf Hc; [lia|].
  simpl. unfold bind at 1. unfold try_except. rewrite (command_live _ _ _ Hb).
  assert (Hrec : (end_time <? clock s + Z.of_N (latency b (clock s))) = false ->
    exists r t,
      bind poll_sleep (fun _ => until_loop fuel (command ask) end_time)
           (moved s (clock s + Z.of_N (latency b (clock s))) [])
      = Some (r, moved s (t + Z.of_N (latency b t)) [])
      /\ clock s <= t <= Z.max (clock s) (end_time + 500)
      /\ until_outcome ask b end_time r t).
  { intros Hlt. apply Z.ltb_ge in Hlt.
    unfold bind, poll_sleep, POLL_FREQUENCY.
    destruct (IH (moved s (clock s + Z.of_N (latency b (clock s)) + 500) []))
      as (r & t & Hrun & Ht & Hout).
    - exact Hb.
    - lia.
    - cbn [clock moved]. lia.
    - exists r, t. split; [|split].
      + exact Hrun.
      + cbn [clock moved] in Ht. lia.
      + exact Hout. }
  destruct (ask b (clock s)) as [[v|]|x] eqn:Hask.
  - exists (Ret v), (clock s). split; [reflexivity|]. split; [lia|]. exact Hask.
  - unfold bind. simpl. destruct (end_time <? _) eqn:Hlt.
    + exists (Raise TimeoutException), (clock s). split; [reflexivity|].
      split; [lia|]. left. apply Z.ltb_lt in Hlt. rewrite Hask. auto.
    + apply Hrec. reflexivity.
  - unfold except_NoSuchElementException.
    destruct (is_NoSuchElementException x) eqn:Hx.
    + destruct x; try discriminate. unfold bind. simpl.
      destruct (end_time <? _) eqn:Hlt.
      * exists (Raise TimeoutException), (clock s). split; [reflexivity|].
        split; [lia|]. left. apply Z.ltb_lt in Hlt. rewrite Hask. auto.
      * apply Hrec. reflexivity.
    + exists (Raise x), (clock s). split; [reflexivity|]. split; [lia|].
      right. split; [exact Hask|]. intros ->. discriminate.
Qed.

Lemma until_live (timeout : Z) (s : State) :
  _driver s = Some b ->
  exists r t,
    until timeout (command ask) s
    = Some (r, moved s (t + Z.of_N (latency b t)) [Wait (clock s) timeout])
    /\ clock s <= t <= Z.max (clock s) (clock s + 1000 * timeout + 500)
    /\ until_outcome ask b (clock s + 1000 * timeout) r t.
Proof.
  intros Hb. unfold until, bind, time_time, emit.
  destruct (until_loop_live (clock s + 1000 * timeout) (fuel_of timeout)
              (with_event (Wait (clock s) timeout) s)) as (r & t & Hrun & Ht & Hout).
  - exact Hb.
  - unfold fuel_of. lia.
  - unfold fuel_of. simpl clock. lia.
  - exists r, t. split; [exact Hrun|]. split; [exact Ht | exact Hout].
Qed.

(** The first poll decides when it finds the value or fails hard. *)
Lemma until_at_once (timeout : Z) (s : State) (v : A) :
  _driver s = Some b ->
  ask b (clock s) = Ret (Some v) ->
  until timeout (command ask) s
  = Some (Ret v, moved s (clock s + Z.of_N (latency b (clock s))) [Wait (clock s) timeout]).
Proof.
  intros Hb Hask. unfold until, bind, time_time, emit, fuel_of. simpl.
  unfold bind, try_except. rewrite (command_live _ _ b) by exact Hb.
  simpl. now rewrite Hask.
Qed.

Lemma until_hard_failure (timeout : Z) (s : State) (x : exn) :
  _driver s = Some b ->
  ask b (clock s) = Raise x ->
  x <> NoSuchElementException ->
  until timeout (command ask) s
  = Some (Raise x, moved s (clock s + Z.of_N (latency b (clock s))) [Wait (clock s) timeout]).
Proof.
  intros Hb Hask Hx. unfold until, bind, time_time, emit, fuel_of. simpl.
  unfold bind, try_except. rewrite (command_live _ _ b) by exact Hb.
  simpl. rewrite Hask. unfold except_NoSuchElementException.
  destruct x; try reflexivity. contradiction.
Qed.

End Until.

Lemma until_ext {A} (m1 m2 : M (option A)) (timeout : Z) (s : State) :
  (forall s', m1 s' = m2 s') -> until timeout m1 s = until timeout m2 s.
Proof.
  intros E. unfold until, bind, time_time, emit. now apply until_loop_ext.
Qed.

(** ** The safe waits of [DriverManager] *)

Section SafeWait.

Context {A : Type}.
Variable ask : Browser -> Z -> result (option A).
Variable method : M (option A).
Hypothesis method_is_command : forall s, method s = command ask s.
Variable msg : message.

Lemma safe_wait_live (b : Browser) (timeout : Z) (s : State) :
  _driver s = Some b ->
  exists r t evs,
    safe_wait method msg timeout s
    = Some (r, moved s (t + Z.of_N (latency b t)) (evs ++ [Wait (clock s) timeout]))
    /\ clock s <= t <= Z.max (clock s) (clock s + 1000 * timeout + 500)
    /\ safe_wait_outcome ask b (clock s + 1000 * timeout) msg r t evs.
Proof.
  intros Hb. unfold safe_wait, try_except, bind at 1.
  rewrite (until_ext _ _ _ _ method_is_command).
  destruct (until_live ask b timeout s Hb) as (r & t & Hrun & Ht & Hout).
  rewrite Hrun. destruct r as [v|x]; simpl in Hout.
  - exists (Ret (Some v)), t, []. split; [reflexivity|]. split; [exact Ht|].
    simpl. auto.
  - destruct Hout as [(-> & Hlate & Habs) | (Hask & Hx)].
    + exists (Ret None), t, [Printed msg]. split; [reflexivity|]. split; [exact Ht|].
      simpl. auto.
    + destruct x; try contradiction;
        try (eexists (Raise _), t, []; split; [reflexivity|]; split; [exact Ht|];
             simpl; repeat split; try exact Hask; discriminate).
      exists (Ret None), t, [Printed msg]. split; [reflexivity|]. split; [exact Ht|].
      simpl. auto.
Qed.

Lemma safe_wait_at_once (b : Browser) (timeout : Z) (s : State) (v : A) :
  _driver s = Some b ->
  ask b (clock s) = Ret (Some v) ->
  safe_wait method msg timeout s
  = Some (Ret (Some v),
          moved s (clock s + Z.of_N (latency b (clock s))) [Wait (clock s) timeout]).
Proof.
  intros Hb Hask. unfold safe_wait, try_except, bind at 1.
  rewrite (until_ext _ _ _ _ method_is_command).
  now rewrite (until_at_once ask b timeout s v Hb Hask).
Qed.

Lemma safe_wait_dead (timeout : Z) (s : State) :
  _driver s = None ->
  safe_wait method msg timeout s
  = Some (Raise AttributeError, moved s (clock s) [Wait (clock s) timeout]).
Proof.
  intros Hd. unfold safe_wait, try_except, bind at 1.
  rewrite (until_ext _ _ _ _ method_is_command).
  unfold until, bind, time_time, emit, fuel_of. simpl.
  unfold bind, try_except, command. simpl. rewrite Hd. reflexivity.
Qed.

End SafeWait.

Lemma find_element_safe_live (l : locator) (timeout : option Z) (s : State) (b : Browser) :
  _driver s = Some b ->
  exists r t evs,
    DriverManager.find_element_safe l timeout s
    = Some (r, moved s (t + Z.of_N (latency b t))
                 (evs ++ [Wait (clock s) (or_default timeout 15)]))
    /\ clock s <= t <= Z.max (clock s) (clock s + 1000 * or_default timeout 15 + 500)
    /\ safe_wait_outcome (fun b t => answer_map Some (find_element b t l)) b
         (clock s + 1000 * or_default timeout 15) (ElementNotFound l) r t evs.
Proof.
  intros Hb.
  exact (safe_wait_live _ _ (presence_is_command l) (ElementNotFound l) b _ s Hb).
Qed.

Lemma find_element_safe_at_once (l : locator) (timeout : option Z) (s : State)
  (b : Browser) (e : WebElement) :
  _driver s = Some b ->
  find_element b (clock s) l = Ret e ->
  DriverManager.find_element_safe l timeout s
  = Some (Ret (Some e),
          moved s (clock s + Z.of_N (latency b (clock s)))
                [Wait (clock s) (or_default timeout 15)]).
Proof.
  intros Hb Hf.
  apply (safe_wait_at_once _ _ (presence_is_command l) (ElementNotFound l) b _ s e Hb).
  now rewrite Hf.
Qed.

Lemma wait_for_element_clickable_live (l : locator) (timeout : option Z) (s : State)
  (b : Browser) :
  _driver s = Some b ->
  exists r t evs,
    DriverManager.wait_for_element_clickable l timeout s
    = Some (r, moved s (t + Z.of_N (latency b t))
                 (evs ++ [Wait (clock s) (or_default timeout 15)]))
    /\ clock s <= t <= Z.max (clock s) (clock s + 1000 * or_default timeout 15 + 500)
    /\ safe_wait_outcome (fun b t => clickable b t l) b
         (clock s + 1000 * or_default timeout 15) (ElementNotClickable l) r t evs.
Proof.
  intros Hb.
  exact (safe_wait_live (fun b t => clickable b t l) _ (fun _ => eq_refl)
           (ElementNotClickable l) b _ s Hb).
Qed.

(** [wait_for_page_load] returns normally once the document is complete
    or the timeout has passed, as long as the script itself can run. *)
Lemma wait_for_page_load_live (timeout : option Z) (s : State) (b : Browser) :
  _driver s = Some b ->
  (forall t, exists st, ready_state b t = Ret st) ->
  exists s' evs,
    DriverManager.wait_for_page_load timeout s = Some (Ret tt, s')
    /\ trace s' = evs ++ [Wait (clock s) (or_default timeout 15)] ++ trace s
    /\ (evs = [] \/ evs = [Printed PageLoadTimeout]).
Proof.
  intros Hb Hready. unfold DriverManager.wait_for_page_load, try_except, bind at 1.
  rewrite (until_ext _ _ _ _ document_ready_is_command).
  destruct (until_live
              (fun b t =>
                 answer_map (fun st => if String.eqb st "complete" then Some true else None)
                            (ready_state b t))
              b (or_default timeout (config.TIMEOUTS config.medium)) s Hb)
    as (r & t & Hrun & _ & Hout).
  rewrite Hrun. destruct r as [v|x]; simpl in Hout.
  - eexists. exists []. split; [reflexivity|]. split; [reflexivity | now left].
  - destruct Hout as [(-> & _) | (Hask & Hx)].
    + eexists. exists [Printed PageLoadTimeout]. split; [reflexivity|].
      split; [reflexivity | now right].
    + exfalso. destruct (Hready t) as [st Hst]. rewrite Hst in Hask. discriminate.
Qed.

(** ** [try_multiple_selectors] *)

Lemma waits_of_app (e1 e2 : list event) : waits_of (e1 ++ e2) = waits_of e1 ++ waits_of e2.
Proof.
  induction e1 as [|[m|t ms|t w|t u|t u] e1 IH]; simpl; try exact IH.
  - reflexivity.
  - now rewrite IH.
Qed.

Lemma sleeps_of_app (e1 e2 : list event) :
  sleeps_of (e1 ++ e2) = (sleeps_of e1 + sleeps_of e2)%nat.
Proof.
  induction e1 as [|[m|t ms|t w|t u|t u] e1 IH]; simpl; try exact IH.
  - reflexivity.
  - now rewrite IH.
Qed.

(** One round of the loop on a selector that never matches falls through
    to the next selector, whatever way the attempt fails. *)
Lemma attempt_miss (b : Browser) (selector : string) (s : State) :
  _driver s = Some b ->
  never_matches b selector ->
  exists t evs,
    try_except (BasePage.try_selector selector "find")
               (except_Exception (fun _ => ret None)) s
    = Some (Ret None, moved s t (evs ++ [Wait (clock s) 2]))
    /\ clock s <= t
    /\ (forall L, latency_within b L -> t <= clock s + 2500 + 2 * L)
    /\ waits_of evs = [] /\ sleeps_of evs = O.
Proof.
  intros Hb Hn. unfold BasePage.try_selector.
  change (String.eqb "find" "find") with true. cbv iota.
  unfold BasePage.find_element_safe, try_except, bind.
  destruct (find_element_safe_live (DriverManager.by_css selector) (Some 2) s b Hb)
    as (r & t & evs & Hrun & Ht & Hout).
  change (or_default (Some 2) 15) with 2 in *. rewrite Hrun.
  destruct r as [[e|]|x]; simpl in Hout.
  - destruct Hout as [Hask ->].
    destruct (find_element b t (DriverManager.by_css selector)) as [e'|] eqn:Hf;
      simpl in Hask; [|discriminate].
    injection Hask as ->.
    unfold element_is_displayed.
    rewrite (command_live _ (moved s (t + Z.of_N (latency b t)) ([] ++ [Wait (clock s) 2])) b Hb).
    cbn [clock moved].
    set (t1 := t + Z.of_N (latency b t)).
    assert (Hbound : forall L, latency_within b L ->
                               t1 + Z.of_N (latency b t1) <= clock s + 2500 + 2 * L).
    { intros L HL. pose proof (HL t). pose proof (HL t1). unfold t1 in *. lia. }
    destruct (is_displayed b t1 e) as [[|]|x] eqn:Hd.
    + exfalso. exact (Hn t e Hf t1 Hd).
    + exists (t1 + Z.of_N (latency b t1)), []. split; [reflexivity|].
      split; [unfold t1; lia|]. split; [exact Hbound|]. now split.
    + exists (t1 + Z.of_N (latency b t1)), []. split; [reflexivity|].
      split; [unfold t1; lia|]. split; [exact Hbound|]. now split.
  - destruct Hout as [-> _].
    exists (t + Z.of_N (latency b t)), [Printed (ElementNotFound (DriverManager.by_css selector))].
    split; [reflexivity|]. split; [lia|]. split; [|now split].
    intros L HL. pose proof (HL t). lia.
  - destruct Hout as (_ & _ & _ & ->).
    exists (t + Z.of_N (latency b t)), []. split; [reflexivity|]. split; [lia|].
    split; [|now split]. intros L HL. pose proof (HL t). lia.
Qed.

(** One round of the loop on a selector that is found at once and is
    visible returns its element. *)
Lemma attempt_hit (b : Browser) (selector : string) (e : WebElement) (s : State) :
  _driver s = Some b ->
  find_element b (clock s) (DriverManager.by_css selector) = Ret e ->
  is_displayed b (clock s + Z.of_N (latency b (clock s))) e = Ret true ->
  exists t,
    try_except (BasePage.try_selector selector "find")
               (except_Exception (fun _ => ret None)) s
    = Some (Ret (Some (BasePage.Element e)),
            moved s t [Printed (FoundWithSelector selector); Wait (clock s) 2]).
Proof.
  intros Hb Hf Hd. unfold BasePage.try_selector.
  change (String.eqb "find" "find") with true. cbv iota.
  unfold BasePage.find_element_safe, try_except, bind.
  rewrite (find_element_safe_at_once _ (Some 2) s b e Hb Hf).
  unfold element_is_displayed.
  rewrite (command_live _ (moved s (clock s + Z.of_N (latency b (clock s)))
                             [Wait (clock s) (or_default (Some 2) 15)]) b Hb).
  cbn [clock moved]. rewrite Hd. eexists. reflexivity.
Qed.

Lemma try_each_miss (b : Browser) (all : list string) :
  forall rest s,
    _driver s = Some b ->
    (forall selector, In selector rest -> never_matches b selector) ->
    exists t evs,
      BasePage.try_each all rest "find" s
      = Some (Ret None, moved s t (Printed (NoWorkingSelector all) :: evs))
      /\ clock s <= t
      /\ (forall L, latency_within b L ->
                    t <= clock s + Z.of_nat (List.length rest) * (2500 + 2 * L))
      /\ waits_of evs = repeat 2 (List.length rest) /\ sleeps_of evs = O.
Proof.
  induction rest as [|selector rest IH]; intros s Hb Hn.
  - exists (clock s), []. split; [reflexivity|]. split; [lia|].
    split; [intros; simpl; lia|]. now split.
  - cbn [BasePage.try_each]. unfold bind at 1.
    destruct (attempt_miss b selector s Hb (Hn selector (or_introl eq_refl)))
      as (t1 & evs1 & Hrun1 & Ht1 & Hb1 & Hw1 & Hs1).
    rewrite Hrun1.
    destruct (IH (moved s t1 (evs1 ++ [Wait (clock s) 2])) Hb
                 (fun x Hx => Hn x (or_intror Hx)))
      as (t2 & evs2 & Hrun2 & Ht2 & Hb2 & Hw2 & Hs2).
    rewrite Hrun2, moved_moved. cbn [clock moved] in *.
    exists t2, (evs2 ++ evs1 ++ [Wait (clock s) 2]).
    split; [reflexivity|]. split; [lia|]. split; [|split].
    + intros L HL. specialize (Hb1 L HL). specialize (Hb2 L HL).
      cbn [List.length]. rewrite Nat2Z.inj_succ. lia.
    + rewrite !waits_of_app, Hw1, Hw2. cbn [List.length]. simpl.
      now rewrite <- repeat_cons.
    + rewrite !sleeps_of_app, Hs1, Hs2. reflexivity.
Qed.

Lemma static_never_matches (b : Browser) (t0 : Z) (selector : string) :
  static_page b ->
  (forall e, ~ resolves_at b t0 selector e) ->
  never_matches b selector.
Proof.
  intros [Hfind Hshown] Hno t e Hf t' Hd. apply (Hno e). split.
  - now rewrite (Hfind t0 t).
  - now rewrite (Hshown t0 t').
Qed.

Lemma try_each_hit (b : Browser) (all : list string) (selector : string)
  (post : list string) (e : WebElement) :
  static_page b ->
  forall pre s,
    _driver s = Some b ->
    (forall p, In p pre -> never_matches b p) ->
    resolves_at b (clock s) selector e ->
    exists t evs,
      BasePage.try_each all (pre ++ selector :: post) "find" s
      = Some (Ret (Some (BasePage.Element e)),
              moved s t (Printed (FoundWithSelector selector) :: evs))
      /\ sleeps_of evs = O.
Proof.
  intros Hstatic. induction pre as [|p pre IH]; intros s Hb Hn [Hf Hd].
  - cbn [app BasePage.try_each]. unfold bind at 1.
    destruct (attempt_hit b selector e s Hb Hf) as (t & Hrun).
    { destruct Hstatic as [_ Hshown]. now rewrite (Hshown _ (clock s)). }
    rewrite Hrun. exists t, [Wait (clock s) 2]. now split.
  - cbn [app BasePage.try_each]. unfold bind at 1.
    destruct (attempt_miss b p s Hb (Hn p (or_introl eq_refl)))
      as (t1 & evs1 & Hrun1 & Ht1 & Hb1 & Hw1 & Hs1).
    rewrite Hrun1.
    destruct (IH (moved s t1 (evs1 ++ [Wait (clock s) 2])) Hb
                 (fun x Hx => Hn x (or_intror Hx)))
      as (t2 & evs2 & Hrun2 & Hs2).
    { destruct Hstatic as [Hfind Hshown]. split.
      - now rewrite (Hfind _ (clock s)).
      - now rewrite (Hshown _ (clock s)). }
    rewrite Hrun2, moved_moved.
    exists t2, (evs2 ++ evs1 ++ [Wait (clock s) 2]). split; [reflexivity|].
    rewrite !sleeps_of_app, Hs1, Hs2. reflexivity.
Qed.

(** ** Claims about [try_multiple_selectors] *)

(** C1.  On a page that does not change during the call, in "find" mode:
    when the list of selectors splits into selectors that do not resolve to
    a present and visible element, then one that does, then anything, the
    call returns the element of that first matching selector (whatever the
    later ones match); when no selector of the list ever resolves to a
    present and visible element, it returns [None]. *)
Theorem try_multiple_selectors_first_match
  (b : Browser) (s : State) (selectors : list string) :
  _driver s = Some b ->
  static_page b ->
  (forall pre selector post e,
      selectors = pre ++ selector :: post ->
      (forall p e', In p pre -> ~ resolves_at b (clock s) p e') ->
      resolves_at b (clock s) selector e ->
      exists s',
        BasePage.try_multiple_selectors selectors "find" s
        = Some (Ret (Some (BasePage.Element e)), s')
        /\ In (Printed (FoundWithSelector selector)) (trace s'))
  /\ ((forall selector, In selector selectors -> never_matches b selector) ->
      exists s',
        BasePage.try_multiple_selectors selectors "find" s = Some (Ret None, s')
        /\ In (Printed (NoWorkingSelector selectors)) (trace s')).
Proof.
  intros Hb Hstatic. split.
  - intros pre selector post e -> Hpre Hres.
    destruct (try_each_hit b (pre ++ selector :: post) selector post e Hstatic pre s Hb)
      as (t & evs & Hrun & _).
    + intros p Hp. apply (static_never_matches b (clock s) p Hstatic).
      intros e'. now apply Hpre.
    + exact Hres.
    + eexists. split; [exact Hrun|]. left. reflexivity.
  - intros Hnone.
    destruct (try_each_miss b selectors selectors s Hb Hnone) as (t & evs & Hrun & _).
    eexists. split; [exact Hrun|]. left. reflexivity.
Qed.

Lemma login_page_static : static_page login_page.
Proof. split; intros; reflexivity. Qed.

(** The scenario of the login page: [.missing-class] does not exist,
    [#real-id] does and is visible. *)
Lemma try_multiple_selectors_first_match_witness :
  static_page login_page
  /\ resolves_at login_page 0 "#real-id" 1%nat
  /\ exists s',
      BasePage.try_multiple_selectors [".missing-class"; "#real-id"]%string "find"
        (initialized login_page)
      = Some (Ret (Some (BasePage.Element 1%nat)), s')
      /\ In (Printed (FoundWithSelector "#real-id")) (trace s').
Proof.
  split; [exact login_page_static|]. split; [split; reflexivity|].
  apply (proj1 (try_multiple_selectors_first_match login_page (initialized login_page)
                  [".missing-class"; "#real-id"]%string eq_refl login_page_static)
           [".missing-class"%string] "#real-id"%string [] 1%nat eq_refl).
  - intros p e' [<-|[]] [H _]. discriminate H.
  - split; reflexivity.
Defined.

(** C5, as amended.  When no selector of the list ever resolves to a
    present and visible element, "find" mode ends with [None] after exactly
    one wait per selector, each started with the fixed timeout of 2 s; with
    [L] a bound on the time a command takes, the call lasts at most
    [len * (2 s + 0.5 s + 2 L)]. *)
Theorem try_multiple_selectors_exhausted
  (b : Browser) (s : State) (selectors : list string) (L : Z) :
  _driver s = Some b ->
  (forall selector, In selector selectors -> never_matches b selector) ->
  latency_within b L ->
  exists s' evs,
    BasePage.try_multiple_selectors selectors "find" s = Some (Ret None, s')
    /\ trace s' = evs ++ trace s
    /\ waits_of evs = repeat 2 (List.length selectors)
    /\ clock s <= clock s'
       <= clock s + Z.of_nat (List.length selectors) * (1000 * 2 + POLL_FREQUENCY + 2 * L).
Proof.
  intros Hb Hnone HL.
  destruct (try_each_miss b selectors selectors s Hb Hnone)
    as (t & evs & Hrun & Ht & Hbound & Hw & _).
  exists (moved s t (Printed (NoWorkingSelector selectors) :: evs)),
         (Printed (NoWorkingSelector selectors) :: evs).
  split; [exact Hrun|]. split; [reflexivity|]. split; [exact Hw|].
  cbn [clock moved]. specialize (Hbound L HL). unfold POLL_FREQUENCY. lia.
Qed.

Lemma empty_page_never_matches (selector : string) : never_matches empty_page selector.
Proof. intros t e H. discriminate H. Qed.

(** Two selectors on the empty page, where a command blocks for the 5 s of
    the implicit wait. *)
Lemma try_multiple_selectors_exhausted_witness :
  latency_within empty_page 5000
  /\ exists s' evs,
      BasePage.try_multiple_selectors [".missing-class"; ".other"]%string "find"
        (initialized empty_page) = Some (Ret None, s')
      /\ trace s' = evs ++ trace (initialized empty_page)
      /\ waits_of evs = [2; 2]
      /\ 0 <= clock s' <= 2 * (1000 * 2 + POLL_FREQUENCY + 2 * 5000).
Proof.
  assert (HL : latency_within empty_page 5000) by (intros t; vm_compute; discriminate).
  split; [exact HL|].
  exact (try_multiple_selectors_exhausted empty_page (initialized empty_page)
           [".missing-class"; ".other"]%string 5000 eq_refl
           (fun sel _ => empty_page_never_matches sel) HL).
Defined.

(** C5 as stated fails: with the implicit wait of the configuration a
    single selector that never matches keeps the call busy for 5 s, more
    than one attempt times the per-attempt timeout of 2 s. *)
Lemma try_multiple_selectors_over_budget :
  never_matches empty_page ".missing-class"
  /\ exists s',
      BasePage.try_multiple_selectors [".missing-class"]%string "find"
        (initialized empty_page) = Some (Ret None, s')
      /\ ~ (clock s' - clock (initialized empty_page)
            <= Z.of_nat (List.length [".missing-class"%string]) * (1000 * 2)).
Proof.
  split; [apply empty_page_never_matches|].
  eexists. split; [vm_compute; reflexivity|]. vm_compute. intros H. apply H. reflexivity.
Qed.

(** ** The polling loops of [BasePage] *)

Lemma moved_id (s : State) : moved s (clock s) [] = s.
Proof. now destruct s. Qed.

Lemma or_default_positive (timeout : option Z) (default : Z) :
  not_negative timeout -> 0 < default -> 0 < or_default timeout default.
Proof.
  intros Hn Hd. unfold or_default. destruct timeout as [t|]; [|exact Hd].
  destruct (Z.eqb_spec t 0); [exact Hd|]. specialize (Hn t eq_refl). lia.
Qed.

Section Polling.

Variable mk : Z -> string -> event.
Variable read : Browser -> Z -> result string.
Variable test : string -> bool.
Variable b : Browser.

Hypothesis mk_inj : forall t v t' v', mk t v = mk t' v' -> t = t' /\ v = v'.
Hypothesis mk_not_sleep : forall t v t' ms, mk t v <> Sleep t' ms.

Lemma sample_live (s : State) (v : string) :
  _driver s = Some b ->
  read b (clock s) = Ret v ->
  sample mk read test s
  = Some (Ret (if test v then Some true else None),
          moved s (clock s + Z.of_N (latency b (clock s))) [mk (clock s) v]).
Proof.
  intros Hb Hr. unfold sample, observe, bind, time_time, emit.
  rewrite (command_live _ _ _ Hb), Hr. reflexivity.
Qed.

Lemma sample_failure (s : State) (x : exn) :
  _driver s = Some b ->
  read b (clock s) = Raise x ->
  sample mk read test s
  = Some (Raise x, moved s (clock s + Z.of_N (latency b (clock s))) []).
Proof.
  intros Hb Hr. unfold sample, observe, bind, time_time, emit.
  rewrite (command_live _ _ _ Hb), Hr. reflexivity.
Qed.

Hypothesis read_ok : forall t, exists v, read b t = Ret v.

Lemma while_before_sample (start_time timeout : Z) :
  forall fuel s,
    _driver s = Some b ->
    (1 <= fuel)%nat ->
    start_time + 1000 * timeout - clock s <= 500 * (Z.of_nat fuel - 1) ->
    exists r t evs,
      BasePage.while_before fuel start_time timeout (sample mk read test) s
      = Some (Ret r, moved s t evs)
      /\ clock s <= t
      /\ (r = Some true \/ r = None)
      /\ (r = Some true -> exists t' v, In (mk t' v) evs /\ test v = true)
      /\ (forall t' v, In (mk t' v) evs ->
             read b t' = Ret v
             /\ clock s <= t' < start_time + 1000 * timeout
             /\ (test v = true -> r = Some true))
      /\ (r = None -> start_time + 1000 * timeout <= t)
      /\ (clock s - start_time < 1000 * timeout -> exists v, In (mk (clock s) v) evs).
Proof.
  induction fuel as [|fuel IH]; intros s Hb Hf Hc; [lia|].
  cbn [BasePage.while_before]. unfold bind at 1, time_time at 1.
  destruct (Z.ltb_spec (clock s - start_time) (1000 * timeout)) as [Hlt|Hge].
  - destruct (read_ok (clock s)) as [v Hv].
    unfold bind at 1. rewrite (sample_live s v Hb Hv).
    destruct (test v) eqn:Htest.
    + exists (Some true), (clock s + Z.of_N (latency b (clock s))), [mk (clock s) v].
      split; [reflexivity|]. split; [lia|]. split; [now left|].
      split; [intros _; exists (clock s), v; split; [now left | exact Htest]|].
      split; [|split; [discriminate | intros _; exists v; now left]].
      intros t' v' [H|[]]. apply mk_inj in H. destruct H as [<- <-].
      split; [exact Hv|]. split; [lia | reflexivity].
    + unfold bind at 1, time_sleep at 1. cbn [clock moved with_event with_clock].
      set (t1 := clock s + Z.of_N (latency b (clock s))).
      destruct (IH (moved s (t1 + 500) [Sleep t1 500; mk (clock s) v]))
        as (r & t & evs & Hrun & Ht & Hr & Hsome & Hsamples & Hnone & _).
      * exact Hb.
      * lia.
      * cbn [clock moved]. unfold t1. lia.
      * cbn [clock moved] in *.
        exists r, t, (evs ++ [Sleep t1 500; mk (clock s) v]).
        split; [rewrite moved_moved in Hrun; exact Hrun|].
        split; [unfold t1 in *; lia|]. split; [exact Hr|].
        split; [|split; [|split; [exact Hnone|]]];
          [| | intros _; exists v; apply in_or_app; right; right; now left].
        -- intros H. destruct (Hsome H) as (t' & v' & Hin & Ht').
           exists t', v'. split; [|exact Ht']. apply in_or_app. now left.
        -- intros t' v' Hin. apply in_app_or in Hin. destruct Hin as [Hin|[Hin|[Hin|[]]]].
           ++ destruct (Hsamples t' v' Hin) as (H1 & H2 & H3).
              split; [exact H1|]. split; [unfold t1 in *; lia | exact H3].
           ++ symmetry in Hin. now apply mk_not_sleep in Hin.
           ++ apply mk_inj in Hin. destruct Hin as [<- <-].
              split; [exact Hv|]. split; [lia|]. intros H. congruence.
  - exists None, (clock s), []. rewrite moved_id.
    split; [reflexivity|]. split; [lia|]. split; [now right|].
    split; [discriminate|]. split; [intros t' v' []|]. split; [intros _; lia | lia].
Qed.

(** A polling function: fix the start, loop, turn the loop's result into
    the returned boolean. *)
Lemma polling_live (timeout : Z) (s : State) :
  _driver s = Some b ->
  exists r t evs,
    bind time_time
      (fun start_time =>
         bind (BasePage.while_before (BasePage.rounds_of timeout) start_time timeout
                 (sample mk read test))
              (fun r => ret (BasePage.or_False r))) s
    = Some (Ret r, moved s t evs)
    /\ clock s <= t
    /\ (forall t' v, In (mk t' v) evs ->
           read b t' = Ret v /\ clock s <= t' < clock s + 1000 * timeout)
    /\ (r = true <-> exists t' v, In (mk t' v) evs /\ test v = true)
    /\ (r = false -> clock s + 1000 * timeout <= t)
    /\ (0 < timeout -> exists v, In (mk (clock s) v) evs).
Proof.
  intros Hb. unfold bind at 1, time_time at 1. unfold bind at 1.
  destruct (while_before_sample (clock s) timeout (BasePage.rounds_of timeout) s Hb)
    as (r & t & evs & Hrun & Ht & Hr & Hsome & Hsamples & Hnone & Hfirst).
  - unfold BasePage.rounds_of. lia.
  - unfold BasePage.rounds_of. lia.
  - rewrite Hrun. exists (BasePage.or_False r), t, evs.
    split; [reflexivity|]. split; [exact Ht|].
    split; [intros t' v Hin; destruct (Hsamples t' v Hin) as (H1 & H2 & _); now split|].
    split; [split|].
    + intros H. apply Hsome. destruct Hr as [->| ->]; [reflexivity | discriminate].
    + intros (t' & v & Hin & Htest).
      destruct (Hsamples t' v Hin) as (_ & _ & H). now rewrite (H Htest).
    + split.
      * intros H. apply Hnone. destruct Hr as [->| ->]; [discriminate | reflexivity].
      * intros Hpos. apply Hfirst. lia.
Qed.

(** When the first sample already passes the test and the timeout is
    positive, the function returns at once, without sleeping. *)
Lemma polling_at_once (timeout : Z) (s : State) (v : string) :
  _driver s = Some b ->
  0 < timeout ->
  read b (clock s) = Ret v ->
  test v = true ->
  bind time_time
    (fun start_time =>
       bind (BasePage.while_before (BasePage.rounds_of timeout) start_time timeout
               (sample mk read test))
            (fun r => ret (BasePage.or_False r))) s
  = Some (Ret true, moved s (clock s + Z.of_N (latency b (clock s))) [mk (clock s) v]).
Proof.
  intros Hb Hpos Hv Htest. unfold bind at 1, time_time at 1. unfold bind at 1.
  unfold BasePage.rounds_of. cbn [BasePage.while_before].
  unfold bind at 1, time_time at 1.
  destruct (Z.ltb_spec (clock s - clock s) (1000 * timeout)) as [_|H]; [|lia].
  unfold bind at 1. rewrite (sample_live s v Hb Hv), Htest. reflexivity.
Qed.

End Polling.

Lemma Url_inj (t : Z) (v : string) (t' : Z) (v' : string) :
  Url t v = Url t' v' -> t = t' /\ v = v'.
Proof. intros H. injection H as -> ->. now split. Qed.

Lemma Url_not_sleep (t : Z) (v : string) (t' ms : Z) : Url t v <> Sleep t' ms.
Proof. discriminate. Qed.



(** C3.  Over a live session whose URL can be read, [wait_for_url_contains]
    returns a boolean (it does not raise); every URL it sampled was the
    browser's URL at an instant before the deadline; with a positive
    timeout the first sample is taken at call time; and it returns [True]
    exactly when one of the sampled URLs has the text as a substring,
    character for character. *)
Theorem wait_for_url_contains_iff
  (b : Browser) (s : State) (needle : string) (timeout : option Z) :
  _driver s = Some b ->
  (forall t, exists u, current_url b t = Ret u) ->
  exists (r : bool) (s' : State) (evs : list event),
    BasePage.wait_for_url_contains needle timeout s = Some (Ret r, s')
    /\ trace s' = evs ++ trace s
    /\ (forall t u, In (Url t u) evs ->
           current_url b t = Ret u
           /\ clock s <= t < clock s + 1000 * or_default timeout 15)
    /\ (0 < or_default timeout 15 -> exists u, In (Url (clock s) u) evs)
    /\ (r = true <->
        exists t u a c, In (Url t u) evs /\ u = (a ++ needle ++ c)%string).
Proof.
  intros Hb Hread.
  destruct (polling_live Url current_url (contains needle) b Url_inj Url_not_sleep Hread
              (or_default timeout 15) s Hb)
    as (r & t & evs & Hrun & _ & Hsamples & Hiff & _ & Hfirst).
  exists r, (moved s t evs), evs. split; [exact Hrun|]. split; [reflexivity|].
  split; [exact Hsamples|]. split; [exact Hfirst|]. rewrite Hiff. split.
  - intros (t' & u & Hin & Hc). apply contains_spec in Hc. destruct Hc as (a & c & ->).
    now exists t', (a ++ needle ++ c)%string, a, c.
  - intros (t' & u & a & c & Hin & ->). exists t', (a ++ needle ++ c)%string.
    split; [exact Hin|]. apply contains_spec. now exists a, c.
Qed.

(** Waiting 5 s for [/dashboard] on the login page. *)
Lemma wait_for_url_contains_iff_witness :
  (forall t, exists u, current_url login_page t = Ret u)
  /\ exists (r : bool) (s' : State) (evs : list event),
      BasePage.wait_for_url_contains "/dashboard" (Some 5) (initialized login_page)
      = Some (Ret r, s')
      /\ trace s' = evs ++ trace (initialized login_page)
      /\ (forall t u, In (Url t u) evs ->
             current_url login_page t = Ret u /\ 0 <= t < 0 + 1000 * 5)
      /\ (0 < 5 -> exists u, In (Url 0 u) evs)
      /\ (r = true <->
          exists t u a c, In (Url t u) evs /\ u = (a ++ "/dashboard" ++ c)%string).
Proof.
  assert (H : forall t, exists u, current_url login_page t = Ret u)
    by (intros t; eexists; reflexivity).
  split; [exact H|].
  exact (wait_for_url_contains_iff login_page (initialized login_page) "/dashboard"
           (Some 5) eq_refl H).
Defined.



(** ** [wait_for_any_element] *)

Lemma static_resolves (b : Browser) (t t' : Z) (selector : string) (e : WebElement) :
  static_page b -> resolves_at b t selector e -> resolves_at b t' selector e.
Proof.
  intros [Hfind Hshown] [Hf Hd]. split.
  - now rewrite (Hfind t' t).
  - now rewrite (Hshown t' t).
Qed.

Lemma static_quiet (b : Browser) (t t' : Z) (selector : string) :
  static_page b -> quiet_at b t selector -> quiet_at b t' selector.
Proof.
  intros [Hfind Hshown] [Hf | (e & Hf & Hd)].
  - left. now rewrite (Hfind t' t).
  - right. exists e. split.
    + now rewrite (Hfind t' t).
    + now rewrite (Hshown t' t).
Qed.

(** One pass over the selectors: the selectors that fail quietly cost
    their waits, the first visible match is returned. *)
Lemma scan_finds (b : Browser) (selector : string) (post : list string) (e : WebElement) :
  static_page b ->
  forall pre s,
    _driver s = Some b ->
    (forall p, In p pre -> quiet_at b (clock s) p) ->
    resolves_at b (clock s) selector e ->
    exists t evs,
      BasePage.scan (pre ++ selector :: post) s = Some (Ret (Some e), moved s t evs)
      /\ clock s <= t
      /\ sleeps_of evs = O.
Proof.
  intros Hstatic. induction pre as [|p pre IH]; intros s Hb Hquiet Hres.
  - cbn [app BasePage.scan]. unfold bind at 1, BasePage.find_element_safe.
    destruct Hres as [Hf Hd].
    rewrite (find_element_safe_at_once _ (Some 1) s b e Hb Hf).
    unfold bind, element_is_displayed.
    rewrite (command_live _ (moved s (clock s + Z.of_N (latency b (clock s)))
                               [Wait (clock s) (or_default (Some 1) 15)]) b Hb).
    cbn [clock moved]. destruct Hstatic as [_ Hshown].
    rewrite (Hshown _ (clock s)), Hd.
    eexists. eexists. split; [reflexivity|]. split; [lia | reflexivity].
  - cbn [app BasePage.scan]. unfold bind at 1, BasePage.find_element_safe.
    destruct (find_element_safe_live (DriverManager.by_css p) (Some 1) s b Hb)
      as (r & t & evs & Hrun & Ht & Hout).
    change (or_default (Some 1) 15) with 1 in *. rewrite Hrun.
    pose proof (Hquiet p (or_introl eq_refl)) as Hp.
    assert (Hnext : forall t1 evs1,
               clock s <= t1 -> sleeps_of evs1 = O ->
               exists t2 evs2,
                 BasePage.scan (pre ++ selector :: post) (moved s t1 evs1)
                 = Some (Ret (Some e), moved s t2 evs2)
                 /\ clock s <= t2 /\ sleeps_of evs2 = O).
    { intros t1 evs1 Ht1 Hs1.
      destruct (IH (moved s t1 evs1) Hb) as (t2 & evs2 & Hrun2 & Ht2 & Hs2).
      - intros q Hq. apply (static_quiet b (clock s)); [exact Hstatic|].
        apply Hquiet. now right.
      - now apply (static_resolves b (clock s)).
      - rewrite moved_moved in Hrun2. cbn [clock moved] in Ht2.
        exists t2, (evs2 ++ evs1). split; [exact Hrun2|]. split; [lia|].
        now rewrite sleeps_of_app, Hs1, Hs2. }
    destruct r as [[e'|]|x]; simpl in Hout.
    + destruct Hout as [Hask ->].
      destruct (find_element b t (DriverManager.by_css p)) as [e''|] eqn:Hf;
        simpl in Hask; [|discriminate].
      injection Hask as ->.
      apply (static_quiet b (clock s) t p Hstatic) in Hp.
      destruct Hp as [Habs | (e0 & Hf0 & Hd0)]; [congruence|].
      assert (e0 = e') by congruence. subst e0.
      unfold bind at 1, element_is_displayed.
      rewrite (command_live _ (moved s (t + Z.of_N (latency b t)) ([] ++ [Wait (clock s) 1]))
                 b Hb).
      cbn [clock moved]. destruct Hstatic as [Hfind Hshown].
      rewrite (Hshown _ t), Hd0.
      apply Hnext; [lia | reflexivity].
    + destruct Hout as [-> _].
      apply Hnext; [lia | reflexivity].
    + exfalso. destruct Hout as (Hask & Hx & _).
      apply (static_quiet b (clock s) t p Hstatic) in Hp.
      destruct Hp as [Habs | (e0 & Hf0 & _)].
      * rewrite Habs in Hask. simpl in Hask. congruence.
      * rewrite Hf0 in Hask. discriminate.
Qed.

(** C4.  Each polling loop tests its condition before it sleeps.  For a
    live session and a timeout that is absent or not negative: when the
    URL (the title) read at call time already passes the test, the loop
    returns [True] after that single sample, without sleeping; when, on a
    page that does not change, a selector of the list resolves to a visible
    element and the selectors before it fail quietly,
    [wait_for_any_element] returns that element from its first pass,
    without sleeping. *)
Theorem polling_loops_return_at_once (b : Browser) (s : State) (timeout : option Z) :
  _driver s = Some b ->
  not_negative timeout ->
  (forall needle u,
      current_url b (clock s) = Ret u ->
      contains needle u = true ->
      exists s' evs,
        BasePage.wait_for_url_contains needle timeout s = Some (Ret true, s')
        /\ trace s' = evs ++ trace s
        /\ evs = [Url (clock s) u]
        /\ sleeps_of evs = O)
  /\ (forall needle v,
        title b (clock s) = Ret v ->
        contains (lower needle) (lower v) = true ->
        exists s' evs,
          BasePage.wait_for_title_contains needle timeout s = Some (Ret true, s')
          /\ trace s' = evs ++ trace s
          /\ evs = [Title (clock s) v]
          /\ sleeps_of evs = O)
  /\ (forall pre selector post e,
        static_page b ->
        (forall p, In p pre -> quiet_at b (clock s) p) ->
        resolves_at b (clock s) selector e ->
        exists s' evs,
          BasePage.wait_for_any_element (pre ++ selector :: post) timeout s
          = Some (Ret (Some e), s')
          /\ trace s' = evs ++ trace s
          /\ sleeps_of evs = O).
Proof.
  intros Hb Hn.
  assert (Hpos : 0 < or_default timeout 15) by (apply or_default_positive; [exact Hn | lia]).
  split; [|split].
  - intros needle u Hu Hc.
    pose proof (polling_at_once Url current_url (contains needle) b
                  (or_default timeout 15) s u Hb Hpos Hu Hc) as Hrun.
    eexists. exists [Url (clock s) u]. split; [exact Hrun|]. now repeat split.
  - intros needle v Hv Hc.
    pose proof (polling_at_once Title title (fun v => contains (lower needle) (lower v)) b
                  (or_default timeout 15) s v Hb Hpos Hv Hc) as Hrun.
    eexists. exists [Title (clock s) v]. split; [exact Hrun|]. now repeat split.
  - intros pre selector post e Hstatic Hquiet Hres.
    destruct (scan_finds b selector post e Hstatic pre s Hb Hquiet Hres)
      as (t & evs & Hrun & Ht & Hs).
    exists (moved s t evs), evs. split; [|now split].
    unfold BasePage.wait_for_any_element, bind at 1, time_time at 1.
    change (or_default timeout (config.TIMEOUTS config.medium))
      with (or_default timeout 15).
    unfold BasePage.rounds_of. cbn [BasePage.while_before].
    unfold bind at 1, time_time at 1.
    destruct (Z.ltb_spec (clock s - clock s) (1000 * or_default timeout 15)) as [_|H];
      [|lia].
    unfold bind at 1. rewrite Hrun. reflexivity.
Qed.

(** The three loops on the login page, where each condition holds at call
    time. *)
Lemma polling_loops_return_at_once_witness :
  not_negative (Some 10)
  /\ static_page login_page
  /\ quiet_at login_page 0 ".missing-class"
  /\ resolves_at login_page 0 "#real-id" 1%nat
  /\ (exists s' evs,
        BasePage.wait_for_url_contains "/login" (Some 10) (initialized login_page)
        = Some (Ret true, s')
        /\ trace s' = evs ++ trace (initialized login_page)
        /\ evs = [Url 0 "http://localhost:3000/login"]
        /\ sleeps_of evs = O)
  /\ (exists s' evs,
        BasePage.wait_for_title_contains "login" (Some 10) (initialized login_page)
        = Some (Ret true, s')
        /\ trace s' = evs ++ trace (initialized login_page)
        /\ evs = [Title 0 "EduAssist - Login"]
        /\ sleeps_of evs = O)
  /\ (exists s' evs,
        BasePage.wait_for_any_element [".missing-class"; "#real-id"; ".later"]%string
          (Some 10) (initialized login_page)
        = Some (Ret (Some 1%nat), s')
        /\ trace s' = evs ++ trace (initialized login_page)
        /\ sleeps_of evs = O).
Proof.
  assert (Hn : not_negative (Some 10)) by (intros t H; injection H as <-; lia).
  assert (Hq : quiet_at login_page 0 ".missing-class") by (left; reflexivity).
  assert (Hr : resolves_at login_page 0 "#real-id" 1%nat) by (split; reflexivity).
  destruct (polling_loops_return_at_once login_page (initialized login_page) (Some 10)
              eq_refl Hn) as (Hurl & Htitle & Hany).
  split; [exact Hn|]. split; [exact login_page_static|]. split; [exact Hq|].
  split; [exact Hr|]. split; [|split].
  - exact (Hurl "/login"%string _ eq_refl eq_refl).
  - exact (Htitle "login"%string _ eq_refl eq_refl).
  - apply (Hany [".missing-class"%string] "#real-id"%string [".later"%string] 1%nat
             login_page_static); [|exact Hr].
    intros p [<-|[]]. exact Hq.
Defined.

(** ** Teardown *)

Lemma quit_driver_runs (s : State) :
  exists s',
    DriverManager.quit_driver s = Some (Ret tt, s')
    /\ (_driver s = None -> s' = s)
    /\ (forall b, _driver s = Some b -> quit b (clock s) = Ret tt ->
                  _driver s' = None /\ _wait s' = None
                  /\ trace s' = Printed CleanupCompleted :: Printed CleaningUp :: trace s)
    /\ (forall b x, _driver s = Some b -> quit b (clock s) = Raise x ->
                    _driver s' = Some b
                    /\ trace s' = Printed (CleanupError x) :: Printed CleaningUp :: trace s).
Proof.
  unfold DriverManager.quit_driver. destruct (_driver s) as [b|] eqn:Hb.
  - unfold bind at 1, print at 1, emit. unfold try_except, bind at 1.
    rewrite (command_live quit (with_event (Printed CleaningUp) s) b Hb).
    cbn [clock with_event]. destruct (quit b (clock s)) as [[]|x] eqn:Hq.
    + eexists. split; [reflexivity|]. split; [discriminate|]. split.
      * intros b' _ _. now repeat split.
      * intros b' x' Hb' H. injection Hb' as <-. congruence.
    + eexists. split; [reflexivity|]. split; [discriminate|]. split.
      * intros b' Hb' H. injection Hb' as <-. congruence.
      * intros b' x' Hb' H. injection Hb' as <-. rewrite Hq in H. injection H as <-.
        now split.
  - exists s. split; [reflexivity|]. split; [reflexivity|].
    split; intros; discriminate.
Qed.

(** C7.  [quit_driver] never raises: called on any state, and called
    again on the state it leaves, it returns normally.  Without a driver
    ([_driver] is [None], the state after a failed initialisation as well
    as after a successful quit) it changes nothing; an exception raised by
    [driver.quit()] is printed as a cleanup error and swallowed. *)
Theorem quit_driver_idempotent (s : State) :
  exists s1 s2,
    DriverManager.quit_driver s = Some (Ret tt, s1)
    /\ DriverManager.quit_driver s1 = Some (Ret tt, s2)
    /\ (_driver s = None -> s1 = s)
    /\ (_driver s1 = None -> s2 = s1)
    /\ (forall b, _driver s = Some b -> quit b (clock s) = Ret tt -> _driver s1 = None)
    /\ (forall b x, _driver s = Some b -> quit b (clock s) = Raise x ->
                    In (Printed (CleanupError x)) (trace s1)).
Proof.
  destruct (quit_driver_runs s) as (s1 & Hrun1 & Hnone1 & Hok1 & Herr1).
  destruct (quit_driver_runs s1) as (s2 & Hrun2 & Hnone2 & _).
  exists s1, s2. split; [exact Hrun1|]. split; [exact Hrun2|].
  split; [exact Hnone1|]. split; [exact Hnone2|]. split.
  - intros b Hb Hq. now destruct (Hok1 b Hb Hq).
  - intros b x Hb Hq. destruct (Herr1 b x Hb Hq) as [_ ->]. now left.
Qed.

(** Quitting the login page twice: the first call clears the driver, the
    second changes nothing. *)
Lemma quit_driver_idempotent_witness :
  exists s1 s2,
    DriverManager.quit_driver (initialized login_page) = Some (Ret tt, s1)
    /\ DriverManager.quit_driver s1 = Some (Ret tt, s2)
    /\ _driver s1 = None
    /\ s2 = s1.
Proof.
  destruct (quit_driver_idempotent (initialized login_page))
    as (s1 & s2 & H1 & H2 & _ & Hnoop & Hok & _).
  exists s1, s2. split; [exact H1|]. split; [exact H2|].
  assert (Hd : _driver s1 = None) by exact (Hok login_page eq_refl eq_refl).
  split; [exact Hd | exact (Hnoop Hd)].
Defined.

Lemma driver_commands_dead (s : State) :
  _driver s = None ->
  DriverManager.get_current_url s = Some (Raise AttributeError, s)
  /\ DriverManager.get_title s = Some (Raise AttributeError, s)
  /\ DriverManager.get_driver s
     = Some (Raise (RuntimeError "WebDriver not initialized. Call initialize_driver() first."), s).
Proof.
  intros Hd.
  unfold DriverManager.get_current_url, DriverManager.get_title, DriverManager.get_driver,
    observe, bind, time_time, command, raise.
  rewrite Hd. now repeat split.
Qed.

(** C6, the failing run.  After a successful [quit_driver] the accessor
    [get_driver] raises the "not initialized" [RuntimeError], and a second
    [quit_driver] does nothing; but [get_current_url], [get_title] and
    [find_element_safe], which read [cls._driver] without that guard,
    raise [AttributeError]. *)
Example operations_after_quit :
  exists s1 s2,
    DriverManager.quit_driver (initialized login_page) = Some (Ret tt, s1)
    /\ DriverManager.get_driver s1
       = Some (Raise (RuntimeError "WebDriver not initialized. Call initialize_driver() first."), s1)
    /\ DriverManager.quit_driver s1 = Some (Ret tt, s1)
    /\ DriverManager.get_current_url s1 = Some (Raise AttributeError, s1)
    /\ DriverManager.get_title s1 = Some (Raise AttributeError, s1)
    /\ DriverManager.find_element_safe (ID, "email"%string) None s1
       = Some (Raise AttributeError, s2).
Proof.
  eexists. eexists. split; [reflexivity|]. repeat split; reflexivity.
Qed.

(** ** Timeout defaults *)



(** ** Soft failures *)

(** The [try] block of [type_text_safe] on a located element: the keys go
    out at [sent], right away or after the clear has returned. *)
Lemma typing_block (b : Browser) (e : WebElement) (keys : string) (clear_first : bool)
  (s : State) :
  _driver s = Some b ->
  let sent := if clear_first then after b (clock s) else clock s in
  exists (ok : bool) s' evs,
    try_except
      (bind (if clear_first then element_clear e else ret tt)
            (fun _ => bind (element_send_keys e keys) (fun _ => ret true)))
      (except_Exception
         (fun ex => bind (print (TextInputFailed ex)) (fun _ => ret false))) s
    = Some (Ret ok, s')
    /\ trace s' = evs ++ trace s
    /\ _driver s' = Some b
    /\ if ok
       then (clear_first = true -> clear b (clock s) e = Ret tt)
            /\ send_keys b sent e keys = Ret tt
            /\ evs = []
            /\ values s' e
               = ((if clear_first then EmptyString else values s e) ++ keys)%string
       else exists x,
              ((clear_first = true /\ clear b (clock s) e = Raise x)
               \/ send_keys b sent e keys = Raise x)
              /\ evs = [Printed (TextInputFailed x)].
Proof.
  intros Hb. destruct s as [c d w v tr]. simpl in Hb. subst d.
  unfold try_except, bind, element_clear, element_send_keys, bind, command,
    get_value, set_value, except_Exception, print, emit, ret, after.
  destruct clear_first; simpl.
  - destruct (clear b c e) as [[]|x] eqn:Hc; simpl.
    + destruct (send_keys b _ e keys) as [[]|x] eqn:Hk; simpl.
      * exists true. eexists. exists []. split; [reflexivity|]. split; [reflexivity|].
        split; [reflexivity|]. split; [reflexivity|]. split; [first [exact Hk | reflexivity]|].
        split; [reflexivity|]. simpl. now rewrite Nat.eqb_refl.
      * exists false. eexists. exists [Printed (TextInputFailed x)].
        split; [reflexivity|]. split; [reflexivity|].
        split; [reflexivity|]. exists x. split; [right; first [exact Hk | reflexivity] | reflexivity].
    + exists false. eexists. exists [Printed (TextInputFailed x)].
      split; [reflexivity|]. split; [reflexivity|].
      split; [reflexivity|]. exists x. split; [left; now split | reflexivity].
  - destruct (send_keys b c e keys) as [[]|x] eqn:Hk; simpl.
    + exists true. eexists. exists []. split; [reflexivity|]. split; [reflexivity|].
      split; [reflexivity|]. split; [discriminate|]. split; [first [exact Hk | reflexivity]|].
      split; [reflexivity|]. simpl. now rewrite Nat.eqb_refl.
    + exists false. eexists. exists [Printed (TextInputFailed x)].
      split; [reflexivity|]. split; [reflexivity|].
      split; [reflexivity|]. exists x. split; [right; first [exact Hk | reflexivity] | reflexivity].
Qed.





(** Outside the soft failures: an exception other than
    [NoSuchElementException] and [TimeoutException] raised by the lookup
    itself leaves [find_element_safe] as it is, and so do the operations
    that start with a lookup. *)
Remark hard_lookup_failure_propagates (b : Browser) (s : State) (l : locator) (x : exn) :
  _driver s = Some b ->
  find_element b (clock s) l = Raise x ->
  x <> NoSuchElementException ->
  x <> TimeoutException ->
  exists s',
    DriverManager.find_element_safe l None s = Some (Raise x, s')
    /\ DriverManager.get_text_safe l s = Some (Raise x, s').
Proof.
  intros Hb Hf Hx Ht.
  assert (Hrun : exists s', DriverManager.find_element_safe l None s = Some (Raise x, s')).
  { unfold DriverManager.find_element_safe, try_except, bind at 1.
    rewrite (until_ext _ _ _ _ (presence_is_command l)).
    rewrite (until_hard_failure _ b _ s x Hb); [| now rewrite Hf | exact Hx].
    unfold except_TimeoutException. destruct x; try (eexists; reflexivity). contradiction. }
  destruct Hrun as [s' Hrun]. exists s'. split; [exact Hrun|].
  unfold DriverManager.get_text_safe, bind. now rewrite Hrun.
Qed.

(** ** Typing and reading back *)

(** C8 as stated fails: on the login page the keys are accepted by the
    e-mail input, and [get_text_safe] on the same locator returns the
    rendered text of the input, the empty string. *)
Lemma typed_text_is_not_read_back :
  exists s1 s2,
    DriverManager.type_text_safe (DriverManager.by_css "input[type=email]")
      "demo@eduassist.com" true (initialized login_page) = Some (Ret true, s1)
    /\ DriverManager.get_text_safe (DriverManager.by_css "input[type=email]") s1
       = Some (Ret EmptyString, s2)
    /\ EmptyString <> "demo@eduassist.com"%string.
Proof.
  eexists. eexists. split; [reflexivity|]. split; [reflexivity | discriminate].
Qed.

(** C8, as amended.  When the locator resolves to the input [e], a
    successful [type_text_safe] with [clear_first] leaves exactly the typed
    text as the value of [e]; [get_element_attribute] for [value] returns
    it; and [get_text_safe] returns the rendered text of [e], whatever was
    typed. *)
Theorem typed_text_is_the_value
  (b : Browser) (s s1 : State) (l : locator) (e : WebElement) (keys rendered : string) :
  _driver s = Some b ->
  (forall t, find_element b t l = Ret e) ->
  (forall t, exists a, get_attribute b t e "value" = Ret a) ->
  (forall t, text b t e = Ret rendered) ->
  DriverManager.type_text_safe l keys true s = Some (Ret true, s1) ->
  values s1 e = keys
  /\ (exists s2, BasePage.get_element_attribute l "value" s1 = Some (Ret keys, s2))
  /\ (exists s2, DriverManager.get_text_safe l s1 = Some (Ret rendered, s2)).
Proof.
  intros Hb Hfind Hattr Htext Hrun.
  unfold DriverManager.type_text_safe, bind at 1 in Hrun.
  rewrite (find_element_safe_at_once l None s b e Hb (Hfind _)) in Hrun.
  destruct (typing_block b e keys true
              (moved s (clock s + Z.of_N (latency b (clock s)))
                 [Wait (clock s) (or_default None 15)]) Hb)
    as (ok & s' & evs' & Hrun' & _ & Hb1 & Hok).
  rewrite Hrun' in Hrun. injection Hrun as -> ->.
  destruct Hok as (_ & _ & _ & Hvalue). simpl in Hvalue.
  split; [exact Hvalue|]. split.
  - unfold BasePage.get_element_attribute, bind at 1, BasePage.find_element_safe.
    rewrite (find_element_safe_at_once l None s1 b e Hb1 (Hfind _)).
    unfold try_except, bind, element_get_attribute, bind, get_value.
    rewrite (command_live _ (moved s1 (clock s1 + Z.of_N (latency b (clock s1)))
                               [Wait (clock s1) (or_default None 15)]) b Hb1).
    cbn [clock moved].
    destruct (Hattr (clock s1 + Z.of_N (latency b (clock s1)))) as [a Ha]. rewrite Ha.
    change (String.eqb "value" "value") with true. cbv iota. cbn [values moved].
    rewrite Hvalue. eexists. reflexivity.
  - unfold DriverManager.get_text_safe, bind at 1.
    rewrite (find_element_safe_at_once l None s1 b e Hb1 (Hfind _)).
    unfold try_except, element_text.
    rewrite (command_live _ (moved s1 (clock s1 + Z.of_N (latency b (clock s1)))
                               [Wait (clock s1) (or_default None 15)]) b Hb1).
    rewrite Htext. eexists. reflexivity.
Qed.

(** Typing the demo address into the e-mail input of the login page. *)
Lemma typed_text_is_the_value_witness :
  exists s1,
    DriverManager.type_text_safe (DriverManager.by_css "input[type=email]")
      "demo@eduassist.com" true (initialized login_page) = Some (Ret true, s1)
    /\ values s1 1%nat = "demo@eduassist.com"%string
    /\ (exists s2,
          BasePage.get_element_attribute (DriverManager.by_css "input[type=email]")
            "value" s1 = Some (Ret "demo@eduassist.com"%string, s2))
    /\ (exists s2,
          DriverManager.get_text_safe (DriverManager.by_css "input[type=email]") s1
          = Some (Ret EmptyString, s2)).
Proof.
  eexists. split; [reflexivity|].
  apply (typed_text_is_the_value login_page (initialized login_page) _
           (DriverManager.by_css "input[type=email]") 1%nat
           "demo@eduassist.com"%string EmptyString eq_refl).
  - intros t. reflexivity.
  - intros t. eexists. reflexivity.
  - intros t. reflexivity.
  - reflexivity.
Defined.

(** * Further properties of the engine *)

(** ** Termination of the safe waits, with or without a driver *)

Lemma find_element_safe_total (l : locator) (timeout : option Z) (s : State) :
  exists r s', DriverManager.find_element_safe l timeout s = Some (r, s').
Proof.
  destruct (_driver s) as [b|] eqn:Hb.
  - destruct (find_element_safe_live l timeout s b Hb) as (r & t & evs & Hrun & _).
    eauto.
  - eexists. eexists.
    exact (safe_wait_dead _ _ (presence_is_command l) (ElementNotFound l) _ s Hb).
Qed.

Lemma wait_for_element_clickable_total (l : locator) (timeout : option Z) (s : State) :
  exists r s', DriverManager.wait_for_element_clickable l timeout s = Some (r, s').
Proof.
  destruct (_driver s) as [b|] eqn:Hb.
  - destruct (wait_for_element_clickable_live l timeout s b Hb)
      as (r & t & evs & Hrun & _).
    eauto.
  - eexists. eexists.
    exact (safe_wait_dead (fun b t => clickable b t l) _ (fun _ => eq_refl)
             (ElementNotClickable l) _ s Hb).
Qed.

Lemma command_total {A} (ask : Browser -> Z -> result A) (s : State) :
  exists r s', command ask s = Some (r, s').
Proof. unfold command. destruct (_driver s); eauto. Qed.

Lemma click_element_safe_total (l : locator) (timeout : option Z) (s : State) :
  exists r s', DriverManager.click_element_safe l timeout s = Some (r, s').
Proof.
  unfold DriverManager.click_element_safe, bind at 1.
  destruct (wait_for_element_clickable_total l timeout s) as (r & s1 & ->).
  destruct r as [[e|]|x]; try (eexists; eexists; reflexivity).
  unfold try_except, bind, element_click.
  destruct (command_total (fun b t => click b t e) s1) as ([[]|x] & s2 & ->);
    eexists; eexists; reflexivity.
Qed.

(** One round of [try_multiple_selectors] always ends, and ends normally. *)
Lemma attempt_total (selector action : string) (s : State) :
  exists r s',
    try_except (BasePage.try_selector selector action)
               (except_Exception (fun _ => ret None)) s
    = Some (Ret r, s').
Proof.
  unfold BasePage.try_selector, try_except.
  destruct (String.eqb action "find").
  - unfold bind at 1, BasePage.find_element_safe.
    destruct (find_element_safe_total (DriverManager.by_css selector) (Some 2) s)
      as (r & s1 & ->).
    destruct r as [[e|]|x]; try (eexists; eexists; reflexivity).
    unfold bind, element_is_displayed.
    destruct (command_total (fun b t => is_displayed b t e) s1) as ([[|]|x] & s2 & ->);
      eexists; eexists; reflexivity.
  - destruct (String.eqb action "click"); [|eexists; eexists; reflexivity].
    unfold bind at 1, BasePage.click_element.
    destruct (click_element_safe_total (DriverManager.by_css selector) (Some 2) s)
      as (r & s1 & ->).
    destruct r as [[|]|x]; eexists; eexists; reflexivity.
Qed.

(** Without a driver a round finds nothing: the [AttributeError] of the
    lookup is caught by the [except Exception] of the loop. *)
Lemma attempt_dead (selector action : string) (s : State) :
  _driver s = None ->
  exists s',
    try_except (BasePage.try_selector selector action)
               (except_Exception (fun _ => ret None)) s
    = Some (Ret None, s')
    /\ _driver s' = None.
Proof.
  intros Hd. unfold BasePage.try_selector, try_except.
  destruct (String.eqb action "find").
  - unfold bind at 1, BasePage.find_element_safe.
    rewrite (safe_wait_dead _ _ (presence_is_command (DriverManager.by_css selector))
               (ElementNotFound (DriverManager.by_css selector)) _ s Hd
             : DriverManager.find_element_safe _ (Some 2) s = _).
    eexists. split; [reflexivity | exact Hd].
  - destruct (String.eqb action "click").
    + unfold bind at 1, BasePage.click_element, DriverManager.click_element_safe,
        bind at 1.
      rewrite (safe_wait_dead (fun b t => clickable b t (DriverManager.by_css selector))
                 _ (fun _ => eq_refl)
                 (ElementNotClickable (DriverManager.by_css selector)) _ s Hd
               : DriverManager.wait_for_element_clickable _ (Some 2) s = _).
      eexists. split; [reflexivity | exact Hd].
    + eexists. split; [reflexivity | exact Hd].
Qed.

(** X1.  [try_multiple_selectors] never raises: for every list of
    selectors, every action string and every state it terminates and
    returns a value; without a driver ([_driver] is [None]) that value is
    [None]. *)
Theorem try_multiple_selectors_never_raises
  (selectors : list string) (action : string) (s : State) :
  exists r s',
    BasePage.try_multiple_selectors selectors action s = Some (Ret r, s')
    /\ (_driver s = None -> r = None).
Proof.
  unfold BasePage.try_multiple_selectors. generalize selectors at 1 as all.
  intros all. revert s. induction selectors as [|selector rest IH]; intros s.
  - eexists. eexists. split; reflexivity.
  - cbn [BasePage.try_each]. unfold bind at 1.
    destruct (_driver s) as [b|] eqn:Hb.
    + destruct (attempt_total selector action s) as (r & s1 & ->).
      destruct r as [v|].
      * eexists. eexists. split; [reflexivity | discriminate].
      * destruct (IH s1) as (r & s' & Hrun & _). exists r, s'.
        split; [exact Hrun | discriminate].
    + destruct (attempt_dead selector action s Hb) as (s1 & -> & Hd1).
      destruct (IH s1) as (r & s' & Hrun & Hnone). exists r, s'.
      split; [exact Hrun | intros _; exact (Hnone Hd1)].
Qed.

(** X2.  An action other than "find" and "click" makes
    [try_multiple_selectors] skip every selector: it prints the "no working
    selector" line and returns [None] without a lookup, a wait or a sleep. *)
Theorem try_multiple_selectors_unknown_action
  (selectors : list string) (action : string) (s : State) :
  action <> "find"%string ->
  action <> "click"%string ->
  BasePage.try_multiple_selectors selectors action s
  = Some (Ret None, with_event (Printed (NoWorkingSelector selectors)) s).
Proof.
  intros Hfind Hclick. unfold BasePage.try_multiple_selectors.
  generalize selectors at 1 3 as all. intros all.
  induction selectors as [|selector rest IH]; [reflexivity|].
  cbn [BasePage.try_each]. unfold bind at 1, try_except, BasePage.try_selector.
  apply String.eqb_neq in Hfind, Hclick. rewrite Hfind, Hclick. exact IH.
Qed.

(** The action "hover" is neither of the two. *)
Lemma try_multiple_selectors_unknown_action_witness :
  BasePage.try_multiple_selectors ["#email"; "#password"]%string "hover"
    (initialized login_page)
  = Some (Ret None,
          with_event (Printed (NoWorkingSelector ["#email"; "#password"]%string))
            (initialized login_page)).
Proof.
  apply try_multiple_selectors_unknown_action; discriminate.
Defined.

(** ** [try_multiple_selectors] in "click" mode *)

Lemma click_attempt_miss (b : Browser) (selector : string) (s : State) :
  _driver s = Some b ->
  never_clicks b selector ->
  exists t evs,
    try_except (BasePage.try_selector selector "click")
               (except_Exception (fun _ => ret None)) s
    = Some (Ret None, moved s t (evs ++ [Wait (clock s) 2]))
    /\ waits_of evs = [].
Proof.
  intros Hb Hn. unfold BasePage.try_selector.
  change (String.eqb "click" "find") with false.
  change (String.eqb "click" "click") with true. cbv iota.
  unfold try_except, bind at 1, BasePage.click_element,
    DriverManager.click_element_safe, bind at 1.
  destruct (wait_for_element_clickable_live (DriverManager.by_css selector) (Some 2) s b Hb)
    as (r & t & evs & Hrun & _ & Hout).
  change (or_default (Some 2) 15) with 2 in *. rewrite Hrun.
  destruct r as [[e|]|x]; simpl in Hout.
  - destruct Hout as [Hask ->].
    unfold try_except, bind, element_click.
    rewrite (command_live _ (moved s (t + Z.of_N (latency b t)) ([] ++ [Wait (clock s) 2]))
               b Hb).
    cbn [clock moved].
    destruct (click b (t + Z.of_N (latency b t)) e) as [[]|x] eqn:Hc.
    + exfalso. exact (Hn t e Hask _ Hc).
    + eexists. exists [Printed (ClickFailed x)]. split; reflexivity.
  - destruct Hout as [-> _]. eexists. eexists. split; reflexivity.
  - destruct Hout as (_ & _ & _ & ->). eexists. exists []. split; reflexivity.
Qed.

Lemma click_attempt_hit (b : Browser) (selector : string) (e : WebElement) (s : State) :
  _driver s = Some b ->
  always_clicks b selector e ->
  exists t,
    try_except (BasePage.try_selector selector "click")
               (except_Exception (fun _ => ret None)) s
    = Some (Ret (Some BasePage.True_),
            moved s t [Printed (ClickedWithSelector selector); Wait (clock s) 2]).
Proof.
  intros Hb [Hask Hclick]. unfold BasePage.try_selector.
  change (String.eqb "click" "find") with false.
  change (String.eqb "click" "click") with true. cbv iota.
  unfold try_except, bind at 1, BasePage.click_element,
    DriverManager.click_element_safe, bind at 1.
  rewrite (safe_wait_at_once (fun b t => clickable b t (DriverManager.by_css selector))
             _ (fun _ => eq_refl) (ElementNotClickable (DriverManager.by_css selector))
             b _ s e Hb (Hask _)
           : DriverManager.wait_for_element_clickable _ (Some 2) s = _).
  unfold try_except, bind, element_click.
  rewrite (command_live _ (moved s (clock s + Z.of_N (latency b (clock s)))
                             [Wait (clock s) (or_default (Some 2) 15)]) b Hb).
  rewrite Hclick. eexists. reflexivity.
Qed.

(** X3.  In "click" mode the first selector whose click is accepted wins:
    when the clicks on the selectors before it are never accepted (the
    element is not clickable in time, or the click raises) and the
    selector itself is clickable and accepts the click, the call returns
    [True] after one wait per selector up to and including it, so the
    selectors after it are not touched; when no click is ever accepted it
    returns [None]. *)
Theorem try_multiple_selectors_click_first
  (b : Browser) (s : State) (pre : list string) (selector : string)
  (post : list string) (e : WebElement) :
  _driver s = Some b ->
  (forall p, In p pre -> never_clicks b p) ->
  (always_clicks b selector e ->
   exists s' evs,
     BasePage.try_multiple_selectors (pre ++ selector :: post) "click" s
     = Some (Ret (Some BasePage.True_), s')
     /\ trace s' = evs ++ trace s
     /\ In (Printed (ClickedWithSelector selector)) evs
     /\ waits_of evs = repeat 2 (S (List.length pre)))
  /\ (never_clicks b selector ->
      (forall p, In p post -> never_clicks b p) ->
      exists s',
        BasePage.try_multiple_selectors (pre ++ selector :: post) "click" s
        = Some (Ret None, s')).
Proof.
  intros Hb Hpre. unfold BasePage.try_multiple_selectors.
  generalize (pre ++ selector :: post) at 1 3 as all. intros all.
  assert (Hloop : forall rest s0,
             _driver s0 = Some b ->
             (forall p, In p rest -> never_clicks b p) ->
             exists t evs,
               BasePage.try_each all rest "click" s0
               = Some (Ret None, moved s0 t evs)).
  { induction rest as [|p rest IH]; intros s0 Hb0 Hn.
    - exists (clock s0), [Printed (NoWorkingSelector all)]. reflexivity.
    - cbn [BasePage.try_each]. unfold bind at 1.
      destruct (click_attempt_miss b p s0 Hb0 (Hn p (or_introl eq_refl)))
        as (t1 & evs1 & -> & _).
      destruct (IH (moved s0 t1 (evs1 ++ [Wait (clock s0) 2])) Hb0
                   (fun x Hx => Hn x (or_intror Hx))) as (t2 & evs2 & ->).
      rewrite moved_moved. eexists. eexists. reflexivity. }
  split.
  - intros Hsel. revert s Hb.
    induction pre as [|p pre IH]; intros s Hb.
    + cbn [app BasePage.try_each]. unfold bind at 1.
      destruct (click_attempt_hit b selector e s Hb Hsel) as (t & ->).
      eexists. exists [Printed (ClickedWithSelector selector); Wait (clock s) 2].
      split; [reflexivity|]. split; [reflexivity|]. split; [now left | reflexivity].
    + cbn [app BasePage.try_each]. unfold bind at 1.
      destruct (click_attempt_miss b p s Hb (Hpre p (or_introl eq_refl)))
        as (t1 & evs1 & -> & Hw1).
      destruct (IH (fun x Hx => Hpre x (or_intror Hx))
                   (moved s t1 (evs1 ++ [Wait (clock s) 2])) Hb)
        as (s' & evs2 & Hrun & Htrace & Hin & Hw2).
      rewrite Hrun. exists s', (evs2 ++ evs1 ++ [Wait (clock s) 2]).
      split; [reflexivity|]. split; [|split].
      * rewrite Htrace. cbn [trace moved]. now rewrite <- !app_assoc.
      * apply in_or_app. now left.
      * rewrite !waits_of_app, Hw1, Hw2. cbn [List.length]. simpl.
        now rewrite <- repeat_cons.
  - intros Hsel Hpost.
    destruct (Hloop (pre ++ selector :: post) s Hb) as (t & evs & ->).
    + intros p Hp. apply in_app_or in Hp. destruct Hp as [Hp|[<-|Hp]]; auto.
    + eexists. reflexivity.
Qed.

(** The login page, whose [#real-id] is clickable, against a selector that
    matches nothing. *)
Lemma try_multiple_selectors_click_first_witness :
  never_clicks login_page ".missing-class"
  /\ always_clicks login_page "#real-id" 1%nat
  /\ exists s' evs,
      BasePage.try_multiple_selectors [".missing-class"; "#real-id"; ".later"]%string
        "click" (initialized login_page)
      = Some (Ret (Some BasePage.True_), s')
      /\ trace s' = evs ++ trace (initialized login_page)
      /\ In (Printed (ClickedWithSelector "#real-id")) evs
      /\ waits_of evs = [2; 2].
Proof.
  assert (Hn : never_clicks login_page ".missing-class")
    by (intros t e H; discriminate H).
  assert (Ha : always_clicks login_page "#real-id" 1%nat) by (split; reflexivity).
  split; [exact Hn|]. split; [exact Ha|].
  apply (proj1 (try_multiple_selectors_click_first login_page (initialized login_page)
                  [".missing-class"%string] "#real-id"%string [".later"%string] 1%nat
                  eq_refl (fun p H => match H with
                                      | or_introl E => eq_ind _ _ Hn _ E
                                      | or_intror F => match F with end
                                      end))).
  exact Ha.
Defined.

(** ** Timing of [find_element_safe] *)

(** X4.  Over a live session, for a lookup that fails only by not finding
    the element and a timeout that is absent or not negative,
    [find_element_safe] returns [None] only once its timeout has elapsed,
    and never takes longer than the timeout, one poll interval and one
    command. *)
Theorem find_element_safe_timing
  (b : Browser) (s : State) (l : locator) (timeout : option Z) (L : Z) :
  _driver s = Some b ->
  (forall t x, find_element b t l = Raise x -> x = NoSuchElementException) ->
  latency_within b L ->
  not_negative timeout ->
  exists r s',
    DriverManager.find_element_safe l timeout s = Some (Ret r, s')
    /\ clock s <= clock s'
       <= clock s + 1000 * or_default timeout 15 + POLL_FREQUENCY + L
    /\ match r with
       | Some e => exists t, find_element b t l = Ret e /\ clock s' = after b t
       | None => clock s + 1000 * or_default timeout 15 < clock s'
       end.
Proof.
  intros Hb Hsoft HL Hn.
  pose proof (or_default_positive timeout 15 Hn ltac:(lia)) as Hpos.
  destruct (find_element_safe_live l timeout s b Hb) as (r & t & evs & Hrun & Ht & Hout).
  pose proof (HL t) as HLt. unfold POLL_FREQUENCY.
  destruct r as [[e|]|x]; simpl in Hout.
  - eexists. eexists. split; [exact Hrun|]. cbn [clock moved]. split; [lia|].
    exists t. split; [|reflexivity]. destruct Hout as [Hask _].
    destruct (find_element b t l); simpl in Hask; congruence.
  - eexists. eexists. split; [exact Hrun|]. cbn [clock moved]. split; [lia|].
    destruct Hout as [_ [[Hlate _] | Hask]]; [exact Hlate|].
    destruct (find_element b t l) as [e|y] eqn:Hf; simpl in Hask; [discriminate|].
    injection Hask as ->. specialize (Hsoft t _ Hf). discriminate.
  - exfalso. destruct Hout as (Hask & Hx & _).
    destruct (find_element b t l) as [e|y] eqn:Hf; simpl in Hask; [discriminate|].
    injection Hask as ->. exact (Hx (Hsoft t _ Hf)).
Qed.

(** A lookup of 2 s on the empty page, where a command blocks for 5 s. *)
Lemma find_element_safe_timing_witness :
  latency_within empty_page 5000
  /\ not_negative (Some 2)
  /\ exists r s',
      DriverManager.find_element_safe (ID, "email"%string) (Some 2) (initialized empty_page)
      = Some (Ret r, s')
      /\ 0 <= clock s' <= 0 + 1000 * 2 + POLL_FREQUENCY + 5000
      /\ match r with
         | Some e => exists t, find_element empty_page t (ID, "email"%string) = Ret e
                               /\ clock s' = after empty_page t
         | None => 0 + 1000 * 2 < clock s'
         end.
Proof.
  assert (HL : latency_within empty_page 5000) by (intros t; vm_compute; discriminate).
  assert (Hn : not_negative (Some 2)) by (intros t H; injection H as <-; lia).
  split; [exact HL|]. split; [exact Hn|].
  exact (find_element_safe_timing empty_page (initialized empty_page) (ID, "email"%string)
           (Some 2) 5000 eq_refl
           (fun t x H => f_equal (fun r => match r with
                                           | Raise y => y
                                           | Ret _ => NoSuchElementException
                                           end) (eq_sym H))
           HL Hn).
Defined.

(** ** The polling loops in general *)

(** The loop of the polling functions keeps an invariant that its body
    and its sleep keep; it leaves with a value the body returned, or with
    the deadline behind it. *)
Lemma while_before_invariant {A} (start_time timeout : Z) (body : M (option A))
  (Inv : State -> Prop) (Q : A -> State -> Prop) :
  (forall s, Inv s -> clock s - start_time < 1000 * timeout ->
             exists r s',
               body s = Some (Ret r, s')
               /\ clock s <= clock s'
               /\ match r with
                  | Some a => Q a s'
                  | None => Inv (slept s')
                  end) ->
  forall fuel s,
    Inv s ->
    (1 <= fuel)%nat ->
    start_time + 1000 * timeout - clock s <= 500 * (Z.of_nat fuel - 1) ->
    exists r s',
      BasePage.while_before fuel start_time timeout body s = Some (Ret r, s')
      /\ clock s <= clock s'
      /\ match r with
         | Some a => Q a s'
         | None => start_time + 1000 * timeout <= clock s' /\ Inv s'
         end.
Proof.
  intros Hbody. induction fuel as [|fuel IH]; intros s Hinv Hf Hc; [lia|].
  cbn [BasePage.while_before]. unfold bind at 1, time_time at 1.
  destruct (Z.ltb_spec (clock s - start_time) (1000 * timeout)) as [Hlt|Hge].
  - destruct (Hbody s Hinv Hlt) as (r & s1 & Hrun & Hclock & Hr).
    unfold bind at 1. rewrite Hrun. destruct r as [a|].
    + exists (Some a), s1. split; [reflexivity|]. split; [exact Hclock | exact Hr].
    + unfold bind at 1, time_sleep at 1. fold (slept s1).
      destruct (IH (slept s1) Hr) as (r & s' & Hrun' & Hclock' & Hr').
      * lia.
      * cbn [clock slept with_clock]. lia.
      * exists r, s'. split; [exact Hrun'|]. split; [|exact Hr'].
        cbn [clock slept with_clock] in Hclock'. lia.
  - exists None, s. split; [reflexivity|]. split; [lia|]. split; [lia | exact Hinv].
Qed.

(** ** [wait_for_any_element] over a changing page *)

(** One pass over the selectors on a browser whose lookups are soft and
    whose visibility can be read: it does not raise, and an element it
    returns was found by a listed selector and was visible right after. *)
Lemma scan_sound (b : Browser) (selectors : list string) (t0 : Z) :
  soft_lookups b ->
  visibility_answers b ->
  forall rest s,
    incl rest selectors ->
    _driver s = Some b ->
    t0 <= clock s ->
    exists r t evs,
      BasePage.scan rest s = Some (Ret r, moved s t evs)
      /\ clock s <= t
      /\ match r with
         | Some e =>
             exists selector t1,
               In selector selectors /\ t0 <= t1
               /\ find_element b t1 (DriverManager.by_css selector) = Ret e
               /\ is_displayed b (after b t1) e = Ret true
         | None => True
         end.
Proof.
  intros [Hsoft _] Hvis. induction rest as [|selector rest IH]; intros s Hincl Hb Ht0.
  - exists None, (clock s), []. rewrite moved_id. split; [reflexivity|]. split; [lia | exact I].
  - cbn [BasePage.scan]. unfold bind at 1, BasePage.find_element_safe.
    destruct (find_element_safe_live (DriverManager.by_css selector) (Some 1) s b Hb)
      as (r & t & evs & Hrun & Ht & Hout).
    change (or_default (Some 1) 15) with 1 in *. rewrite Hrun.
    assert (Hnext : forall t1 evs1,
               clock s <= t1 ->
               exists r t2 evs2,
                 BasePage.scan rest (moved s t1 evs1) = Some (Ret r, moved s t2 evs2)
                 /\ clock s <= t2
                 /\ match r with
                    | Some e =>
                        exists selector t3,
                          In selector selectors /\ t0 <= t3
                          /\ find_element b t3 (DriverManager.by_css selector) = Ret e
                          /\ is_displayed b (after b t3) e = Ret true
                    | None => True
                    end).
    { intros t1 evs1 Ht1.
      destruct (IH (moved s t1 evs1)) as (r' & t2 & evs2 & Hrun' & Ht2 & Hr').
      - intros x Hx. apply Hincl. now right.
      - exact Hb.
      - cbn [clock moved]. lia.
      - rewrite moved_moved in Hrun'. cbn [clock moved] in Ht2.
        exists r', t2, (evs2 ++ evs1). split; [exact Hrun'|]. split; [lia | exact Hr']. }
    destruct r as [[e|]|x]; simpl in Hout.
    + destruct Hout as [Hask ->].
      destruct (find_element b t (DriverManager.by_css selector)) as [e'|] eqn:Hf;
        simpl in Hask; [|discriminate].
      injection Hask as ->.
      unfold bind at 1, element_is_displayed.
      rewrite (command_live _ (moved s (t + Z.of_N (latency b t)) ([] ++ [Wait (clock s) 1]))
                 b Hb).
      cbn [clock moved]. fold (after b t).
      destruct (Hvis (after b t) e) as [[|] Hd]; rewrite Hd.
      * eexists (Some e), _, _. split; [reflexivity|]. split; [unfold after; lia|].
        exists selector, t. split; [apply Hincl; now left|]. split; [lia|]. now split.
      * apply Hnext. unfold after. lia.
    + apply Hnext. lia.
    + exfalso. destruct Hout as (Hask & Hx & _).
      destruct (find_element b t (DriverManager.by_css selector)) as [e|y] eqn:Hf;
        simpl in Hask; [discriminate|].
      injection Hask as ->. exact (Hx (Hsoft t _ _ Hf)).
Qed.

(** X6.  Over a live session whose lookups are soft and whose visibility
    can be read, on a page that may change during the call,
    [wait_for_any_element] does not raise; an element it returns was found
    by one of the listed selectors during the call and was visible when
    checked right after the lookup; and it returns [None] only once its
    timeout has elapsed. *)
Theorem wait_for_any_element_sound
  (b : Browser) (s : State) (selectors : list string) (timeout : option Z) :
  _driver s = Some b ->
  soft_lookups b ->
  visibility_answers b ->
  exists r s',
    BasePage.wait_for_any_element selectors timeout s = Some (Ret r, s')
    /\ match r with
       | Some e =>
           exists selector t,
             In selector selectors /\ clock s <= t
             /\ find_element b t (DriverManager.by_css selector) = Ret e
             /\ is_displayed b (after b t) e = Ret true
       | None => clock s + 1000 * or_default timeout 15 <= clock s'
       end.
Proof.
  intros Hb Hsoft Hvis.
  unfold BasePage.wait_for_any_element, bind at 1, time_time at 1.
  change (or_default timeout (config.TIMEOUTS config.medium)) with (or_default timeout 15).
  destruct (while_before_invariant (clock s) (or_default timeout 15)
              (BasePage.scan selectors)
              (fun s1 => exists t evs, s1 = moved s t evs /\ clock s <= t)
              (fun e _ =>
                 exists selector t,
                   In selector selectors /\ clock s <= t
                   /\ find_element b t (DriverManager.by_css selector) = Ret e
                   /\ is_displayed b (after b t) e = Ret true))
    with (fuel := BasePage.rounds_of (or_default timeout 15)) (s := s)
    as (r & s' & Hrun & _ & Hr).
  - intros s1 (t1 & evs1 & -> & Ht1) _.
    destruct (scan_sound b selectors (clock s) Hsoft Hvis selectors (moved s t1 evs1)
                (incl_refl _) Hb Ht1) as (r & t2 & evs2 & Hrun & Ht2 & Hr).
    rewrite moved_moved in Hrun. cbn [clock moved] in Ht2.
    exists r, (moved s t2 (evs2 ++ evs1)). split; [exact Hrun|].
    split; [cbn [clock moved]; lia|]. destruct r as [e|]; [exact Hr|].
    exists (t2 + 500), (Sleep t2 500 :: evs2 ++ evs1). split; [reflexivity | lia].
  - exists (clock s), []. split; [now rewrite moved_id | lia].
  - unfold BasePage.rounds_of. lia.
  - unfold BasePage.rounds_of. lia.
  - exists r, s'. split; [exact Hrun|]. destruct r as [e|]; [exact Hr | apply Hr].
Qed.

(** The login page, with a selector that matches nothing before one that
    matches. *)
Lemma wait_for_any_element_sound_witness :
  soft_lookups login_page
  /\ visibility_answers login_page
  /\ exists r s',
      BasePage.wait_for_any_element [".missing-class"; "#real-id"]%string (Some 5)
        (initialized login_page) = Some (Ret r, s')
      /\ match r with
         | Some e =>
             exists selector t,
               In selector [".missing-class"; "#real-id"]%string /\ 0 <= t
               /\ find_element login_page t (DriverManager.by_css selector) = Ret e
               /\ is_displayed login_page (after login_page t) e = Ret true
         | None => 0 + 1000 * 5 <= clock s'
         end.
Proof.
  assert (Hsoft : soft_lookups login_page).
  { split; intros t [[] sel] x; simpl;
      try (intros H; now injection H as <-);
      destruct (_ || _); intros H; try discriminate; now injection H as <-. }
  assert (Hvis : visibility_answers login_page) by (intros t e; now exists true).
  split; [exact Hsoft|]. split; [exact Hvis|].
  exact (wait_for_any_element_sound login_page (initialized login_page)
           [".missing-class"; "#real-id"]%string (Some 5) eq_refl Hsoft Hvis).
Defined.

(** X5.  With an empty list of selectors [wait_for_any_element] has
    nothing to look up: it sleeps in steps of 0.5 s until the timeout has
    elapsed, exactly, and returns [None]; a negative timeout returns at
    once. *)
Theorem wait_for_any_element_empty (s : State) (timeout : option Z) :
  exists evs,
    BasePage.wait_for_any_element [] timeout s
    = Some (Ret None, moved s (clock s + 1000 * Z.max 0 (or_default timeout 15)) evs)
    /\ sleeps_of evs = Z.to_nat (2 * or_default timeout 15)
    /\ waits_of evs = [].
Proof.
  unfold BasePage.wait_for_any_element, bind at 1, time_time at 1.
  change (or_default timeout (config.TIMEOUTS config.medium)) with (or_default timeout 15).
  set (T := or_default timeout 15).
  assert (Hloop : forall r fuel s1 k,
             (r < fuel)%nat ->
             clock s1 = clock s + 500 * k ->
             Z.to_nat (2 * T - k) = r ->
             exists evs,
               BasePage.while_before fuel (clock s) T (BasePage.scan []) s1
               = Some (Ret None, moved s1 (clock s1 + 500 * Z.of_nat r) evs)
               /\ sleeps_of evs = r /\ waits_of evs = []).
  { induction r as [|r IH]; intros fuel s1 k Hfuel Hclock Hr;
      (destruct fuel as [|fuel]; [lia|]);
      cbn [BasePage.while_before]; unfold bind at 1, time_time at 1;
      destruct (Z.ltb_spec (clock s1 - clock s) (1000 * T)) as [Hlt|Hge]; try lia.
    - exists []. replace (clock s1 + 500 * Z.of_nat 0) with (clock s1) by lia.
      rewrite moved_id. now repeat split.
    - unfold bind at 1.
      change (BasePage.scan [] s1) with (Some (Ret (@None WebElement), s1)). cbv iota.
      unfold bind at 1, time_sleep at 1.
      destruct (IH fuel (slept s1) (k + 1)) as (evs & Hrun & Hs & Hw).
      + lia.
      + cbn [clock slept with_clock]. lia.
      + lia.
      + change (slept s1) with (moved s1 (clock s1 + 500) [Sleep (clock s1) 500]) in Hrun.
        rewrite moved_moved in Hrun. cbn [clock moved] in Hrun.
        replace (clock s1 + 500 + 500 * Z.of_nat r)
          with (clock s1 + 500 * Z.of_nat (S r)) in Hrun by lia.
        exists (evs ++ [Sleep (clock s1) 500]). split; [exact Hrun|split].
        * rewrite sleeps_of_app, Hs. simpl. lia.
        * now rewrite waits_of_app, Hw. }
  destruct (Hloop (Z.to_nat (2 * T)) (BasePage.rounds_of T) s 0) as (evs & Hrun & Hs & Hw).
  - unfold BasePage.rounds_of. lia.
  - lia.
  - f_equal. lia.
  - exists evs. split; [|now split]. rewrite Hrun. f_equal. f_equal. f_equal. lia.
Qed.

(** ** How long the URL and title loops run *)

Section PollingDuration.

Variable mk : Z -> string -> event.
Variable read : Browser -> Z -> result string.
Variable test : string -> bool.
Variable b : Browser.
Variable L : Z.

Hypothesis read_ok : forall t, exists v, read b t = Ret v.
Hypothesis commands_within : latency_within b L.


End PollingDuration.



(** ** Page load *)

(** X8.  Over a live session on which the readiness script can run,
    [wait_for_page_load] always returns normally: either the document was
    complete at its last poll and nothing is printed, or the timeout has
    elapsed and the only trace of it is the "page load timeout" line. *)
Theorem wait_for_page_load_continues
  (b : Browser) (s : State) (timeout : option Z) :
  _driver s = Some b ->
  (forall t, exists st, ready_state b t = Ret st) ->
  exists evs t,
    DriverManager.wait_for_page_load timeout s
    = Some (Ret tt, moved s (after b t) (evs ++ [Wait (clock s) (or_default timeout 15)]))
    /\ clock s <= t
    /\ ((evs = [] /\ ready_state b t = Ret "complete"%string)
        \/ (evs = [Printed PageLoadTimeout]
            /\ ready_state b t <> Ret "complete"%string
            /\ clock s + 1000 * or_default timeout 15 < after b t)).
Proof.
  intros Hb Hready. unfold DriverManager.wait_for_page_load, try_except, bind at 1.
  rewrite (until_ext _ _ _ _ document_ready_is_command).
  destruct (until_live
              (fun b t =>
                 answer_map (fun st => if String.eqb st "complete" then Some true else None)
                            (ready_state b t))
              b (or_default timeout (config.TIMEOUTS config.medium)) s Hb)
    as (r & t & Hrun & Ht & Hout).
  change (or_default timeout (config.TIMEOUTS config.medium))
    with (or_default timeout 15) in *.
  rewrite Hrun. destruct (Hready t) as [st Hst].
  destruct r as [v|x]; simpl in Hout; rewrite Hst in Hout; simpl in Hout.
  - exists [], t. split; [reflexivity|]. split; [lia|]. left.
    split; [reflexivity|]. rewrite Hst. f_equal.
    destruct (String.eqb_spec st "complete"); [assumption | discriminate].
  - destruct Hout as [(-> & Hlate & Habs) | (Hask & _)]; [|discriminate].
    exists [Printed PageLoadTimeout], t. split; [reflexivity|]. split; [lia|]. right.
    split; [reflexivity|]. split; [|exact Hlate].
    rewrite Hst. intros H. injection H as ->. simpl in Habs.
    destruct Habs; discriminate.
Qed.

(** The login page is complete from the start. *)
Lemma wait_for_page_load_continues_witness :
  exists s',
    DriverManager.wait_for_page_load None (initialized login_page) = Some (Ret tt, s').
Proof.
  destruct (wait_for_page_load_continues login_page (initialized login_page) None eq_refl)
    as (evs & t & Hrun & _).
  - intros t. eexists. reflexivity.
  - eexists. exact Hrun.
Defined.

(** ** Page objects and teardown *)

(** X9.  Page objects cannot be built on a session that was shut down:
    after a [quit_driver] whose [driver.quit()] succeeded, [BasePage()]
    raises the "WebDriver not initialized" [RuntimeError]; before it, on a
    session with both handles, it stores these very handles. *)
Theorem page_object_needs_a_session (s : State) (b : Browser) (w : WebDriverWait) :
  _driver s = Some b ->
  _wait s = Some w ->
  BasePage.__init__ s
  = Some (Ret {| BasePage.driver := b; BasePage.wait := w |}, s)
  /\ (quit b (clock s) = Ret tt ->
      exists s1,
        DriverManager.quit_driver s = Some (Ret tt, s1)
        /\ BasePage.__init__ s1
           = Some (Raise (RuntimeError
                            "WebDriver not initialized. Call initialize_driver() first."),
                   s1)).
Proof.
  intros Hb Hw. split.
  - unfold BasePage.__init__, bind, DriverManager.get_driver, DriverManager.get_wait,
      ret, raise.
    rewrite Hb. cbv beta iota. now rewrite Hw.
  - intros Hq. destruct (quit_driver_runs s) as (s1 & Hrun & _ & Hok & _).
    destruct (Hok b Hb Hq) as (Hd & _). exists s1. split; [exact Hrun|].
    unfold BasePage.__init__, bind, DriverManager.get_driver. now rewrite Hd.
Qed.

(** The initialized login page. *)
Lemma page_object_needs_a_session_witness :
  exists s1,
    DriverManager.quit_driver (initialized login_page) = Some (Ret tt, s1)
    /\ BasePage.__init__ s1
       = Some (Raise (RuntimeError
                        "WebDriver not initialized. Call initialize_driver() first."),
               s1).
Proof.
  exact (proj2 (page_object_needs_a_session (initialized login_page) login_page
                  {| _timeout := 15 |} eq_refl eq_refl) eq_refl).
Defined.

(** ** Typing composes *)


(** What the [try] block of [type_text_safe] does to the values of the
    form controls. *)
Lemma typing_block_values (b : Browser) (e : WebElement) (keys : string)
  (clear_first : bool) (s s' : State) (ok : bool) :
  _driver s = Some b ->
  try_except
    (bind (if clear_first then element_clear e else ret tt)
          (fun _ => bind (element_send_keys e keys) (fun _ => ret true)))
    (except_Exception
       (fun ex => bind (print (TextInputFailed ex)) (fun _ => ret false))) s
  = Some (Ret ok, s') ->
  _driver s' = Some b
  /\ (forall e', e' <> e -> values s' e' = values s e')
  /\ (ok = true ->
      values s' e = ((if clear_first then EmptyString else values s e) ++ keys)%string)
  /\ (ok = false ->
      values s' e = values s e \/ (clear_first = true /\ values s' e = EmptyString)).
Proof.
  intros Hb. destruct s as [c d w v tr]. simpl in Hb. subst d.
  unfold try_except, bind, element_clear, element_send_keys, bind, command,
    get_value, set_value, except_Exception, print, emit, ret.
  assert (Hother : forall e' x, e' <> e -> (if Nat.eqb e' e then x else v e') = v e').
  { intros e' x Hne. destruct (Nat.eqb_spec e' e); [contradiction | reflexivity]. }
  destruct clear_first; simpl.
  - destruct (clear b c e) as [[]|x]; simpl.
    + destruct (send_keys b _ e keys) as [[]|x]; simpl; intros H; injection H as <- <-;
        simpl; rewrite ?Nat.eqb_refl.
      * split; [reflexivity|]. split; [|split; [reflexivity | discriminate]].
        intros e' Hne. destruct (Nat.eqb_spec e' e); [contradiction | reflexivity].
      * split; [reflexivity|]. split; [|split; [discriminate | intros _; right; now split]].
        intros e' Hne. now apply Hother.
    + intros H; injection H as <- <-. simpl.
      split; [reflexivity|]. split; [reflexivity|]. split; [discriminate | now left].
  - destruct (send_keys b c e keys) as [[]|x]; simpl; intros H; injection H as <- <-;
      simpl; rewrite ?Nat.eqb_refl.
    + split; [reflexivity|]. split; [|split; [reflexivity | discriminate]].
      intros e' Hne. now apply Hother.
    + split; [reflexivity|]. split; [reflexivity|]. split; [discriminate | now left].
Qed.




(** ** [is_element_displayed] and the [any(...)] idiom *)

(** One call of [is_element_displayed] over a live session. *)
Lemma is_element_displayed_live (b : Browser) (l : locator) (s : State) :
  _driver s = Some b ->
  soft_lookup b l ->
  exists r t evs,
    DriverManager.is_element_displayed l s
    = Some (Ret r, moved s t (evs ++ [Wait (clock s) 2]))
    /\ clock s <= t
    /\ (forall L, latency_within b L -> t <= clock s + 2500 + 2 * L)
    /\ waits_of evs = [] /\ sleeps_of evs = O
    /\ (r = true ->
        exists t1 e, clock s <= t1 /\ find_element b t1 l = Ret e
                     /\ is_displayed b (after b t1) e = Ret true)
    /\ (r = false ->
        (clock s + 2000 < t /\ evs = [Printed (ElementNotFound l)])
        \/ exists t1 e, clock s <= t1 /\ find_element b t1 l = Ret e
                        /\ is_displayed b (after b t1) e <> Ret true).
Proof.
  intros Hb Hsoft. unfold DriverManager.is_element_displayed, bind.
  destruct (find_element_safe_live l (Some 2) s b Hb)
    as (r & t & evs & Hrun & Ht & Hout).
  change (or_default (Some 2) 15) with 2 in *. rewrite Hrun.
  destruct r as [[e|]|x]; simpl in Hout.
  - destruct Hout as [Hask ->].
    destruct (find_element b t l) as [e'|] eqn:Hf; simpl in Hask; [|discriminate].
    injection Hask as ->.
    unfold try_except, element_is_displayed.
    rewrite (command_live _ (moved s (t + Z.of_N (latency b t)) ([] ++ [Wait (clock s) 2])) b Hb).
    cbn [clock moved].
    assert (Hbound : forall L, latency_within b L ->
              after b t + Z.of_N (latency b (after b t)) <= clock s + 2500 + 2 * L).
    { intros L HL. pose proof (HL t). pose proof (HL (after b t)). unfold after in *. lia. }
    fold (after b t).
    assert (Hpos : clock s <= after b t + Z.of_N (latency b (after b t))).
    { unfold after. lia. }
    destruct (is_displayed b (after b t) e) as [[|]|x] eqn:Hd; cbn.
    + exists true, (after b t + Z.of_N (latency b (after b t))), [].
      split; [reflexivity|]. split; [exact Hpos|]. split; [exact Hbound|].
      split; [reflexivity|]. split; [reflexivity|]. split; [|discriminate].
      intros _. exists t, e. split; [lia|]. now split.
    + exists false, (after b t + Z.of_N (latency b (after b t))), [].
      split; [reflexivity|]. split; [exact Hpos|]. split; [exact Hbound|].
      split; [reflexivity|]. split; [reflexivity|]. split; [discriminate|].
      intros _. right. exists t, e. split; [lia|]. split; [exact Hf|].
      rewrite Hd. discriminate.
    + exists false, (after b t + Z.of_N (latency b (after b t))), [].
      split; [reflexivity|]. split; [exact Hpos|]. split; [exact Hbound|].
      split; [reflexivity|]. split; [reflexivity|]. split; [discriminate|].
      intros _. right. exists t, e. split; [lia|]. split; [exact Hf|].
      rewrite Hd. discriminate.
  - destruct Hout as [-> Hwhy].
    exists false, (t + Z.of_N (latency b t)), [Printed (ElementNotFound l)].
    split; [reflexivity|]. split; [lia|]. split.
    { intros L HL. pose proof (HL t). lia. }
    split; [reflexivity|]. split; [reflexivity|]. split; [discriminate|].
    intros _. left. split; [|reflexivity].
    destruct Hwhy as [[Hlate _]|Habs]; [lia|].
    destruct (find_element b t l) as [e'|x] eqn:Hf; simpl in Habs; [discriminate|].
    injection Habs as ->. now specialize (Hsoft t _ Hf).
  - destruct Hout as (Hask & Hx & _).
    destruct (find_element b t l) as [e'|x'] eqn:Hf; simpl in Hask; [discriminate|].
    injection Hask as ->. now specialize (Hsoft t _ Hf).
Qed.

(** X11.  Over a live session, for a locator whose lookups fail only by
    not finding the element, [is_element_displayed] never raises and
    answers within its fixed timeout of 2 s, one poll interval and two
    commands; [True] means that the element was found during the call and
    was visible when asked right after the lookup; an element whose
    visibility cannot be read, or is never [True], gives [False]. *)
Theorem is_element_displayed_answers
  (b : Browser) (s : State) (l : locator) (L : Z) :
  _driver s = Some b ->
  soft_lookup b l ->
  latency_within b L ->
  exists r s' evs,
    DriverManager.is_element_displayed l s = Some (Ret r, s')
    /\ trace s' = evs ++ trace s
    /\ waits_of evs = [2]
    /\ clock s <= clock s' <= clock s + 2500 + 2 * L
    /\ (r = true ->
        exists t e, clock s <= t /\ find_element b t l = Ret e
                    /\ is_displayed b (after b t) e = Ret true)
    /\ ((forall t e, find_element b t l = Ret e ->
                     is_displayed b (after b t) e <> Ret true) -> r = false).
Proof.
  intros Hb Hsoft HL.
  destruct (is_element_displayed_live b l s Hb Hsoft)
    as (r & t & evs & Hrun & Ht & Hbound & Hw & _ & Htrue & _).
  exists r, (moved s t (evs ++ [Wait (clock s) 2])), (evs ++ [Wait (clock s) 2]).
  split; [exact Hrun|]. cbn [clock trace moved]. split; [reflexivity|].
  split; [rewrite waits_of_app, Hw; reflexivity|].
  split; [split; [exact Ht | exact (Hbound L HL)]|].
  split; [exact Htrue|]. intros Hnever. destruct r; [|reflexivity].
  destruct (Htrue eq_refl) as (t1 & e & _ & Hf & Hd). now destruct (Hnever t1 e Hf).
Qed.

Lemma is_element_displayed_answers_witness :
  exists r s' evs,
    DriverManager.is_element_displayed (DriverManager.by_css "#real-id") (initialized login_page)
    = Some (Ret r, s')
    /\ trace s' = evs ++ trace (initialized login_page)
    /\ waits_of evs = [2]
    /\ clock (initialized login_page) <= clock s' <= clock (initialized login_page) + 2500 + 2 * 20
    /\ (r = true ->
        exists t e, clock (initialized login_page) <= t
                    /\ find_element login_page t (DriverManager.by_css "#real-id") = Ret e
                    /\ is_displayed login_page (after login_page t) e = Ret true)
    /\ ((forall t e, find_element login_page t (DriverManager.by_css "#real-id") = Ret e ->
                     is_displayed login_page (after login_page t) e <> Ret true) -> r = false).
Proof.
  apply (is_element_displayed_answers login_page (initialized login_page)
           (DriverManager.by_css "#real-id") 20).
  - reflexivity.
  - intros t x. simpl. discriminate.
  - intros t. simpl. lia.
Defined.

(** The [any(...)] over a list of selectors. *)
Lemma any_displayed_live (b : Browser) (selectors : list string) :
  soft_lookups b ->
  forall s,
    _driver s = Some b ->
    exists r t evs n,
      any_displayed selectors s = Some (Ret r, moved s t evs)
      /\ clock s <= t
      /\ (forall L, latency_within b L -> t <= clock s + Z.of_nat n * (2500 + 2 * L))
      /\ waits_of evs = repeat 2 n /\ sleeps_of evs = O
      /\ (n <= List.length selectors)%nat
      /\ (r = false -> n = List.length selectors)
      /\ (r = true ->
          exists selector t1 e,
            In selector selectors /\ clock s <= t1
            /\ find_element b t1 (DriverManager.by_css selector) = Ret e
            /\ is_displayed b (after b t1) e = Ret true)
      /\ ((forall selector, In selector selectors -> absent b selector) ->
          clock s + 2000 * Z.of_nat (List.length selectors) <= t).
Proof.
  intros Hsoft. induction selectors as [|selector rest IH]; intros s Hb.
  - exists false, (clock s), [], O. cbn [any_displayed]. unfold ret.
    rewrite <- (moved_id s) at 1. split; [now rewrite moved_id|].
    split; [lia|]. split; [intros; simpl; lia|]. split; [reflexivity|].
    split; [reflexivity|]. split; [simpl; lia|]. split; [reflexivity|].
    split; [discriminate|]. intros _. simpl. lia.
  - cbn [any_displayed]. unfold bind at 1. unfold BasePage.is_element_displayed.
    destruct (is_element_displayed_live b (DriverManager.by_css selector) s Hb)
      as (r1 & t1 & evs1 & Hrun1 & Ht1 & Hb1 & Hw1 & Hs1 & Htrue1 & Hfalse1).
    { intros t x. apply (proj1 Hsoft). }
    rewrite Hrun1. destruct r1.
    + exists true, t1, (evs1 ++ [Wait (clock s) 2]), 1%nat.
      split; [reflexivity|]. split; [exact Ht1|].
      split; [intros L HL; specialize (Hb1 L HL); lia|].
      split; [rewrite waits_of_app, Hw1; reflexivity|].
      split; [rewrite sleeps_of_app, Hs1; reflexivity|].
      split; [simpl; lia|]. split; [discriminate|]. split.
      * intros _. destruct (Htrue1 eq_refl) as (t' & e & Ht' & Hf & Hd).
        exists selector, t', e. split; [now left|]. now split.
      * intros Habs. destruct (Htrue1 eq_refl) as (t' & e & _ & Hf & _).
        rewrite (Habs selector (or_introl eq_refl) t') in Hf. discriminate.
    + destruct (IH (moved s t1 (evs1 ++ [Wait (clock s) 2])) Hb)
        as (r & t & evs & n & Hrun & Ht & Hbn & Hw & Hs & Hn & Hfalse & Htrue & Hlow).
      rewrite Hrun, moved_moved. cbn [clock moved] in *.
      exists r, t, (evs ++ evs1 ++ [Wait (clock s) 2]), (S n).
      split; [reflexivity|]. split; [lia|]. split.
      { intros L HL. specialize (Hb1 L HL). specialize (Hbn L HL).
        rewrite Nat2Z.inj_succ. lia. }
      split.
      { rewrite !waits_of_app, Hw, Hw1. simpl. now rewrite <- repeat_cons. }
      split; [rewrite !sleeps_of_app, Hs, Hs1; reflexivity|].
      split; [simpl; lia|]. split.
      { intros Hr. simpl. now rewrite (Hfalse Hr). }
      split.
      { intros Hr. destruct (Htrue Hr) as (sel & t' & e & Hin & Ht' & Hf & Hd).
        exists sel, t', e. split; [now right|]. split; [lia|]. now split. }
      intros Habs. specialize (Hlow (fun x Hx => Habs x (or_intror Hx))).
      destruct (Hfalse1 eq_refl) as [[Hlate _]|(t' & e & _ & Hf & _)].
      * cbn [List.length]. rewrite Nat2Z.inj_succ. lia.
      * rewrite (Habs selector (or_introl eq_refl) t') in Hf. discriminate.
Qed.

(** The [any(...)] stops at the first selector that is found at once and
    is visible. *)
Lemma any_displayed_hit (b : Browser) (selector : string) (post : list string)
  (e : WebElement) :
  soft_lookups b ->
  static_page b ->
  forall pre s,
    _driver s = Some b ->
    (forall p, In p pre -> never_matches b p) ->
    resolves_at b (clock s) selector e ->
    exists t evs,
      any_displayed (pre ++ selector :: post) s = Some (Ret true, moved s t evs)
      /\ waits_of evs = repeat 2 (S (List.length pre)).
Proof.
  intros Hsoft Hstatic. induction pre as [|p pre IH]; intros s Hb Hn [Hf Hd].
  - cbn [app any_displayed]. unfold bind at 1.
    unfold BasePage.is_element_displayed, DriverManager.is_element_displayed, bind.
    rewrite (find_element_safe_at_once _ (Some 2) s b e Hb Hf).
    unfold try_except, element_is_displayed.
    rewrite (command_live _ (moved s (clock s + Z.of_N (latency b (clock s)))
                               [Wait (clock s) (or_default (Some 2) 15)]) b Hb).
    cbn [clock moved]. destruct Hstatic as [_ Hshown].
    rewrite (Hshown _ (clock s)), Hd. cbn. eexists. eexists.
    split; [reflexivity|]. reflexivity.
  - cbn [app any_displayed]. unfold bind at 1. unfold BasePage.is_element_displayed.
    destruct (is_element_displayed_live b (DriverManager.by_css p) s Hb)
      as (r1 & t1 & evs1 & Hrun1 & Ht1 & Hb1 & Hw1 & Hs1 & Htrue1 & Hfalse1).
    { intros t x. apply (proj1 Hsoft). }
    rewrite Hrun1. destruct r1.
    { destruct (Htrue1 eq_refl) as (t' & e' & _ & Hf' & Hd').
      now destruct (Hn p (or_introl eq_refl) t' e' Hf' (after b t')). }
    destruct (IH (moved s t1 (evs1 ++ [Wait (clock s) 2])) Hb
                 (fun x Hx => Hn x (or_intror Hx)))
      as (t2 & evs2 & Hrun2 & Hw2).
    { destruct Hstatic as [Hfind Hshown]. split.
      - now rewrite (Hfind _ (clock s)).
      - now rewrite (Hshown _ (clock s)). }
    rewrite Hrun2, moved_moved.
    exists t2, (evs2 ++ evs1 ++ [Wait (clock s) 2]). split; [reflexivity|].
    rewrite !waits_of_app, Hw1, Hw2. cbn [List.length]. simpl.
    now rewrite <- repeat_cons.
Qed.

Lemma rejected_login_soft : soft_lookups rejected_login.
Proof.
  split; intros t [by_ sel] x; simpl; destruct by_; try (intros H; now inversion H);
    repeat (match goal with |- context [if ?c then _ else _] => destruct c end);
    intros H; now inversion H.
Qed.

Lemma rejected_login_static : static_page rejected_login.
Proof. split; intros; reflexivity. Qed.

(** X12.  Over a live session with soft lookups,
    [LoginPage.is_login_form_displayed] does not raise; [True] means that
    an e-mail selector, a password selector and a button selector were
    each found with a visible element during the call; and the three groups
    are checked one after the other whatever the earlier ones gave: on a
    page with none of the twelve selectors the answer [False] comes after
    twelve lookups of 2 s each, so no sooner than 24 s. *)
Theorem is_login_form_displayed_checks_three_groups (b : Browser) (s : State) :
  _driver s = Some b ->
  soft_lookups b ->
  exists r s' evs,
    LoginPage.is_login_form_displayed s = Some (Ret r, s')
    /\ trace s' = evs ++ trace s
    /\ (r = true ->
        seen_during b s LoginPage.email_input_selectors
        /\ seen_during b s LoginPage.password_input_selectors
        /\ seen_during b s LoginPage.login_button_selectors)
    /\ ((forall selector,
            In selector (LoginPage.email_input_selectors
                         ++ LoginPage.password_input_selectors
                         ++ LoginPage.login_button_selectors) ->
            absent b selector) ->
        r = false /\ waits_of evs = repeat 2 12 /\ clock s + 24000 <= clock s').
Proof.
  intros Hb Hsoft. unfold LoginPage.is_login_form_displayed.
  unfold bind at 1.
  destruct (any_displayed_live b LoginPage.email_input_selectors Hsoft s Hb)
    as (r1 & t1 & evs1 & n1 & Hrun1 & Ht1 & _ & Hw1 & _ & _ & Hf1 & Htrue1 & Hlow1).
  rewrite Hrun1. unfold bind at 1.
  destruct (any_displayed_live b LoginPage.password_input_selectors Hsoft (moved s t1 evs1) Hb)
    as (r2 & t2 & evs2 & n2 & Hrun2 & Ht2 & _ & Hw2 & _ & _ & Hf2 & Htrue2 & Hlow2).
  rewrite Hrun2, moved_moved. unfold bind at 1.
  destruct (any_displayed_live b LoginPage.login_button_selectors Hsoft
              (moved s t2 (evs2 ++ evs1)) Hb)
    as (r3 & t3 & evs3 & n3 & Hrun3 & Ht3 & _ & Hw3 & _ & _ & Hf3 & Htrue3 & Hlow3).
  rewrite Hrun3, moved_moved. cbn [clock moved] in *.
  exists (r1 && r2 && r3), (moved s t3 (evs3 ++ evs2 ++ evs1)), (evs3 ++ evs2 ++ evs1).
  split; [reflexivity|]. split; [reflexivity|]. split.
  - intros Hr. apply andb_prop in Hr. destruct Hr as [Hr ->].
    apply andb_prop in Hr. destruct Hr as [-> ->].
    split; [exact (Htrue1 eq_refl)|]. split.
    + destruct (Htrue2 eq_refl) as (sel & t & e & Hin & Ht & Hfd).
      exists sel, t, e. split; [exact Hin|]. split; [lia | exact Hfd].
    + destruct (Htrue3 eq_refl) as (sel & t & e & Hin & Ht & Hfd).
      exists sel, t, e. split; [exact Hin|]. split; [lia | exact Hfd].
  - intros Habs.
    assert (Ha1 : forall x, In x LoginPage.email_input_selectors -> absent b x).
    { intros x Hx. apply Habs. apply in_or_app. now left. }
    assert (Ha2 : forall x, In x LoginPage.password_input_selectors -> absent b x).
    { intros x Hx. apply Habs. apply in_or_app. right. apply in_or_app. now left. }
    assert (Ha3 : forall x, In x LoginPage.login_button_selectors -> absent b x).
    { intros x Hx. apply Habs. apply in_or_app. right. apply in_or_app. now right. }
    assert (H1 : r1 = false).
    { destruct r1; [|reflexivity]. destruct (Htrue1 eq_refl) as (x & t & e & Hin & _ & Hfd & _).
      rewrite (Ha1 x Hin t) in Hfd. discriminate. }
    assert (H2 : r2 = false).
    { destruct r2; [|reflexivity]. destruct (Htrue2 eq_refl) as (x & t & e & Hin & _ & Hfd & _).
      rewrite (Ha2 x Hin t) in Hfd. discriminate. }
    assert (H3 : r3 = false).
    { destruct r3; [|reflexivity]. destruct (Htrue3 eq_refl) as (x & t & e & Hin & _ & Hfd & _).
      rewrite (Ha3 x Hin t) in Hfd. discriminate. }
    subst r1 r2 r3. split; [reflexivity|]. split.
    + rewrite !waits_of_app, Hw1, Hw2, Hw3, (Hf1 eq_refl), (Hf2 eq_refl), (Hf3 eq_refl).
      reflexivity.
    + specialize (Hlow1 Ha1). specialize (Hlow2 Ha2). specialize (Hlow3 Ha3).
      change (Z.of_nat (List.length LoginPage.email_input_selectors)) with 4 in Hlow1.
      change (Z.of_nat (List.length LoginPage.password_input_selectors)) with 4 in Hlow2.
      change (Z.of_nat (List.length LoginPage.login_button_selectors)) with 4 in Hlow3.
      cbn [clock moved]. lia.
Qed.

Lemma is_login_form_displayed_checks_three_groups_witness :
  exists r s' evs,
    LoginPage.is_login_form_displayed (initialized rejected_login) = Some (Ret r, s')
    /\ trace s' = evs ++ trace (initialized rejected_login)
    /\ (r = true ->
        seen_during rejected_login (initialized rejected_login) LoginPage.email_input_selectors
        /\ seen_during rejected_login (initialized rejected_login)
             LoginPage.password_input_selectors
        /\ seen_during rejected_login (initialized rejected_login)
             LoginPage.login_button_selectors)
    /\ ((forall selector,
            In selector (LoginPage.email_input_selectors
                         ++ LoginPage.password_input_selectors
                         ++ LoginPage.login_button_selectors) ->
            absent rejected_login selector) ->
        r = false /\ waits_of evs = repeat 2 12
        /\ clock (initialized rejected_login) + 24000 <= clock s').
Proof.
  exact (is_login_form_displayed_checks_three_groups rejected_login
           (initialized rejected_login) eq_refl rejected_login_soft).
Defined.

(** X13.  Over a live session with soft lookups, with [L] a bound on the
    time a command takes, [LoginPage.is_error_message_displayed] and
    [LoginPage.is_success_message_displayed] do not raise; [True] means
    that one of their selectors was found with a visible element during
    the call; the call takes at most 2.5 s and two commands per selector;
    and where none of the selectors is present the answer is [False], after
    2 s per selector at least. *)
Theorem message_checks_are_sound (b : Browser) (s : State) (L : Z) :
  _driver s = Some b ->
  soft_lookups b ->
  latency_within b L ->
  (exists r s',
      LoginPage.is_error_message_displayed s = Some (Ret r, s')
      /\ clock s' <= clock s + 5 * (2500 + 2 * L)
      /\ (r = true -> seen_during b s LoginPage.error_message_selectors)
      /\ ((forall selector, In selector LoginPage.error_message_selectors ->
                            absent b selector) ->
          r = false /\ clock s + 10000 <= clock s'))
  /\ (exists r s',
         LoginPage.is_success_message_displayed s = Some (Ret r, s')
         /\ clock s' <= clock s + 4 * (2500 + 2 * L)
         /\ (r = true -> seen_during b s LoginPage.success_message_selectors)
         /\ ((forall selector, In selector LoginPage.success_message_selectors ->
                               absent b selector) ->
             r = false /\ clock s + 8000 <= clock s')).
Proof.
  intros Hb Hsoft HL.
  assert (H0 : 0 <= 2500 + 2 * L) by (pose proof (HL 0); lia).
  split.
  - destruct (any_displayed_live b LoginPage.error_message_selectors Hsoft s Hb)
      as (r & t & evs & n & Hrun & Ht & Hbound & _ & _ & Hn & _ & Htrue & Hlow).
    exists r, (moved s t evs). split; [exact Hrun|]. cbn [clock moved]. split.
    { specialize (Hbound L HL). change (List.length LoginPage.error_message_selectors)
        with 5%nat in Hn. nia. }
    split; [exact Htrue|]. intros Habs. split.
    + destruct r; [|reflexivity].
      destruct (Htrue eq_refl) as (x & t' & e & Hin & _ & Hfd & _).
      rewrite (Habs x Hin t') in Hfd. discriminate.
    + exact (Hlow Habs).
  - destruct (any_displayed_live b LoginPage.success_message_selectors Hsoft s Hb)
      as (r & t & evs & n & Hrun & Ht & Hbound & _ & _ & Hn & _ & Htrue & Hlow).
    exists r, (moved s t evs). split; [exact Hrun|]. cbn [clock moved]. split.
    { specialize (Hbound L HL). change (List.length LoginPage.success_message_selectors)
        with 4%nat in Hn. nia. }
    split; [exact Htrue|]. intros Habs. split.
    + destruct r; [|reflexivity].
      destruct (Htrue eq_refl) as (x & t' & e & Hin & _ & Hfd & _).
      rewrite (Habs x Hin t') in Hfd. discriminate.
    + exact (Hlow Habs).
Qed.

Lemma message_checks_are_sound_witness :
  (exists r s',
      LoginPage.is_error_message_displayed (initialized rejected_login) = Some (Ret r, s')
      /\ clock s' <= clock (initialized rejected_login) + 5 * (2500 + 2 * 20)
      /\ (r = true ->
          seen_during rejected_login (initialized rejected_login)
            LoginPage.error_message_selectors)
      /\ ((forall selector, In selector LoginPage.error_message_selectors ->
                            absent rejected_login selector) ->
          r = false /\ clock (initialized rejected_login) + 10000 <= clock s'))
  /\ (exists r s',
         LoginPage.is_success_message_displayed (initialized rejected_login)
         = Some (Ret r, s')
         /\ clock s' <= clock (initialized rejected_login) + 4 * (2500 + 2 * 20)
         /\ (r = true ->
             seen_during rejected_login (initialized rejected_login)
               LoginPage.success_message_selectors)
         /\ ((forall selector, In selector LoginPage.success_message_selectors ->
                               absent rejected_login selector) ->
             r = false /\ clock (initialized rejected_login) + 8000 <= clock s')).
Proof.
  apply (message_checks_are_sound rejected_login (initialized rejected_login) 20).
  - reflexivity.
  - exact rejected_login_soft.
  - intros t. simpl. lia.
Defined.

(** X14.  The [any(...)] over selectors stops at the first hit: on a page
    that does not change, with soft lookups, when the selectors before
    [selector] never match a visible element and [selector] resolves to a
    visible one, the answer is [True] after one lookup per selector up to
    and including it; the selectors after it are not looked up. *)
Theorem any_displayed_stops_at_first_hit
  (b : Browser) (s : State) (pre : list string) (selector : string)
  (post : list string) (e : WebElement) :
  _driver s = Some b ->
  soft_lookups b ->
  static_page b ->
  (forall p, In p pre -> never_matches b p) ->
  resolves_at b (clock s) selector e ->
  exists s' evs,
    any_displayed (pre ++ selector :: post) s = Some (Ret true, s')
    /\ trace s' = evs ++ trace s
    /\ waits_of evs = repeat 2 (S (List.length pre)).
Proof.
  intros Hb Hsoft Hstatic Hn Hres.
  destruct (any_displayed_hit b selector post e Hsoft Hstatic pre s Hb Hn Hres)
    as (t & evs & Hrun & Hw).
  exists (moved s t evs), evs. split; [exact Hrun|]. now split.
Qed.

(** After a rejected login the error check stops at [.text-red-500], the
    second of its five selectors. *)
Lemma any_displayed_stops_at_first_hit_witness :
  exists s' evs,
    LoginPage.is_error_message_displayed (initialized rejected_login)
    = Some (Ret true, s')
    /\ trace s' = evs ++ trace (initialized rejected_login)
    /\ waits_of evs = [2; 2].
Proof.
  apply (any_displayed_stops_at_first_hit rejected_login (initialized rejected_login)
           [".text-red-400"%string] ".text-red-500"
           (skipn 2 LoginPage.error_message_selectors) 4%nat).
  - reflexivity.
  - exact rejected_login_soft.
  - exact rejected_login_static.
  - intros p [<-|[]] t e H. simpl in H. discriminate.
  - split; reflexivity.
Defined.

(** ** Reading the messages of the login page *)

(** One call of [get_text_safe] over a live session. *)
Lemma get_text_safe_live (b : Browser) (l : locator) (s : State) :
  _driver s = Some b ->
  soft_lookup b l ->
  exists txt t evs,
    DriverManager.get_text_safe l s
    = Some (Ret txt, moved s t (evs ++ [Wait (clock s) 15]))
    /\ clock s <= t
    /\ waits_of evs = [] /\ sleeps_of evs = O
    /\ (txt <> EmptyString ->
        exists t1 e, clock s <= t1 /\ find_element b t1 l = Ret e
                     /\ text b (after b t1) e = Ret txt)
    /\ ((forall t', find_element b t' l = Raise NoSuchElementException) ->
        txt = EmptyString /\ clock s + 15000 < t).
Proof.
  intros Hb Hsoft. unfold DriverManager.get_text_safe, bind at 1.
  destruct (find_element_safe_live l None s b Hb) as (r & t & evs & Hrun & Ht & Hout).
  change (or_default None 15) with 15 in *. rewrite Hrun.
  destruct r as [[e|]|x]; simpl in Hout.
  - destruct Hout as [Hask ->].
    destruct (find_element b t l) as [e'|] eqn:Hf; simpl in Hask; [|discriminate].
    injection Hask as ->.
    unfold try_except, element_text.
    rewrite (command_live _ (moved s (t + Z.of_N (latency b t)) ([] ++ [Wait (clock s) 15])) b Hb).
    cbn [clock moved]. fold (after b t).
    assert (Hpos : clock s <= after b t + Z.of_N (latency b (after b t))).
    { unfold after. lia. }
    destruct (text b (after b t) e) as [txt|x] eqn:Htxt.
    + exists txt, (after b t + Z.of_N (latency b (after b t))), [].
      split; [reflexivity|]. split; [exact Hpos|]. split; [reflexivity|].
      split; [reflexivity|]. split.
      * intros _. exists t, e. split; [lia|]. now split.
      * intros Habs. rewrite Habs in Hf. discriminate.
    + unfold bind, print, emit, ret. cbn.
      exists EmptyString, (after b t + Z.of_N (latency b (after b t))),
        [Printed (GetTextFailed x)].
      split; [reflexivity|]. split; [exact Hpos|]. split; [reflexivity|].
      split; [reflexivity|]. split.
      * intros H. now destruct H.
      * intros Habs. rewrite Habs in Hf. discriminate.
  - destruct Hout as [-> Hwhy].
    exists EmptyString, (t + Z.of_N (latency b t)), [Printed (ElementNotFound l)].
    split; [reflexivity|]. split; [lia|]. split; [reflexivity|].
    split; [reflexivity|]. split.
    + intros H. now destruct H.
    + intros _. split; [reflexivity|].
      destruct Hwhy as [[Hlate _]|Habs]; [lia|].
      destruct (find_element b t l) as [e'|x] eqn:Hf; simpl in Habs; [discriminate|].
      injection Habs as ->. now specialize (Hsoft t _ Hf).
  - destruct Hout as (Hask & Hx & _).
    destruct (find_element b t l) as [e'|x'] eqn:Hf; simpl in Hask; [discriminate|].
    injection Hask as ->. now specialize (Hsoft t _ Hf).
Qed.

(** The loop that returns the first text that is not empty. *)
Lemma first_text_live (b : Browser) (selectors : list string) :
  soft_lookups b ->
  forall s,
    _driver s = Some b ->
    exists txt t evs,
      first_text selectors s = Some (Ret txt, moved s t evs)
      /\ clock s <= t
      /\ sleeps_of evs = O
      /\ (txt <> EmptyString ->
          exists selector t1 e,
            In selector selectors /\ clock s <= t1
            /\ find_element b t1 (DriverManager.by_css selector) = Ret e
            /\ text b (after b t1) e = Ret txt)
      /\ ((forall selector, In selector selectors -> absent b selector) ->
          txt = EmptyString
          /\ waits_of evs = repeat 15 (List.length selectors)
          /\ clock s + 15000 * Z.of_nat (List.length selectors) <= t).
Proof.
  intros Hsoft. induction selectors as [|selector rest IH]; intros s Hb.
  - exists EmptyString, (clock s), []. cbn [first_text]. unfold ret.
    split; [now rewrite moved_id|]. split; [lia|]. split; [reflexivity|].
    split; [intros H; now destruct H|]. intros _. split; [reflexivity|].
    split; [reflexivity|]. simpl. lia.
  - cbn [first_text]. unfold bind at 1. unfold BasePage.get_text.
    destruct (get_text_safe_live b (DriverManager.by_css selector) s Hb)
      as (txt1 & t1 & evs1 & Hrun1 & Ht1 & Hw1 & Hs1 & Hfound1 & Habs1).
    { intros t x. apply (proj1 Hsoft). }
    rewrite Hrun1. destruct txt1 as [|c txt1].
    + destruct (IH (moved s t1 (evs1 ++ [Wait (clock s) 15])) Hb)
        as (txt & t & evs & Hrun & Ht & Hs & Hfound & Habs).
      rewrite Hrun, moved_moved. cbn [clock moved] in *.
      exists txt, t, (evs ++ evs1 ++ [Wait (clock s) 15]).
      split; [reflexivity|]. split; [lia|].
      split; [rewrite !sleeps_of_app, Hs, Hs1; reflexivity|]. split.
      * intros Hne. destruct (Hfound Hne) as (sel & t' & e & Hin & Ht' & Hfd).
        exists sel, t', e. split; [now right|]. split; [lia | exact Hfd].
      * intros Hall.
        destruct (Habs (fun x Hx => Hall x (or_intror Hx))) as (-> & Hw & Hlow).
        destruct (Habs1 (Hall selector (or_introl eq_refl))) as [_ Hlate].
        split; [reflexivity|]. split.
        -- rewrite !waits_of_app, Hw, Hw1. simpl. now rewrite <- repeat_cons.
        -- cbn [List.length]. rewrite Nat2Z.inj_succ. lia.
    + exists (String c txt1), t1, (evs1 ++ [Wait (clock s) 15]).
      split; [reflexivity|]. split; [exact Ht1|].
      split; [rewrite sleeps_of_app, Hs1; reflexivity|]. split.
      * intros Hne. destruct (Hfound1 Hne) as (t' & e & Ht' & Hfd).
        exists selector, t', e. split; [now left|]. now split.
      * intros Hall. destruct (Habs1 (Hall selector (or_introl eq_refl))) as [H _].
        discriminate.
Qed.

(** X15.  Over a live session with soft lookups,
    [LoginPage.get_error_message] and [LoginPage.get_success_message] do
    not raise; a result that is not empty is the text the browser reported
    for an element that one of their selectors matched during the call;
    and on a page with none of the selectors they return the empty string
    only after a full default wait of 15 s per selector: 75 s for the five
    error selectors, 60 s for the four success selectors. *)
Theorem message_texts_come_from_the_page (b : Browser) (s : State) :
  _driver s = Some b ->
  soft_lookups b ->
  (exists txt s' evs,
      LoginPage.get_error_message s = Some (Ret txt, s')
      /\ trace s' = evs ++ trace s
      /\ (txt <> EmptyString -> read_during b s LoginPage.error_message_selectors txt)
      /\ ((forall selector, In selector LoginPage.error_message_selectors ->
                            absent b selector) ->
          txt = EmptyString /\ waits_of evs = repeat 15 5
          /\ clock s + 75000 <= clock s'))
  /\ (exists txt s' evs,
         LoginPage.get_success_message s = Some (Ret txt, s')
         /\ trace s' = evs ++ trace s
         /\ (txt <> EmptyString -> read_during b s LoginPage.success_message_selectors txt)
         /\ ((forall selector, In selector LoginPage.success_message_selectors ->
                               absent b selector) ->
             txt = EmptyString /\ waits_of evs = repeat 15 4
             /\ clock s + 60000 <= clock s')).
Proof.
  intros Hb Hsoft. split.
  - destruct (first_text_live b LoginPage.error_message_selectors Hsoft s Hb)
      as (txt & t & evs & Hrun & _ & _ & Hfound & Habs).
    exists txt, (moved s t evs), evs. split; [exact Hrun|]. split; [reflexivity|].
    split; [exact Hfound|]. exact Habs.
  - destruct (first_text_live b LoginPage.success_message_selectors Hsoft s Hb)
      as (txt & t & evs & Hrun & _ & _ & Hfound & Habs).
    exists txt, (moved s t evs), evs. split; [exact Hrun|]. split; [reflexivity|].
    split; [exact Hfound|]. exact Habs.
Qed.

Lemma message_texts_come_from_the_page_witness :
  (exists txt s' evs,
      LoginPage.get_error_message (initialized rejected_login) = Some (Ret txt, s')
      /\ trace s' = evs ++ trace (initialized rejected_login)
      /\ (txt <> EmptyString ->
          read_during rejected_login (initialized rejected_login)
            LoginPage.error_message_selectors txt)
      /\ ((forall selector, In selector LoginPage.error_message_selectors ->
                            absent rejected_login selector) ->
          txt = EmptyString /\ waits_of evs = repeat 15 5
          /\ clock (initialized rejected_login) + 75000 <= clock s'))
  /\ (exists txt s' evs,
         LoginPage.get_success_message (initialized rejected_login) = Some (Ret txt, s')
         /\ trace s' = evs ++ trace (initialized rejected_login)
         /\ (txt <> EmptyString ->
             read_during rejected_login (initialized rejected_login)
               LoginPage.success_message_selectors txt)
         /\ ((forall selector, In selector LoginPage.success_message_selectors ->
                               absent rejected_login selector) ->
             txt = EmptyString /\ waits_of evs = repeat 15 4
             /\ clock (initialized rejected_login) + 60000 <= clock s')).
Proof.
  exact (message_texts_come_from_the_page rejected_login (initialized rejected_login)
           eq_refl rejected_login_soft).
Defined.

(** ** The dashboard page object *)

(** X16.  The chart checks of the dashboard cannot answer: on every
    instance [DashboardPage()] builds, in every state,
    [is_performance_chart_displayed] and [is_progress_chart_displayed]
    raise [AttributeError] before the browser is asked anything, because
    [__init__] assigns neither [performance_chart_selectors] nor
    [progress_chart_selectors]. *)
Theorem chart_checks_raise (s s1 s2 : State) (self : DashboardPage.self_) :
  DashboardPage.__init__ s = Some (Ret self, s1) ->
  DashboardPage.is_performance_chart_displayed self s2 = Some (Raise AttributeError, s2)
  /\ DashboardPage.is_progress_chart_displayed self s2 = Some (Raise AttributeError, s2).
Proof.
  unfold DashboardPage.__init__, bind at 1.
  destruct (BasePage.__init__ s) as [[[super|x] s0]|]; [|discriminate|discriminate].
  unfold ret. intros H. injection H as <- _.
  split; reflexivity.
Qed.

Lemma chart_checks_raise_witness :
  exists self,
    DashboardPage.__init__ (initialized login_page)
    = Some (Ret self, initialized login_page)
    /\ DashboardPage.is_performance_chart_displayed self (initialized login_page)
       = Some (Raise AttributeError, initialized login_page)
    /\ DashboardPage.is_progress_chart_displayed self (initialized login_page)
       = Some (Raise AttributeError, initialized login_page).
Proof.
  eexists. split; [reflexivity|].
  apply (chart_checks_raise (initialized login_page) (initialized login_page)).
  reflexivity.
Defined.

(** X17.  [wait_for_logout_success] accepts any page: its second wait asks
    for a URL that contains [/], so over a live session whose URL can be
    read and always has a slash, and a timeout that is absent or not
    negative, the answer is [True] whether or not the browser reached the
    login page; when it never does, the answer comes only after the
    timeout has elapsed once. *)
Theorem wait_for_logout_success_accepts_any_page
  (b : Browser) (s : State) (timeout : option Z) :
  _driver s = Some b ->
  (forall t, exists u, current_url b t = Ret u /\ contains "/" u = true) ->
  not_negative timeout ->
  exists s',
    DashboardPage.wait_for_logout_success timeout s = Some (Ret true, s')
    /\ ((forall t u, current_url b t = Ret u -> contains "/login" u = false) ->
        clock s + 1000 * or_default timeout 15 <= clock s').
Proof.
  intros Hb Hurl Hn.
  pose proof (or_default_positive timeout 15 Hn ltac:(lia)) as Hpos.
  assert (Hread : forall t, exists u, current_url b t = Ret u).
  { intros t. destruct (Hurl t) as (u & Hu & _). now exists u. }
  unfold DashboardPage.wait_for_logout_success.
  change (or_default timeout (config.TIMEOUTS config.medium)) with (or_default timeout 15).
  assert (Hsame : or_default (Some (or_default timeout 15)) 15 = or_default timeout 15).
  { unfold or_default at 1. destruct (or_default timeout 15 =? 0) eqn:E; [|reflexivity].
    apply Z.eqb_eq in E. lia. }
  assert (Hwait : forall needle s0 out,
            bind time_time
              (fun start_time =>
                 bind (BasePage.while_before (BasePage.rounds_of (or_default timeout 15))
                         start_time (or_default timeout 15)
                         (sample Url current_url (contains needle)))
                      (fun r => ret (BasePage.or_False r))) s0 = out ->
            BasePage.wait_for_url_contains needle (Some (or_default timeout 15)) s0 = out).
  { intros needle s0 out H. unfold BasePage.wait_for_url_contains.
    change (config.TIMEOUTS config.medium) with 15. cbv zeta. rewrite Hsame. exact H. }
  destruct (polling_live Url current_url (contains "/login") b Url_inj Url_not_sleep Hread
              (or_default timeout 15) s Hb)
    as (r & t & evs & Hrun & Ht & Hsamples & Hiff & Hfalse & _).
  apply Hwait in Hrun. unfold bind at 1. rewrite Hrun. destruct r.
  - exists (moved s t evs). split; [reflexivity|]. intros Hnever.
    destruct (proj1 Hiff eq_refl) as (t' & u & Hin & Hc).
    destruct (Hsamples t' u Hin) as [Hu _]. rewrite (Hnever t' u Hu) in Hc. discriminate.
  - destruct (Hurl t) as (u & Hu & Hc).
    pose proof (polling_at_once Url current_url (contains "/") b
                  (or_default timeout 15) (moved s t evs) u Hb Hpos Hu Hc) as Hrun2.
    apply Hwait in Hrun2.
    eexists. split; [exact Hrun2|]. intros _. cbn [clock moved].
    specialize (Hfalse eq_refl). lia.
Qed.

Lemma wait_for_logout_success_accepts_any_page_witness :
  exists s',
    DashboardPage.wait_for_logout_success (Some 5) (initialized login_page)
    = Some (Ret true, s')
    /\ ((forall t u, current_url login_page t = Ret u -> contains "/login" u = false) ->
        clock (initialized login_page) + 1000 * or_default (Some 5) 15 <= clock s').
Proof.
  apply (wait_for_logout_success_accepts_any_page login_page (initialized login_page) (Some 5)).
  - reflexivity.
  - intros t. eexists. split; reflexivity.
  - intros t H. injection H as <-. lia.
Defined.

(** A property read over a live session. *)
Lemma observe_live (mk : Z -> string -> event) (read : Browser -> Z -> result string)
  (b : Browser) (s : State) :
  _driver s = Some b ->
  observe mk read s
  = match read b (clock s) with
    | Ret v => Some (Ret v, moved s (after b (clock s)) [mk (clock s) v])
    | Raise x => Some (Raise x, moved s (after b (clock s)) [])
    end.
Proof.
  intros Hb. unfold observe, bind, time_time, command. rewrite Hb.
  destruct (read b (clock s)); reflexivity.
Qed.

(** X18.  [DashboardPage.is_user_logged_in] over a live session with soft
    lookups, on an instance that has its welcome selectors: when the URL
    can be read at call time the method returns a boolean, and [True]
    means both that this URL contains [/dashboard], [/home] or [/welcome]
    and that a welcome selector was found with a visible element during
    the call; when reading the URL raises, so does the method. *)
Theorem is_user_logged_in_needs_url_and_heading
  (b : Browser) (s : State) (self : DashboardPage.self_) (selectors : list string) :
  _driver s = Some b ->
  soft_lookups b ->
  DashboardPage.lookup "welcome_message_selectors" (DashboardPage.attributes self)
  = Some selectors ->
  (forall u, current_url b (clock s) = Ret u ->
     exists r s',
       DashboardPage.is_user_logged_in self s = Some (Ret r, s')
       /\ (r = true ->
           (exists indicator, In indicator DashboardPage.dashboard_indicators
                              /\ contains indicator u = true)
           /\ seen_during b s selectors))
  /\ (forall x, current_url b (clock s) = Raise x ->
        exists s', DashboardPage.is_user_logged_in self s = Some (Raise x, s')).
Proof.
  intros Hb Hsoft Hattr.
  unfold DashboardPage.is_user_logged_in, BasePage.get_current_url,
    DashboardPage.getattr, DriverManager.get_current_url.
  rewrite Hattr. unfold bind at 1. rewrite (observe_live Url current_url b s Hb).
  split.
  - intros u Hu. rewrite Hu. unfold bind at 1, ret at 1.
    destruct (any_displayed_live b selectors Hsoft
                (moved s (after b (clock s)) [Url (clock s) u]) Hb)
      as (r & t & evs & n & Hrun & Ht & _ & _ & _ & _ & _ & Htrue & _).
    unfold bind. rewrite Hrun. unfold ret. eexists. eexists. split; [reflexivity|].
    intros Hr. apply andb_prop in Hr. destruct Hr as [Hurl ->]. split.
    + apply existsb_exists in Hurl. exact Hurl.
    + destruct (Htrue eq_refl) as (sel & t' & e & Hin & Ht' & Hfd).
      exists sel, t', e. split; [exact Hin|]. split; [|exact Hfd].
      cbn [clock moved] in Ht'. unfold after in Ht'. lia.
  - intros x Hx. unfold bind at 1. rewrite (observe_live Url current_url b s Hb), Hx.
    eexists. reflexivity.
Qed.

Lemma is_user_logged_in_needs_url_and_heading_witness :
  (forall u, current_url login_page (clock (initialized login_page)) = Ret u ->
     exists r s',
       DashboardPage.is_user_logged_in
         {| DashboardPage.base :=
              {| BasePage.driver := login_page;
                 BasePage.wait := {| _timeout := config.TIMEOUTS config.medium |} |};
            DashboardPage.attributes := DashboardPage.selector_lists |}
         (initialized login_page) = Some (Ret r, s')
       /\ (r = true ->
           (exists indicator, In indicator DashboardPage.dashboard_indicators
                              /\ contains indicator u = true)
           /\ seen_during login_page (initialized login_page)
                [ "h1.text-responsive-3xl"; "h1.font-primary"; ".game-card h1";
                  "h1:contains(" ++ quoted "Welcome back" ++ ")"; "h1" ]%string))
  /\ (forall x, current_url login_page (clock (initialized login_page)) = Raise x ->
        exists s',
          DashboardPage.is_user_logged_in
            {| DashboardPage.base :=
                 {| BasePage.driver := login_page;
                    BasePage.wait := {| _timeout := config.TIMEOUTS config.medium |} |};
               DashboardPage.attributes := DashboardPage.selector_lists |}
            (initialized login_page) = Some (Raise x, s')).
Proof.
  apply (is_user_logged_in_needs_url_and_heading login_page (initialized login_page)).
  - reflexivity.
  - split; intros t [by_ sel] x; simpl; destruct by_; try (intros H; now inversion H);
      destruct (_ || _); intros H; now inversion H.
  - reflexivity.
Defined.

(** ** Clicking through a list of locators *)

(** One call of [click_element_safe] over a live session. *)
Lemma click_element_safe_live (b : Browser) (l : locator) (timeout : option Z) (s : State) :
  _driver s = Some b ->
  (forall t x, clickable b t l = Raise x -> x = NoSuchElementException) ->
  exists r t evs,
    DriverManager.click_element_safe l timeout s
    = Some (Ret r, moved s t (evs ++ [Wait (clock s) (or_default timeout 15)]))
    /\ clock s <= t
    /\ waits_of evs = [] /\ sleeps_of evs = O
    /\ (r = true ->
        exists t1 e, clock s <= t1 /\ clickable b t1 l = Ret (Some e)
                     /\ click b (after b t1) e = Ret tt)
    /\ ((forall t', clickable b t' l = Raise NoSuchElementException) ->
        r = false /\ clock s + 1000 * or_default timeout 15 < t).
Proof.
  intros Hb Hsoft. unfold DriverManager.click_element_safe, bind at 1.
  destruct (wait_for_element_clickable_live l timeout s b Hb)
    as (r & t & evs & Hrun & Ht & Hout).
  rewrite Hrun. destruct r as [[e|]|x]; unfold safe_wait_outcome in Hout.
  - destruct Hout as [Hask ->].
    unfold try_except, bind, element_click.
    rewrite (command_live _ (moved s (t + Z.of_N (latency b t))
                               ([] ++ [Wait (clock s) (or_default timeout 15)])) b Hb).
    cbn [clock moved]. fold (after b t).
    assert (Hpos : clock s <= after b t + Z.of_N (latency b (after b t))).
    { unfold after. lia. }
    destruct (click b (after b t) e) as [[]|x] eqn:Hc.
    + exists true, (after b t + Z.of_N (latency b (after b t))), [].
      split; [reflexivity|]. split; [exact Hpos|]. split; [reflexivity|].
      split; [reflexivity|]. split.
      * intros _. exists t, e. split; [lia|]. now split.
      * intros Habs. rewrite Habs in Hask. discriminate.
    + unfold print, emit, ret. cbn.
      exists false, (after b t + Z.of_N (latency b (after b t))), [Printed (ClickFailed x)].
      split; [reflexivity|]. split; [exact Hpos|]. split; [reflexivity|].
      split; [reflexivity|]. split; [discriminate|].
      intros Habs. rewrite Habs in Hask. discriminate.
  - destruct Hout as [-> Hwhy].
    exists false, (t + Z.of_N (latency b t)), [Printed (ElementNotClickable l)].
    split; [reflexivity|]. split; [lia|]. split; [reflexivity|].
    split; [reflexivity|]. split; [discriminate|].
    intros _. split; [reflexivity|].
    destruct Hwhy as [[Hlate _]|Habs]; [lia|].
    now specialize (Hsoft t _ Habs).
  - destruct Hout as (Hask & Hx & _). now specialize (Hsoft t _ Hask).
Qed.

(** The loop that returns [True] at the first accepted click. *)
Lemma click_any_live (b : Browser) (selectors : list string) :
  soft_lookups b ->
  forall s,
    _driver s = Some b ->
    exists r t evs,
      click_any selectors s = Some (Ret r, moved s t evs)
      /\ clock s <= t
      /\ sleeps_of evs = O
      /\ (r = true ->
          exists selector t1 e,
            In selector selectors /\ clock s <= t1
            /\ clickable b t1 (DriverManager.by_css selector) = Ret (Some e)
            /\ click b (after b t1) e = Ret tt)
      /\ ((forall selector t', In selector selectors ->
             clickable b t' (DriverManager.by_css selector) = Raise NoSuchElementException) ->
          r = false
          /\ waits_of evs = repeat 15 (List.length selectors)
          /\ clock s + 15000 * Z.of_nat (List.length selectors) <= t).
Proof.
  intros Hsoft. induction selectors as [|selector rest IH]; intros s Hb.
  - exists false, (clock s), []. cbn [click_any]. unfold ret.
    split; [now rewrite moved_id|]. split; [lia|]. split; [reflexivity|].
    split; [discriminate|]. intros _. split; [reflexivity|].
    split; [reflexivity|]. simpl. lia.
  - cbn [click_any]. unfold bind at 1. unfold BasePage.click_element.
    destruct (click_element_safe_live b (DriverManager.by_css selector) None s Hb)
      as (r1 & t1 & evs1 & Hrun1 & Ht1 & Hw1 & Hs1 & Htrue1 & Habs1).
    { intros t x. apply (proj2 Hsoft). }
    change (or_default None 15) with 15 in *.
    rewrite Hrun1. destruct r1.
    + exists true, t1, (evs1 ++ [Wait (clock s) 15]).
      split; [reflexivity|]. split; [exact Ht1|].
      split; [rewrite sleeps_of_app, Hs1; reflexivity|]. split.
      * intros _. destruct (Htrue1 eq_refl) as (t' & e & Ht' & Hc).
        exists selector, t', e. split; [now left|]. now split.
      * intros Hall. destruct (Habs1 (fun t' => Hall selector t' (or_introl eq_refl))) as [H _].
        discriminate.
    + destruct (IH (moved s t1 (evs1 ++ [Wait (clock s) 15])) Hb)
        as (r & t & evs & Hrun & Ht & Hs & Htrue & Habs).
      rewrite Hrun, moved_moved. cbn [clock moved] in *.
      exists r, t, (evs ++ evs1 ++ [Wait (clock s) 15]).
      split; [reflexivity|]. split; [lia|].
      split; [rewrite !sleeps_of_app, Hs, Hs1; reflexivity|]. split.
      * intros Hr. destruct (Htrue Hr) as (sel & t' & e & Hin & Ht' & Hc).
        exists sel, t', e. split; [now right|]. split; [lia | exact Hc].
      * intros Hall.
        destruct (Habs (fun x t' Hx => Hall x t' (or_intror Hx))) as (-> & Hw & Hlow).
        destruct (Habs1 (fun t' => Hall selector t' (or_introl eq_refl))) as [_ Hlate].
        split; [reflexivity|]. split.
        -- rewrite !waits_of_app, Hw, Hw1. simpl. now rewrite <- repeat_cons.
        -- cbn [List.length]. rewrite Nat2Z.inj_succ. lia.
Qed.

(** X19.  Over a live session with soft lookups,
    [LoginPage.click_forgot_password_link] does not raise; [True] means
    that the XPath or one of the four CSS selectors was found clickable
    during the call and that the click sent right after was accepted; on a
    page where none of the five locators matches the answer is [False],
    after five default waits of 15 s, so no sooner than 75 s. *)
Theorem click_forgot_password_link_sound (b : Browser) (s : State) :
  _driver s = Some b ->
  soft_lookups b ->
  exists r s' evs,
    LoginPage.click_forgot_password_link s = Some (Ret r, s')
    /\ trace s' = evs ++ trace s
    /\ (r = true ->
        exists l t e,
          In l (DriverManager.by_xpath LoginPage.forgot_xpath
                :: map DriverManager.by_css LoginPage.forgot_selectors)
          /\ clock s <= t
          /\ clickable b t l = Ret (Some e)
          /\ click b (after b t) e = Ret tt)
    /\ ((forall l t,
            In l (DriverManager.by_xpath LoginPage.forgot_xpath
                  :: map DriverManager.by_css LoginPage.forgot_selectors) ->
            clickable b t l = Raise NoSuchElementException) ->
        r = false /\ waits_of evs = repeat 15 5 /\ clock s + 75000 <= clock s').
Proof.
  intros Hb Hsoft. unfold LoginPage.click_forgot_password_link, bind at 1.
  unfold BasePage.click_element.
  destruct (click_element_safe_live b (DriverManager.by_xpath LoginPage.forgot_xpath) None s Hb)
    as (r1 & t1 & evs1 & Hrun1 & Ht1 & Hw1 & Hs1 & Htrue1 & Habs1).
  { intros t x. apply (proj2 Hsoft). }
  change (or_default None 15) with 15 in *.
  rewrite Hrun1. destruct r1.
  - exists true. eexists. exists (evs1 ++ [Wait (clock s) 15]).
    split; [reflexivity|]. split; [reflexivity|]. split.
    + intros _. destruct (Htrue1 eq_refl) as (t' & e & Ht' & Hc).
      exists (DriverManager.by_xpath LoginPage.forgot_xpath), t', e.
      split; [now left|]. now split.
    + intros Hall.
      destruct (Habs1 (fun t' => Hall _ t' (or_introl eq_refl))) as [H _]. discriminate.
  - destruct (click_any_live b LoginPage.forgot_selectors Hsoft
                (moved s t1 (evs1 ++ [Wait (clock s) 15])) Hb)
      as (r & t & evs & Hrun & Ht & Hs & Htrue & Habs).
    rewrite Hrun, moved_moved. cbn [clock moved] in *.
    exists r, (moved s t (evs ++ evs1 ++ [Wait (clock s) 15])),
      (evs ++ evs1 ++ [Wait (clock s) 15]).
    split; [reflexivity|]. split; [reflexivity|]. split.
    + intros Hr. destruct (Htrue Hr) as (sel & t' & e & Hin & Ht' & Hc).
      exists (DriverManager.by_css sel), t', e.
      split; [right; now apply in_map|]. split; [lia | exact Hc].
    + intros Hall.
      destruct (Habs (fun x t' Hx => Hall _ t' (or_intror (in_map _ _ _ Hx))))
        as (-> & Hw & Hlow).
      destruct (Habs1 (fun t' => Hall _ t' (or_introl eq_refl))) as [_ Hlate].
      split; [reflexivity|]. split.
      * rewrite !waits_of_app, Hw, Hw1. reflexivity.
      * change (Z.of_nat (List.length LoginPage.forgot_selectors)) with 4 in Hlow.
        cbn [clock moved]. lia.
Qed.

Lemma click_forgot_password_link_sound_witness :
  exists r s' evs,
    LoginPage.click_forgot_password_link (initialized rejected_login) = Some (Ret r, s')
    /\ trace s' = evs ++ trace (initialized rejected_login)
    /\ (r = true ->
        exists l t e,
          In l (DriverManager.by_xpath LoginPage.forgot_xpath
                :: map DriverManager.by_css LoginPage.forgot_selectors)
          /\ clock (initialized rejected_login) <= t
          /\ clickable rejected_login t l = Ret (Some e)
          /\ click rejected_login (after rejected_login t) e = Ret tt)
    /\ ((forall l t,
            In l (DriverManager.by_xpath LoginPage.forgot_xpath
                  :: map DriverManager.by_css LoginPage.forgot_selectors) ->
            clickable rejected_login t l = Raise NoSuchElementException) ->
        r = false /\ waits_of evs = repeat 15 5
        /\ clock (initialized rejected_login) + 75000 <= clock s').
Proof.
  exact (click_forgot_password_link_sound rejected_login (initialized rejected_login)
           eq_refl rejected_login_soft).
Defined.

(** ** [LoginPage.login] *)

(** A lookup of a locator that matches nothing runs into its timeout. *)
Lemma find_element_safe_absent (b : Browser) (l : locator) (timeout : option Z) (s : State) :
  _driver s = Some b ->
  (forall t, find_element b t l = Raise NoSuchElementException) ->
  exists t,
    DriverManager.find_element_safe l timeout s
    = Some (Ret None,
            moved s t [Printed (ElementNotFound l); Wait (clock s) (or_default timeout 15)])
    /\ clock s <= t.
Proof.
  intros Hb Habs.
  destruct (find_element_safe_live l timeout s b Hb) as (r & t & evs & Hrun & Ht & Hout).
  destruct r as [[e|]|x]; unfold safe_wait_outcome in Hout.
  - destruct Hout as [Hask _]. rewrite Habs in Hask. discriminate.
  - destruct Hout as [-> _]. exists (t + Z.of_N (latency b t)). split; [exact Hrun | lia].
  - destruct Hout as (Hask & Hx & _). rewrite Habs in Hask. simpl in Hask.
    injection Hask as <-. now destruct Hx.
Qed.

(** Typing into a field that is there and accepts keys. *)
Lemma type_text_safe_hit (b : Browser) (l : locator) (e : WebElement) (keys : string)
  (s : State) :
  _driver s = Some b ->
  find_element b (clock s) l = Ret e ->
  accepts_keys b e ->
  exists s' evs,
    DriverManager.type_text_safe l keys true s = Some (Ret true, s')
    /\ _driver s' = Some b
    /\ trace s' = evs ++ trace s
    /\ waits_of evs = [15] /\ sleeps_of evs = O
    /\ values s' e = keys
    /\ (forall e', e' <> e -> values s' e' = values s e').
Proof.
  intros Hb Hf Hacc. unfold DriverManager.type_text_safe, bind at 1.
  rewrite (find_element_safe_at_once l None s b e Hb Hf).
  change (or_default None 15) with 15.
  set (s1 := moved s (clock s + Z.of_N (latency b (clock s))) [Wait (clock s) 15]).
  assert (Hb1 : _driver s1 = Some b) by exact Hb.
  destruct (typing_block b e keys true s1 Hb1) as (ok & s' & evs & Hrun & Htr & Hd & Hok).
  rewrite Hrun.
  destruct (typing_block_values b e keys true s1 s' ok Hb1 Hrun) as (_ & Hother & Hval & _).
  destruct ok.
  - destruct Hok as (_ & _ & -> & _).
    exists s', [Wait (clock s) 15]. split; [reflexivity|]. split; [exact Hd|].
    split; [exact Htr|]. split; [reflexivity|]. split; [reflexivity|].
    split; [exact (Hval eq_refl)|]. exact Hother.
  - destruct Hok as (x & [[_ Hc]|Hk] & _).
    + destruct (Hacc (clock s1)) as [Hc' _]. rewrite Hc' in Hc. discriminate.
    + destruct (Hacc (after b (clock s1))) as [_ Hk']. rewrite Hk' in Hk. discriminate.
Qed.

(** A click on a locator that is clickable and accepts the click. *)
Lemma click_element_safe_hit (b : Browser) (l : locator) (e : WebElement)
  (timeout : option Z) (s : State) :
  _driver s = Some b ->
  clickable b (clock s) l = Ret (Some e) ->
  click b (after b (clock s)) e = Ret tt ->
  DriverManager.click_element_safe l timeout s
  = Some (Ret true,
          moved s (after b (after b (clock s))) [Wait (clock s) (or_default timeout 15)]).
Proof.
  intros Hb Hask Hclick. unfold DriverManager.click_element_safe, bind at 1.
  rewrite (safe_wait_at_once (fun b t => clickable b t l) _ (fun _ => eq_refl)
             (ElementNotClickable l) b _ s e Hb Hask
           : DriverManager.wait_for_element_clickable l timeout s = _).
  unfold try_except, bind, element_click.
  rewrite (command_live _ (moved s (clock s + Z.of_N (latency b (clock s)))
                             [Wait (clock s) (or_default timeout 15)]) b Hb).
  cbn [clock moved]. fold (after b (clock s)). rewrite Hclick. reflexivity.
Qed.

(** X20.  [login] types into the first selector of its list, whichever
    selector found the field.  On a page that does not change, when
    [#email] matches nothing while a later e-mail selector resolves to a
    visible field, [login] finds the field through that selector, then
    waits the default 15 s for [#email], prints "failed to enter email"
    and returns [False]: nothing is typed anywhere. *)
Theorem login_types_into_the_first_selector
  (b : Browser) (s : State) (out : list line) (email password : string)
  (pre : list string) (selector : string) (post : list string) (e : WebElement) :
  _driver s = Some b ->
  static_page b ->
  LoginPage.email_input_selectors = ("#email"%string :: pre) ++ selector :: post ->
  absent b "#email" ->
  (forall p, In p pre -> never_matches b p) ->
  resolves_at b (clock s) selector e ->
  exists c' t rest,
    LoginPage.login email password {| session := s; stdout := out |}
    = Some (Ret false, c')
    /\ stdout c' = FailedToEnterEmail :: AttemptingLogin email :: out
    /\ values (session c') = values s
    /\ trace (session c')
       = Printed (ElementNotFound (DriverManager.by_css "#email"))
         :: Wait t 15 :: Printed (FoundWithSelector selector) :: rest.
Proof.
  intros Hb Hstatic Hsplit Habs Hn Hres.
  unfold LoginPage.login. unfold pbind at 1, say at 1. cbn [session stdout].
  unfold pbind at 1, lift at 1. cbn [session stdout].
  unfold BasePage.try_multiple_selectors.
  assert (Hn' : forall p, In p ("#email"%string :: pre) -> never_matches b p).
  { intros p [<-|Hp]; [|now apply Hn]. intros t e' Hf. rewrite (Habs t) in Hf. discriminate. }
  destruct (try_each_hit b LoginPage.email_input_selectors selector post e Hstatic
              ("#email"%string :: pre) s Hb Hn' Hres) as (t & evs & Hrun & _).
  rewrite <- Hsplit in Hrun. rewrite Hrun.
  unfold pbind at 1, lift at 1. cbn [session stdout].
  unfold BasePage.type_text, DriverManager.type_text_safe, bind at 1.
  change (item0 LoginPage.email_input_selectors) with "#email"%string.
  destruct (find_element_safe_absent b (DriverManager.by_css "#email") None
              (moved s t (Printed (FoundWithSelector selector) :: evs)) Hb Habs)
    as (t1 & Hrun1 & _).
  change (or_default None 15) with 15 in Hrun1. rewrite Hrun1. cbn.
  eexists. exists t, (evs ++ trace s). split; [reflexivity|]. cbn.
  split; [reflexivity|]. split; reflexivity.
Qed.

(** On a login page whose e-mail field has no [id] the field is found by
    [input[type="email"]] and never typed into. *)
Lemma login_types_into_the_first_selector_witness :
  exists c' t rest,
    LoginPage.login "demo@eduassist.com" "demo123"
      {| session := initialized unlabelled_login; stdout := [] |}
    = Some (Ret false, c')
    /\ stdout c' = [FailedToEnterEmail; AttemptingLogin "demo@eduassist.com"]
    /\ values (session c') = values (initialized unlabelled_login)
    /\ trace (session c')
       = Printed (ElementNotFound (DriverManager.by_css "#email"))
         :: Wait t 15
         :: Printed (FoundWithSelector ("input[type=" ++ quoted "email" ++ "]")) :: rest.
Proof.
  apply (login_types_into_the_first_selector unlabelled_login (initialized unlabelled_login)
           [] "demo@eduassist.com" "demo123" []
           ("input[type=" ++ quoted "email" ++ "]")%string
           (skipn 2 LoginPage.email_input_selectors) 1%nat).
  - reflexivity.
  - split; intros; reflexivity.
  - reflexivity.
  - intros t. reflexivity.
  - intros p [].
  - split; reflexivity.
Defined.

(** The [for] loop over the button selectors stops at a first selector
    that is clickable and accepts the click. *)
Lemma click_login_button_first (b : Browser) (selector : string) (rest : list string)
  (e : WebElement) (c : Console) :
  _driver (session c) = Some b ->
  always_clicks b selector e ->
  LoginPage.click_login_button (selector :: rest) c
  = Some (Ret true,
          {| session := moved (session c) (after b (after b (clock (session c))))
                          [Wait (clock (session c)) 15];
             stdout := LoginButtonClickedCss selector :: stdout c |}).
Proof.
  intros Hb [Hask Hclick]. cbn [LoginPage.click_login_button].
  unfold pbind at 1, lift. unfold BasePage.click_element.
  rewrite (click_element_safe_hit b (DriverManager.by_css selector) e None (session c) Hb
             (Hask _) (Hclick _)).
  reflexivity.
Qed.

(** The first selector of the list is found at once and is visible. *)
Lemma try_each_first_hit (b : Browser) (all : list string) (selector : string)
  (rest : list string) (e : WebElement) (s : State) :
  _driver s = Some b ->
  static_page b ->
  resolves_at b (clock s) selector e ->
  exists t,
    BasePage.try_each all (selector :: rest) "find" s
    = Some (Ret (Some (BasePage.Element e)),
            moved s t [Printed (FoundWithSelector selector); Wait (clock s) 2]).
Proof.
  intros Hb [_ Hshown] [Hf Hd]. cbn [BasePage.try_each]. unfold bind at 1.
  destruct (attempt_hit b selector e s Hb Hf) as (t & Hrun).
  { now rewrite (Hshown _ (clock s)). }
  rewrite Hrun. now exists t.
Qed.

(** X21.  The happy path of [login].  On a page that does not change,
    where [#email] and [#password] resolve to two different visible fields
    that accept keys and the first button selector is clickable and
    accepts the click, [login] returns [True]; the e-mail field then holds
    the e-mail and the password field the password; it has printed its
    five progress lines, started the waits 2 s, 15 s, 2 s, 15 s, 15 s in
    this order and slept once, for the 2 s after the click. *)
Theorem login_happy_path
  (b : Browser) (s : State) (out : list line) (email password : string)
  (e1 e2 e3 : WebElement) :
  _driver s = Some b ->
  static_page b ->
  e1 <> e2 ->
  resolves_at b (clock s) "#email" e1 ->
  resolves_at b (clock s) "#password" e2 ->
  accepts_keys b e1 ->
  accepts_keys b e2 ->
  always_clicks b (item0 LoginPage.login_button_selectors) e3 ->
  exists c' evs,
    LoginPage.login email password {| session := s; stdout := out |}
    = Some (Ret true, c')
    /\ stdout c'
       = [ LoginFormSubmitted;
           LoginButtonClickedCss (item0 LoginPage.login_button_selectors);
           PasswordEntered; EmailEntered; AttemptingLogin email ] ++ out
    /\ values (session c') e1 = email
    /\ values (session c') e2 = password
    /\ trace (session c') = evs ++ trace s
    /\ waits_of evs = [15; 15; 2; 15; 2]
    /\ sleeps_of evs = 1%nat.
Proof.
  intros Hb [Hfind Hshown] Hne [Hf1 Hd1] [Hf2 Hd2] Hk1 Hk2 Hclick.
  assert (Hstatic : static_page b) by (split; assumption).
  unfold LoginPage.login. unfold pbind at 1, say at 1. cbn [session stdout].
  (* the e-mail field *)
  unfold pbind at 1, lift at 1. cbn [session stdout].
  unfold BasePage.try_multiple_selectors.
  destruct (try_each_first_hit b LoginPage.email_input_selectors "#email"
              (tl LoginPage.email_input_selectors) e1 s Hb Hstatic (conj Hf1 Hd1))
    as (t1 & Hrun1).
  change ("#email"%string :: tl LoginPage.email_input_selectors)
    with LoginPage.email_input_selectors in Hrun1.
  rewrite Hrun1.
  unfold pbind at 1, lift at 1. cbn [session stdout].
  change (item0 LoginPage.email_input_selectors) with "#email"%string.
  unfold BasePage.type_text.
  set (sa := moved s t1 [Printed (FoundWithSelector "#email"); Wait (clock s) 2]).
  assert (Hba : _driver sa = Some b) by exact Hb.
  destruct (type_text_safe_hit b (DriverManager.by_css "#email") e1 email sa Hba)
    as (sb & evsb & Hrunb & Hbb & Htrb & Hwb & Hsb & Hvalb & Hotherb).
  { now rewrite (Hfind _ (clock s)). }
  { exact Hk1. }
  rewrite Hrunb. cbn [negb]. cbv iota.
  unfold pbind at 1, say at 1. cbn [session stdout].
  (* the password field *)
  unfold pbind at 1, lift at 1. cbn [session stdout].
  destruct (try_each_first_hit b LoginPage.password_input_selectors "#password"
              (tl LoginPage.password_input_selectors) e2 sb Hbb Hstatic)
    as (t2 & Hrun2).
  { split; [now rewrite (Hfind _ (clock s)) | now rewrite (Hshown _ (clock s))]. }
  change ("#password"%string :: tl LoginPage.password_input_selectors)
    with LoginPage.password_input_selectors in Hrun2.
  rewrite Hrun2.
  unfold pbind at 1, lift at 1. cbn [session stdout].
  change (item0 LoginPage.password_input_selectors) with "#password"%string.
  set (sc := moved sb t2 [Printed (FoundWithSelector "#password"); Wait (clock sb) 2]).
  assert (Hbc : _driver sc = Some b) by exact Hbb.
  destruct (type_text_safe_hit b (DriverManager.by_css "#password") e2 password sc Hbc)
    as (sd & evsd & Hrund & Hbd & Htrd & Hwd & Hsd & Hvald & Hotherd).
  { now rewrite (Hfind _ (clock s)). }
  { exact Hk2. }
  rewrite Hrund. cbn [negb]. cbv iota.
  unfold pbind at 1, say at 1. cbn [session stdout].
  (* the button *)
  unfold pbind at 1.
  change LoginPage.login_button_selectors
    with (item0 LoginPage.login_button_selectors :: tl LoginPage.login_button_selectors)
    at 1.
  rewrite (click_login_button_first b _ _ e3
             {| session := sd;
                stdout := PasswordEntered :: EmailEntered :: AttemptingLogin email :: out |}
             Hbd Hclick).
  cbn [session stdout]. unfold pbind at 1, pret at 1. cbn [negb]. cbv iota.
  unfold pbind at 1, lift at 1, time_sleep. cbn [session stdout].
  unfold pbind at 1, say at 1, pret. cbn [session stdout].
  eexists.
  exists (Sleep (after b (after b (clock sd))) 2000 :: Wait (clock sd) 15
          :: evsd ++ [Printed (FoundWithSelector "#password"); Wait (clock sb) 2]
          ++ evsb ++ [Printed (FoundWithSelector "#email"); Wait (clock s) 2]).
  split; [reflexivity|]. cbn [session stdout].
  split; [reflexivity|].
  cbn [values moved with_clock with_event clock trace].
  split.
  { rewrite (Hotherd e1 Hne). unfold sc. cbn [values moved]. exact Hvalb. }
  split; [exact Hvald|].
  split.
  { rewrite Htrd. unfold sc. cbn [trace moved]. rewrite Htrb. unfold sa. cbn [trace moved].
    repeat (first [rewrite <- app_assoc | progress cbn [app]]). reflexivity. }
  split.
  - cbn [waits_of]. rewrite !waits_of_app, Hwd, Hwb. reflexivity.
  - cbn [sleeps_of]. rewrite !sleeps_of_app, Hsd, Hsb. reflexivity.
Qed.

(** After a rejected login the form is still in place; logging in again
    fills both fields and clicks the submit button. *)
Lemma login_happy_path_witness :
  exists c' evs,
    LoginPage.login "demo@eduassist.com" "demo123"
      {| session := initialized rejected_login; stdout := [] |}
    = Some (Ret true, c')
    /\ stdout c'
       = [ LoginFormSubmitted;
           LoginButtonClickedCss (item0 LoginPage.login_button_selectors);
           PasswordEntered; EmailEntered; AttemptingLogin "demo@eduassist.com" ] ++ []
    /\ values (session c') 1%nat = "demo@eduassist.com"%string
    /\ values (session c') 2%nat = "demo123"%string
    /\ trace (session c') = evs ++ trace (initialized rejected_login)
    /\ waits_of evs = [15; 15; 2; 15; 2]
    /\ sleeps_of evs = 1%nat.
Proof.
  apply (login_happy_path rejected_login (initialized rejected_login) []
           "demo@eduassist.com" "demo123" 1%nat 2%nat 3%nat).
  - reflexivity.
  - exact rejected_login_static.
  - discriminate.
  - split; reflexivity.
  - split; reflexivity.
  - intros t. split; [reflexivity | intros keys; reflexivity].
  - intros t. split; [reflexivity | intros keys; reflexivity].
  - split; intros t; reflexivity.
Defined.

(** ** [LoginPage.wait_for_login_success] and [verify_page_title] *)

(** The body of the loop of [wait_for_login_success]. *)
Lemma login_sample_live (b : Browser) (c : Console) (u : string) :
  _driver (session c) = Some b ->
  current_url b (clock (session c)) = Ret u ->
  pbind (lift BasePage.get_current_url)
    (fun current_url =>
       if negb (contains "/login" current_url)
       then pbind (say (LoginPage.success_line current_url)) (fun _ => pret (Some true))
       else pret None) c
  = Some (Ret (if negb (contains "/login" u) then Some true else None),
          {| session := moved (session c) (after b (clock (session c)))
                          [Url (clock (session c)) u];
             stdout := if negb (contains "/login" u)
                       then LoginPage.success_line u :: stdout c
                       else stdout c |}).
Proof.
  intros Hb Hu. unfold pbind at 1, lift, BasePage.get_current_url,
    DriverManager.get_current_url.
  rewrite (observe_live Url current_url b (session c) Hb), Hu.
  destruct (negb (contains "/login" u)); reflexivity.
Qed.

(** The loop of [wait_for_login_success] runs as the loop of
    [wait_for_url_contains] does, sampling the URL for the absence of
    [/login]; it prints one line when it leaves with [True]. *)
Lemma login_loop_runs (b : Browser) (start_time timeout : Z) :
  (forall t, exists u, current_url b t = Ret u) ->
  forall fuel c r s',
    _driver (session c) = Some b ->
    BasePage.while_before fuel start_time timeout
      (sample Url current_url (fun u => negb (contains "/login" u))) (session c)
    = Some (Ret r, s') ->
    match r with
    | Some v =>
        v = true
        /\ exists u,
             contains "/login" u = false
             /\ polling fuel start_time timeout
                  (pbind (lift BasePage.get_current_url)
                     (fun current_url =>
                        if negb (contains "/login" current_url)
                        then pbind (say (LoginPage.success_line current_url))
                                   (fun _ => pret (Some true))
                        else pret None)) c
                = Some (Ret (Some true),
                        {| session := s'; stdout := LoginPage.success_line u :: stdout c |})
    | None =>
        polling fuel start_time timeout
          (pbind (lift BasePage.get_current_url)
             (fun current_url =>
                if negb (contains "/login" current_url)
                then pbind (say (LoginPage.success_line current_url))
                           (fun _ => pret (Some true))
                else pret None)) c
        = Some (Ret None, {| session := s'; stdout := stdout c |})
    end.
Proof.
  intros Hread. induction fuel as [|fuel IH]; intros c r s' Hb Hrun; [discriminate|].
  assert (Hc : {| session := session c; stdout := stdout c |} = c) by now destruct c.
  assert (Hstep : forall body : Page (option bool),
            polling (S fuel) start_time timeout body c
            = if clock (session c) - start_time <? 1000 * timeout
              then pbind body
                     (fun r => match r with
                               | Some v => pret (Some v)
                               | None => pbind (lift (time_sleep 500))
                                           (fun _ => polling fuel start_time timeout body)
                               end) c
              else pret None c).
  { intros body. cbn [polling]. unfold pbind at 1, lift at 1, time_time at 1.
    cbn [session stdout]. rewrite Hc.
    destruct (clock (session c) - start_time <? 1000 * timeout); reflexivity. }
  cbn [BasePage.while_before] in Hrun. unfold bind at 1, time_time at 1 in Hrun.
  destruct (clock (session c) - start_time <? 1000 * timeout) eqn:Hlt.
  - destruct (Hread (clock (session c))) as [u Hu].
    unfold bind at 1 in Hrun.
    rewrite (sample_live Url current_url (fun u => negb (contains "/login" u)) b
               (session c) u Hb Hu) in Hrun.
    destruct (negb (contains "/login" u)) eqn:Haway.
    + unfold ret in Hrun. injection Hrun as <- <-. split; [reflexivity|].
      exists u. split; [now destruct (contains "/login" u)|].
      rewrite Hstep. cbv iota. unfold pbind at 1.
      rewrite (login_sample_live b c u Hb Hu), Haway. reflexivity.
    + unfold bind at 1, time_sleep at 1 in Hrun.
      match type of Hrun with
      | BasePage.while_before _ _ _ _ ?st = _ =>
          specialize (IH {| session := st; stdout := stdout c |} r s' Hb Hrun)
      end.
      cbn [session stdout] in IH.
      destruct r as [v|].
      * destruct IH as (-> & u' & Hu' & Hp). split; [reflexivity|].
        exists u'. split; [exact Hu'|].
        rewrite Hstep. cbv iota. unfold pbind at 1.
        rewrite (login_sample_live b c u Hb Hu), Haway.
        unfold pbind at 1, lift at 1, time_sleep at 1. cbn [session stdout]. exact Hp.
      * rewrite Hstep. cbv iota. unfold pbind at 1.
        rewrite (login_sample_live b c u Hb Hu), Haway.
        unfold pbind at 1, lift at 1, time_sleep at 1. cbn [session stdout]. exact IH.
  - unfold ret in Hrun. injection Hrun as <- <-. rewrite Hstep. cbv iota.
    unfold pret. now rewrite Hc.
Qed.

(** X22.  [wait_for_login_success] over a live session whose URL can be
    read: it returns a boolean; [True] exactly when one of the URLs it
    sampled before the deadline does not contain [/login], whatever else
    that URL is: the three success indicators only choose between two
    wordings of the printed line; [False] comes with the timeout line and
    no earlier than the timeout. *)
Theorem wait_for_login_success_means_left_login
  (b : Browser) (s : State) (out : list line) (timeout : option Z) :
  _driver s = Some b ->
  (forall t, exists u, current_url b t = Ret u) ->
  exists r c' evs,
    LoginPage.wait_for_login_success timeout {| session := s; stdout := out |}
    = Some (Ret r, c')
    /\ trace (session c') = evs ++ trace s
    /\ (forall t u, In (Url t u) evs ->
           current_url b t = Ret u
           /\ clock s <= t < clock s + 1000 * or_default timeout 15)
    /\ (r = true <-> exists t u, In (Url t u) evs /\ contains "/login" u = false)
    /\ (r = true ->
        exists u, contains "/login" u = false
                  /\ stdout c' = LoginPage.success_line u :: WaitingForLoginSuccess :: out)
    /\ (r = false ->
        stdout c' = LoginSuccessTimeout :: WaitingForLoginSuccess :: out
        /\ clock s + 1000 * or_default timeout 15 <= clock (session c')).
Proof.
  intros Hb Hread.
  destruct (polling_live Url current_url (fun u => negb (contains "/login" u)) b
              Url_inj Url_not_sleep Hread (or_default timeout 15) s Hb)
    as (r & t & evs & Hrun & Ht & Hsamples & Hiff & Hfalse & _).
  unfold bind at 1, time_time at 1 in Hrun. unfold bind in Hrun.
  destruct (BasePage.while_before (BasePage.rounds_of (or_default timeout 15)) (clock s)
              (or_default timeout 15)
              (sample Url current_url (fun u => negb (contains "/login" u))) s)
    as [[[r0|x] s']|] eqn:Hloop; [|discriminate|discriminate].
  unfold ret in Hrun. injection Hrun as Hr Hs'.
  pose proof (login_loop_runs b (clock s) (or_default timeout 15) Hread
                (BasePage.rounds_of (or_default timeout 15))
                {| session := s; stdout := WaitingForLoginSuccess :: out |} r0 s' Hb Hloop)
    as Hpage.
  cbn [session stdout] in Hpage.
  assert (Hiff' : r = true <-> exists t' u, In (Url t' u) evs /\ contains "/login" u = false).
  { rewrite Hiff. split; intros (t' & u & Hin & Hc); exists t', u; (split; [exact Hin|]);
      now destruct (contains "/login" u). }
  unfold LoginPage.wait_for_login_success.
  change (or_default timeout (config.TIMEOUTS config.medium)) with (or_default timeout 15).
  cbv zeta. unfold pbind at 1, say at 1. cbn [session stdout].
  unfold pbind at 1, lift at 1, time_time at 1. cbn [session stdout].
  unfold pbind at 1.
  destruct r0 as [v|].
  - destruct Hpage as (-> & u & Haway & Hp). rewrite Hp.
    cbn [BasePage.or_False] in Hr. subst r s'.
    exists true. eexists. exists evs. split; [reflexivity|].
    cbn [session stdout]. split; [reflexivity|]. split; [exact Hsamples|].
    split; [exact Hiff'|]. split; [|discriminate]. intros _. exists u. now split.
  - rewrite Hpage. cbn [BasePage.or_False] in Hr. subst r s'.
    exists false. eexists. exists evs. unfold pbind, say, pret. cbn [session stdout].
    split; [reflexivity|]. cbn [session stdout]. split; [reflexivity|].
    split; [exact Hsamples|]. split; [exact Hiff'|]. split; [discriminate|].
    intros _. split; [reflexivity|]. cbn [clock moved]. exact (Hfalse eq_refl).
Qed.

(** A browser that shows a blank page counts as logged in. *)
Lemma wait_for_login_success_means_left_login_witness :
  exists r c' evs,
    LoginPage.wait_for_login_success (Some 5)
      {| session := initialized empty_page; stdout := [] |}
    = Some (Ret r, c')
    /\ trace (session c') = evs ++ trace (initialized empty_page)
    /\ (forall t u, In (Url t u) evs ->
           current_url empty_page t = Ret u
           /\ clock (initialized empty_page) <= t
              < clock (initialized empty_page) + 1000 * or_default (Some 5) 15)
    /\ (r = true <-> exists t u, In (Url t u) evs /\ contains "/login" u = false)
    /\ (r = true ->
        exists u, contains "/login" u = false
                  /\ stdout c' = [LoginPage.success_line u; WaitingForLoginSuccess])
    /\ (r = false ->
        stdout c' = [LoginSuccessTimeout; WaitingForLoginSuccess]
        /\ clock (initialized empty_page) + 1000 * or_default (Some 5) 15
           <= clock (session c')).
Proof.
  apply (wait_for_login_success_means_left_login empty_page (initialized empty_page) []
           (Some 5)).
  - reflexivity.
  - intros t. eexists. reflexivity.
Defined.

Lemma find_existsb {A} (f : A -> bool) (l : list A) :
  existsb f l = match find f l with Some _ => true | None => false end.
Proof.
  induction l as [|a l IH]; [reflexivity|]. simpl. destruct (f a); [reflexivity | exact IH].
Qed.

(** X23.  [LoginPage.verify_page_title] over a live session whose title
    is [page_title] and whose URL is [url] throughout the call: the answer
    is [True] exactly when the lower-cased title contains one of the four
    expected keywords or the URL contains [/login].  On the login page the
    check therefore passes whatever the title is. *)
Theorem verify_page_title_passes_on_login_url
  (b : Browser) (s : State) (out : list line) (page_title url : string) :
  _driver s = Some b ->
  title b (clock s) = Ret page_title ->
  (forall t, current_url b t = Ret url) ->
  exists c',
    LoginPage.verify_page_title {| session := s; stdout := out |}
    = Some (Ret (existsb (fun keyword => contains keyword (lower page_title))
                         LoginPage.expected_keywords
                 || contains "/login" url), c').
Proof.
  intros Hb Htitle Hurl.
  assert (Hread : forall c, _driver (session c) = Some b ->
            lift BasePage.get_current_url c
            = Some (Ret url,
                    {| session := moved (session c) (after b (clock (session c)))
                                    [Url (clock (session c)) url];
                       stdout := stdout c |})).
  { intros c Hc. unfold lift, BasePage.get_current_url, DriverManager.get_current_url.
    now rewrite (observe_live Url current_url b (session c) Hc), Hurl. }
  assert (Hrest : forall c, _driver (session c) = Some b ->
            exists c',
              match find (fun keyword => contains keyword (lower page_title))
                         LoginPage.expected_keywords with
              | Some keyword =>
                  pbind (say (TitleVerified page_title keyword)) (fun _ => pret true)
              | None =>
                  pbind (lift BasePage.get_current_url)
                    (fun current_url =>
                       if contains "/login" current_url
                       then pbind (say (TitleUnexpectedUrlConfirms page_title))
                                  (fun _ => pret true)
                       else pbind (say (TitleUnexpected page_title))
                                  (fun _ => pret false))
              end c
              = Some (Ret (existsb (fun keyword => contains keyword (lower page_title))
                                   LoginPage.expected_keywords
                           || contains "/login" url), c')).
  { intros c Hc. rewrite find_existsb.
    destruct (find (fun keyword => contains keyword (lower page_title))
                   LoginPage.expected_keywords) as [keyword|].
    - eexists. reflexivity.
    - unfold pbind at 1. rewrite (Hread c Hc).
      destruct (contains "/login" url); eexists; reflexivity. }
  unfold LoginPage.verify_page_title.
  unfold pbind at 1, lift at 1, BasePage.get_page_title, DriverManager.get_title.
  cbn [session stdout].
  rewrite (observe_live Title title b s Hb), Htitle.
  set (c1 := {| session := moved s (after b (clock s)) [Title (clock s) page_title];
                stdout := out |}).
  assert (Hb1 : _driver (session c1) = Some b) by exact Hb.
  unfold pbind at 1.
  destruct (String.eqb page_title EmptyString || String.eqb (strip page_title) EmptyString).
  - unfold pbind at 1. rewrite (Hread c1 Hb1).
    destruct (contains "/login" url) eqn:Hlogin.
    + rewrite orb_true_r. eexists. reflexivity.
    + unfold pret at 1.
      destruct (Hrest {| session := moved (session c1) (after b (clock (session c1)))
                                      [Url (clock (session c1)) url];
                         stdout := stdout c1 |} Hb) as (c' & Hrun).
      exists c'. exact Hrun.
  - unfold pret at 1. destruct (Hrest c1 Hb1) as (c' & Hrun). exists c'. exact Hrun.
Qed.

(** A login page whose title has none of the keywords passes the check. *)
Lemma verify_page_title_passes_on_login_url_witness :
  exists c',
    LoginPage.verify_page_title {| session := initialized unlabelled_login; stdout := [] |}
    = Some (Ret (existsb (fun keyword => contains keyword (lower "Welcome back"))
                         LoginPage.expected_keywords
                 || contains "/login" "http://localhost:3000/login"), c').
Proof.
  apply (verify_page_title_passes_on_login_url unlabelled_login
           (initialized unlabelled_login) [] "Welcome back" "http://localhost:3000/login").
  - reflexivity.
  - reflexivity.
  - intros t. reflexivity.
Defined.

(** ** [LoginPage.login_with_enter_key] *)

(** [type_text_safe] over a live session returns a boolean and leaves the
    session live. *)
Lemma type_text_safe_live (b : Browser) (l : locator) (keys : string) (clear_first : bool)
  (s : State) :
  _driver s = Some b ->
  soft_lookup b l ->
  exists ok s',
    DriverManager.type_text_safe l keys clear_first s = Some (Ret ok, s')
    /\ _driver s' = Some b.
Proof.
  intros Hb Hsoft. unfold DriverManager.type_text_safe, bind at 1.
  destruct (find_element_safe_live l None s b Hb) as (r & t & evs & Hrun & _ & Hout).
  rewrite Hrun. destruct r as [[e|]|x]; unfold safe_wait_outcome in Hout.
  - destruct (typing_block b e keys clear_first
                (moved s (t + Z.of_N (latency b t)) (evs ++ [Wait (clock s) (or_default None 15)]))
                Hb) as (ok & s' & _ & Hrun' & _ & Hd & _).
    rewrite Hrun'. now exists ok, s'.
  - exists false. eexists. split; [reflexivity | exact Hb].
  - destruct Hout as (Hask & Hx & _).
    destruct (find_element b t l) as [e'|x'] eqn:Hf; simpl in Hask; [discriminate|].
    injection Hask as ->. now specialize (Hsoft t _ Hf).
Qed.

(** [send_keys_to_element] over a live session returns a boolean and leaves
    the session live. *)
Lemma send_keys_to_element_live (b : Browser) (l : locator) (key : string) (c : Console) :
  _driver (session c) = Some b ->
  soft_lookup b l ->
  exists ok c',
    send_keys_to_element l key c = Some (Ret ok, c')
    /\ _driver (session c') = Some b.
Proof.
  intros Hb Hsoft. unfold send_keys_to_element, pbind at 1, lift at 1,
    BasePage.find_element_safe.
  destruct (find_element_safe_live l None (session c) b Hb)
    as (r & t & evs & Hrun & _ & Hout).
  rewrite Hrun. destruct r as [[e|]|x]; unfold safe_wait_outcome in Hout.
  - unfold pcatch, pbind, lift, element_press. cbn [session stdout].
    rewrite (command_live _ (moved (session c) (t + Z.of_N (latency b t))
                               (evs ++ [Wait (clock (session c)) (or_default None 15)])) b Hb).
    destruct (send_keys b _ e key) as [[]|x].
    + exists true. eexists. split; [reflexivity | exact Hb].
    + exists false. eexists. split; [reflexivity | exact Hb].
  - exists false. eexists. split; [reflexivity | exact Hb].
  - destruct Hout as (Hask & Hx & _).
    destruct (find_element b t l) as [e'|x'] eqn:Hf; simpl in Hask; [discriminate|].
    injection Hask as ->. now specialize (Hsoft t _ Hf).
Qed.

(** X24.  [login_with_enter_key] reports success without looking at what
    its typing did.  On a page that does not change, with soft lookups,
    as soon as some e-mail selector and some password selector resolve to
    visible fields the method returns [True] after printing "login
    submitted with Enter key", whether or not the fields accepted the text
    and the Enter key, and whether or not the first selector of each list,
    the one it types into, matches anything. *)
Theorem login_with_enter_key_ignores_failures
  (b : Browser) (s : State) (out : list line) (email password : string)
  (pre1 : list string) (selector1 : string) (post1 : list string) (e1 : WebElement)
  (pre2 : list string) (selector2 : string) (post2 : list string) (e2 : WebElement) :
  _driver s = Some b ->
  static_page b ->
  soft_lookups b ->
  LoginPage.email_input_selectors = pre1 ++ selector1 :: post1 ->
  LoginPage.password_input_selectors = pre2 ++ selector2 :: post2 ->
  (forall p, In p pre1 -> never_matches b p) ->
  (forall p, In p pre2 -> never_matches b p) ->
  resolves_at b (clock s) selector1 e1 ->
  resolves_at b (clock s) selector2 e2 ->
  exists c' rest,
    LoginPage.login_with_enter_key email password {| session := s; stdout := out |}
    = Some (Ret true, c')
    /\ stdout c' = LoginSubmittedWithEnter :: rest.
Proof.
  intros Hb Hstatic Hsoft Hsplit1 Hsplit2 Hn1 Hn2 Hres1 Hres2.
  assert (Hany : forall t sel e, resolves_at b (clock s) sel e -> resolves_at b t sel e).
  { intros t sel e [Hf Hd]. destruct Hstatic as [Hfind Hshown]. split.
    - now rewrite (Hfind _ (clock s)).
    - now rewrite (Hshown _ (clock s)). }
  unfold LoginPage.login_with_enter_key. unfold pbind at 1, say at 1. cbn [session stdout].
  unfold pbind at 1, lift at 1. cbn [session stdout].
  unfold BasePage.try_multiple_selectors.
  destruct (try_each_hit b LoginPage.email_input_selectors selector1 post1 e1 Hstatic
              pre1 s Hb Hn1 Hres1) as (t1 & evs1 & Hrun1 & _).
  rewrite <- Hsplit1 in Hrun1. rewrite Hrun1.
  unfold pbind at 1, lift at 1. cbn [session stdout]. unfold BasePage.type_text.
  destruct (type_text_safe_live b (DriverManager.by_css (item0 LoginPage.email_input_selectors))
              email true (moved s t1 (Printed (FoundWithSelector selector1) :: evs1)) Hb)
    as (ok1 & sb & Hrunb & Hbb).
  { intros t x. apply (proj1 Hsoft). }
  rewrite Hrunb.
  unfold pbind at 1, lift at 1. cbn [session stdout].
  destruct (try_each_hit b LoginPage.password_input_selectors selector2 post2 e2 Hstatic
              pre2 sb Hbb Hn2 (Hany _ _ _ Hres2)) as (t2 & evs2 & Hrun2 & _).
  rewrite <- Hsplit2 in Hrun2. rewrite Hrun2.
  unfold pbind at 1, lift at 1. cbn [session stdout].
  destruct (type_text_safe_live b
              (DriverManager.by_css (item0 LoginPage.password_input_selectors))
              password true (moved sb t2 (Printed (FoundWithSelector selector2) :: evs2)) Hbb)
    as (ok2 & sd & Hrund & Hbd).
  { intros t x. apply (proj1 Hsoft). }
  rewrite Hrund.
  unfold pbind at 1.
  destruct (send_keys_to_element_live b
              (DriverManager.by_css (item0 LoginPage.password_input_selectors)) RETURN
              {| session := sd; stdout := AttemptingLoginWithEnter email :: out |} Hbd)
    as (ok3 & c3 & Hrun3 & Hb3).
  { intros t x. apply (proj1 Hsoft). }
  rewrite Hrun3.
  unfold pbind, say, lift, time_sleep, pret. cbn [session stdout].
  eexists. eexists. split; reflexivity.
Qed.

(** On the login page whose e-mail field has no [id] and which has no
    password field with the id [password] either, nothing can be typed and
    the method still answers [True]. *)
Lemma login_with_enter_key_ignores_failures_witness :
  exists c' rest,
    LoginPage.login_with_enter_key "demo@eduassist.com" "demo123"
      {| session := initialized unlabelled_login; stdout := [] |}
    = Some (Ret true, c')
    /\ stdout c' = LoginSubmittedWithEnter :: rest.
Proof.
  apply (login_with_enter_key_ignores_failures unlabelled_login
           (initialized unlabelled_login) [] "demo@eduassist.com" "demo123"
           ["#email"%string] ("input[type=" ++ quoted "email" ++ "]")%string
           (skipn 2 LoginPage.email_input_selectors) 1%nat
           ["#password"%string] ("input[type=" ++ quoted "password" ++ "]")%string
           (skipn 2 LoginPage.password_input_selectors) 2%nat).
  - reflexivity.
  - split; intros; reflexivity.
  - split; intros t [by_ sel] x; simpl; destruct by_; try (intros H; now inversion H).
    destruct (String.eqb sel _); [|destruct (String.eqb sel _)]; intros H; now inversion H.
  - reflexivity.
  - reflexivity.
  - intros p [<-|[]] t e H. discriminate H.
  - intros p [<-|[]] t e H. discriminate H.
  - split; reflexivity.
  - split; reflexivity.
Defined.

(** ** [LoginPage.clear_login_form] *)

(** X25.  [clear_login_form] answers [True] whether or not it cleared
    anything, and does not protect its [clear()] calls.  Over a live
    session: when no e-mail and no password selector ever matches a
    visible element it prints "login form cleared" and returns [True] with
    every field value untouched; and on a page that does not change, when
    the e-mail field is found and its [clear()] raises, the method raises
    the same exception. *)
Theorem clear_login_form_reports_success
  (b : Browser) (s : State) (out : list line) :
  _driver s = Some b ->
  ((forall selector,
       In selector (LoginPage.email_input_selectors ++ LoginPage.password_input_selectors) ->
       never_matches b selector) ->
   exists c',
     LoginPage.clear_login_form {| session := s; stdout := out |} = Some (Ret true, c')
     /\ stdout c' = LoginFormCleared :: ClearingLoginForm :: out
     /\ values (session c') = values s)
  /\ (forall pre selector post e x,
        static_page b ->
        LoginPage.email_input_selectors = pre ++ selector :: post ->
        (forall p, In p pre -> never_matches b p) ->
        resolves_at b (clock s) selector e ->
        (forall t, clear b t e = Raise x) ->
        exists c',
          LoginPage.clear_login_form {| session := s; stdout := out |}
          = Some (Raise x, c')).
Proof.
  intros Hb. split.
  - intros Hnone.
    unfold LoginPage.clear_login_form. unfold pbind at 1, say at 1. cbn [session stdout].
    unfold pbind at 1, lift at 1. cbn [session stdout].
    unfold BasePage.try_multiple_selectors.
    destruct (try_each_miss b LoginPage.email_input_selectors
                LoginPage.email_input_selectors s Hb)
      as (t1 & evs1 & Hrun1 & _).
    { intros sel Hin. apply Hnone. apply in_or_app. now left. }
    rewrite Hrun1.
    unfold pbind at 1, lift at 1, LoginPage.clear_found at 1, ret at 1. cbn [session stdout].
    unfold pbind at 1, lift at 1. cbn [session stdout].
    destruct (try_each_miss b LoginPage.password_input_selectors
                LoginPage.password_input_selectors
                (moved s t1 (Printed (NoWorkingSelector LoginPage.email_input_selectors)
                             :: evs1)) Hb)
      as (t2 & evs2 & Hrun2 & _).
    { intros sel Hin. apply Hnone. apply in_or_app. now right. }
    rewrite Hrun2.
    unfold pbind, lift, LoginPage.clear_found, ret, say, pret. cbn [session stdout].
    eexists. split; [reflexivity|]. split; reflexivity.
  - intros pre selector post e x Hstatic Hsplit Hn Hres Hclear.
    unfold LoginPage.clear_login_form. unfold pbind at 1, say at 1. cbn [session stdout].
    unfold pbind at 1, lift at 1. cbn [session stdout].
    unfold BasePage.try_multiple_selectors.
    destruct (try_each_hit b LoginPage.email_input_selectors selector post e Hstatic
                pre s Hb Hn Hres) as (t1 & evs1 & Hrun1 & _).
    rewrite <- Hsplit in Hrun1. rewrite Hrun1.
    unfold pbind at 1, lift at 1, LoginPage.clear_found at 1, element_clear, bind at 1.
    cbn [session stdout].
    rewrite (command_live _ (moved s t1 (Printed (FoundWithSelector selector) :: evs1)) b Hb).
    rewrite Hclear. eexists. reflexivity.
Qed.

(** On the page without any element the form counts as cleared. *)
Lemma clear_login_form_reports_success_witness :
  ((forall selector,
       In selector (LoginPage.email_input_selectors ++ LoginPage.password_input_selectors) ->
       never_matches empty_page selector) ->
   exists c',
     LoginPage.clear_login_form {| session := initialized empty_page; stdout := [] |}
     = Some (Ret true, c')
     /\ stdout c' = [LoginFormCleared; ClearingLoginForm]
     /\ values (session c') = values (initialized empty_page))
  /\ (forall pre selector post e x,
        static_page empty_page ->
        LoginPage.email_input_selectors = pre ++ selector :: post ->
        (forall p, In p pre -> never_matches empty_page p) ->
        resolves_at empty_page (clock (initialized empty_page)) selector e ->
        (forall t, clear empty_page t e = Raise x) ->
        exists c',
          LoginPage.clear_login_form {| session := initialized empty_page; stdout := [] |}
          = Some (Raise x, c')).
Proof.
  exact (clear_login_form_reports_success empty_page (initialized empty_page) [] eq_refl).
Defined.
